(** * PyIRCBot: the session engine of [pyircbot.py], embedded and verified

    The development follows the source file top-down: the text primitives
    of the Python runtime the bot relies on ([str.split], [str.replace],
    [in], [str.startswith], [str.strip], [int], [str]), the configuration
    module, the statistics dictionaries, the month check, the message
    handler with its two dispatch loops, the command handlers, and the
    receive loop of [run].

    Text is modelled by [string]; a character is a code point below 256.
    Text with other characters is outside the model: [text_of] has no text
    for it, and nothing is stated about it.  The bytes of the connection are
    lists of [Byte.byte], decoded chunk by chunk as [run] does.  Python
    integers are [Z].  Dictionaries that are only looked up and updated by
    key are [gmap]s.  Logging and the rotation of log files are not
    modelled. *)

From stdpp Require Import base option list gmap strings sorting.
From Stdlib Require Import ZArith Lia Ascii DecimalString.

Local Open Scope string_scope.
Local Open Scope Z_scope.

(** ** Text primitives of the Python runtime *)

Module Py.

(** [s.startswith(p)] *)
Fixpoint startswith (p s : string) : bool :=
  match p, s with
  | EmptyString, _ => true
  | String _ _, EmptyString => false
  | String a p', String b s' => if Ascii.eqb a b then startswith p' s' else false
  end.

(** The rest of [s] after the prefix [p], when [s.startswith(p)]. *)
Fixpoint strip_prefix (p s : string) : option string :=
  match p, s with
  | EmptyString, _ => Some s
  | String _ _, EmptyString => None
  | String a p', String b s' => if Ascii.eqb a b then strip_prefix p' s' else None
  end.

(** The part of [s] before the suffix [p], when [s.endswith(p)]. *)
Fixpoint strip_suffix (p s : string) : option string :=
  if String.eqb s p then Some EmptyString
  else match s with
       | EmptyString => None
       | String c s' => String c <$> strip_suffix p s'
       end.

(** [sub in s] *)
Fixpoint contains (sub s : string) : bool :=
  startswith sub s ||
  match s with
  | EmptyString => false
  | String _ s' => contains sub s'
  end.

(** [s[n:]] *)
Fixpoint drop (n : nat) (s : string) : string :=
  match n, s with
  | O, _ => s
  | S _, EmptyString => EmptyString
  | S n', String _ s' => drop n' s'
  end.

(** [s.split(sep)] and [s.split(sep, maxsplit)] for a non-empty [sep]: the
    text is scanned from the left; [cur] is the text read since the last
    cut.  The first time [cur] ends with [sep] is the leftmost occurrence
    of [sep] after the last cut; the piece before it is emitted and the scan
    goes on behind the separator.  When [maxsplit] cuts have been made the
    remainder is the last piece. *)
Fixpoint split_go (sep : string) (maxsplit : option nat) (cur s : string)
  : list string :=
  match s with
  | EmptyString => [cur]
  | String c s' =>
      match maxsplit with
      | Some O => [cur +:+ s]
      | _ =>
          match strip_suffix sep (cur +:+ String c EmptyString) with
          | Some piece => piece :: split_go sep (Nat.pred <$> maxsplit) EmptyString s'
          | None => split_go sep maxsplit (cur +:+ String c EmptyString) s'
          end
      end
  end.

Definition split (sep : string) (s : string) : list string :=
  split_go sep None EmptyString s.

Definition splitn (sep : string) (maxsplit : nat) (s : string) : list string :=
  split_go sep (Some maxsplit) EmptyString s.

(** [sep.join(l)] *)
Fixpoint join (sep : string) (l : list string) : string :=
  match l with
  | [] => EmptyString
  | [x] => x
  | x :: l' => x +:+ sep +:+ join sep l'
  end.

(** [s.replace(old, new)] for a non-empty [old]: the occurrences replaced
    are the ones [split] cuts at, so the result is [new.join(s.split(old))]. *)
Definition replace (old new s : string) : string := join new (split old s).

(** [c.isspace()] for a code point below 256. *)
Definition isspace (c : Ascii.ascii) : bool :=
  let n := Ascii.nat_of_ascii c in
  ((9 <=? n) && (n <=? 13) || (28 <=? n) && (n <=? 32)
   || (n =? 133) || (n =? 160))%nat.

Fixpoint lstrip (s : string) : string :=
  match s with
  | EmptyString => EmptyString
  | String c s' => if isspace c then lstrip s' else s
  end.

(** [s.strip()] *)
Definition strip (s : string) : string :=
  String.rev (lstrip (String.rev (lstrip s))).

(** The text has a character that is not white space. *)
Definition has_nonspace (s : string) : Prop :=
  exists u c v, s = u +:+ String c v /\ isspace c = false.

(** Truth value of a string: the empty string is false. *)
Definition truthy (s : string) : bool :=
  match s with EmptyString => false | _ => true end.

(** [c] is a decimal digit, as [\d] matches it and [int] reads it.  Below
    code point 256 these are the ten digits [0] to [9]; the decimal digits of
    other scripts, which [\d] and [int] accept as well, all lie above and so
    outside the texts of this model. *)
Definition isdigit (c : Ascii.ascii) : bool :=
  let n := Ascii.nat_of_ascii c in ((48 <=? n) && (n <=? 57))%nat.

(** The number a string of digits denotes, read from the left. *)
Fixpoint int_go (acc : Z) (s : string) : Z :=
  match s with
  | EmptyString => acc
  | String c s' => int_go (10 * acc + (Z.of_nat (Ascii.nat_of_ascii c) - 48)) s'
  end.

(** The digits of a decimal literal: at least one digit, and single
    underscores only between digits; [after_digit] tells that the character
    before was a digit.  [None] for any other text. *)
Fixpoint int_digits (after_digit : bool) (s : string) : option string :=
  match s with
  | EmptyString => if after_digit then Some EmptyString else None
  | String c s' =>
      if isdigit c then String c <$> int_digits true s'
      else if Ascii.eqb c "_"%char then
        if after_digit then int_digits false s' else None
      else None
  end.

(** [sys.int_info.default_max_str_digits], the limit of the interpreter on
    the number of digits of a decimal conversion; the bot does not change
    it. *)
Definition max_str_digits : nat := 4300.

(** [int(s)]: white space around the literal is dropped, a sign may come
    first, and the digits are read in base ten.  [None] stands for the
    [ValueError] that [int] raises for a text that is no literal, and for one
    with more digits than [max_str_digits] (leading zeros count). *)
Definition int (s : string) : option Z :=
  let t := strip s in
  let '(sign, u) :=
    match t with
    | String c u =>
        if Ascii.eqb c "+"%char then (1, u)
        else if Ascii.eqb c "-"%char then (-1, u)
        else (1, t)
    | EmptyString => (1, t)
    end in
  match int_digits false u with
  | Some ds =>
      if (max_str_digits <? String.length ds)%nat then None
      else Some (sign * int_go 0 ds)
  | None => None
  end.

(** [str(n)] *)
Definition str (n : Z) : string := NilEmpty.string_of_int (Z.to_int n).

(** [str(l)] for a list of integers: ["[3, 5]"]. *)
Definition str_list (l : list Z) : string :=
  "[" +:+ join ", " (str <$> l) +:+ "]".

(** A text the scan of [split] reads through without cutting. *)
Definition uncut (sep s : string) : Prop := split_go sep None EmptyString s = [s].

(** The line terminator of the protocol, ["\r\n"]. *)
Definition CR : Ascii.ascii := Ascii.ascii_of_nat 13.
Definition LF : Ascii.ascii := Ascii.ascii_of_nat 10.
Definition CRLF : string := String CR (String LF EmptyString).

End Py.

(** ** [config.py] *)

Record Config := {
  IRC_SERVER : string;
  IRC_PORT : Z;
  IRC_CHANNEL : string;
  BOT_NICKNAME : string;
  BOT_USERNAME : string;
  BOT_REALNAME : string;
  LOG_LEVEL : string;
  LOG_FILE : string;
  COMMAND_PREFIX : string;
  MAX_DICE_COUNT : Z;
  MAX_DICE_SIDES : Z;
  AUTO_RECONNECT : bool;
  RECONNECT_DELAY : Z;
  RATE_LIMIT_ENABLED : bool;
  RATE_LIMIT_SECONDS : Z
}.

(** The values [config.py] takes when the environment sets none of them. *)
Definition default_config : Config := {|
  IRC_SERVER := "your_irc_server_here";
  IRC_PORT := 6667;
  IRC_CHANNEL := "your_channel_here";
  BOT_NICKNAME := "your_bot_nickname_here";
  BOT_USERNAME := "your_bot_username_here";
  BOT_REALNAME := "your_bot_realname_here";
  LOG_LEVEL := "INFO";
  LOG_FILE := "pyircbot.log";
  COMMAND_PREFIX := "!";
  MAX_DICE_COUNT := 10;
  MAX_DICE_SIDES := 100;
  AUTO_RECONNECT := true;
  RECONNECT_DELAY := 30;
  RATE_LIMIT_ENABLED := false;
  RATE_LIMIT_SECONDS := 2
|}.

(** ** The state of a [PyIRCBot] *)

(** One entry of [stats['monthly_stats']]. *)
Record Bucket := {
  month_messages_received : Z;
  month_commands_processed : Z;
  month_user_messages : gmap string Z
}.

(** [self.stats] ([start_time] is only read by the statistics report). *)
Record Stats := {
  messages_received : Z;
  commands_processed : Z;
  user_messages : gmap string Z;
  monthly_stats : gmap string Bucket
}.

(** What the process does to the outside: connection attempts, writes to
    the socket, and closing it.  The source never sleeps, so there is no
    event for waiting. *)
Inductive IOEvent :=
| Connect (ok : bool)
| Send (data : string)
| Close.

(** The state of the [random] module: an entropy source and the number of
    values drawn from it so far. *)
Record Rng := { raw : nat -> Z; used : nat }.

Record Bot := {
  server : string;
  port : Z;
  channel : string;
  nickname : string;
  username : string;
  realname : string;
  has_socket : bool;
  running : bool;
  current_month : string;
  stats : Stats;
  random : Rng;
  io : list IOEvent
}.

(** What a call of [handle_message] finds outside the bot: the month and
    the time [datetime.now()] formats, and the replies of the handlers whose
    bodies lie outside the session engine. *)
Record World := {
  now_month : string;
  now_text : string;
  external_reply : string -> string -> string -> string
}.

(** A command handler either returns a response (a string or [None]) or
    raises; it reads the bot and may draw random numbers. *)
Inductive HResult :=
| Return (response : option string)
| Raise (error : string).

Definition Handler : Type := string -> string -> Bot -> World -> HResult * Rng.

(** How a call that may raise ends. *)
Inductive Outcome :=
| Normal
| Raised (error : string).

Definition zero_bucket : Bucket :=
  {| month_messages_received := 0; month_commands_processed := 0;
     month_user_messages := ∅ |}.

(** Field updates. *)
Definition set_stats (f : Stats -> Stats) (b : Bot) : Bot :=
  {| server := server b; port := port b; channel := channel b;
     nickname := nickname b; username := username b; realname := realname b;
     has_socket := has_socket b; running := running b;
     current_month := current_month b; stats := f (stats b);
     random := random b; io := io b |}.

Definition set_current_month (m : string) (b : Bot) : Bot :=
  {| server := server b; port := port b; channel := channel b;
     nickname := nickname b; username := username b; realname := realname b;
     has_socket := has_socket b; running := running b;
     current_month := m; stats := stats b;
     random := random b; io := io b |}.

Definition set_nickname (n : string) (b : Bot) : Bot :=
  {| server := server b; port := port b; channel := channel b;
     nickname := n; username := username b; realname := realname b;
     has_socket := has_socket b; running := running b;
     current_month := current_month b; stats := stats b;
     random := random b; io := io b |}.

Definition set_random (g : Rng) (b : Bot) : Bot :=
  {| server := server b; port := port b; channel := channel b;
     nickname := nickname b; username := username b; realname := realname b;
     has_socket := has_socket b; running := running b;
     current_month := current_month b; stats := stats b;
     random := g; io := io b |}.

Definition set_running (r : bool) (b : Bot) : Bot :=
  {| server := server b; port := port b; channel := channel b;
     nickname := nickname b; username := username b; realname := realname b;
     has_socket := has_socket b; running := r;
     current_month := current_month b; stats := stats b;
     random := random b; io := io b |}.

Definition set_has_socket (h : bool) (b : Bot) : Bot :=
  {| server := server b; port := port b; channel := channel b;
     nickname := nickname b; username := username b; realname := realname b;
     has_socket := h; running := running b;
     current_month := current_month b; stats := stats b;
     random := random b; io := io b |}.

Definition emit (e : IOEvent) (b : Bot) : Bot :=
  {| server := server b; port := port b; channel := channel b;
     nickname := nickname b; username := username b; realname := realname b;
     has_socket := has_socket b; running := running b;
     current_month := current_month b; stats := stats b;
     random := random b; io := io b ++ [e] |}.

Definition set_monthly (f : gmap string Bucket -> gmap string Bucket) (s : Stats) : Stats :=
  {| messages_received := messages_received s;
     commands_processed := commands_processed s;
     user_messages := user_messages s;
     monthly_stats := f (monthly_stats s) |}.

(** The lines written to the socket, in order. *)
Definition sent (b : Bot) : list string :=
  omap (fun e => match e with Send d => Some d | _ => None end) (io b).

(** The number of connection attempts made. *)
Definition is_connect (e : IOEvent) : bool :=
  match e with Connect _ => true | _ => false end.

Definition connects (b : Bot) : nat := length (List.filter is_connect (io b)).

(** ** [random] *)

(** [random.randint(a, b)]: raises [ValueError] on an empty range, before
    anything is drawn; otherwise one draw, reduced into [[a, b]]. *)
Definition randint (a b : Z) (g : Rng) : option Z * Rng :=
  if b <? a then (None, g)
  else (Some (a + raw g (used g) mod (b - a + 1)),
        {| raw := raw g; used := S (used g) |}).

(** [random.choice(seq)] on a non-empty list: one draw. *)
Definition choice (seq : list string) (g : Rng) : string * Rng :=
  (nth (Z.to_nat (raw g (used g) mod Z.of_nat (length seq))) seq "",
   {| raw := raw g; used := S (used g) |}).

(** ** [PyIRCBot.__init__] *)

(** [PyIRCBot()] as [main] calls it: every argument is [None], so the
    session parameters are the ones of [config]; [month] is what
    [datetime.now().strftime('%m-%Y')] gives at that time. *)
Definition PyIRCBot_init (cfg : Config) (month : string) (g : Rng) : Bot := {|
  server := IRC_SERVER cfg;
  port := IRC_PORT cfg;
  channel := IRC_CHANNEL cfg;
  nickname := BOT_NICKNAME cfg;
  username := BOT_USERNAME cfg;
  realname := BOT_REALNAME cfg;
  has_socket := false;
  running := false;
  current_month := month;
  stats := {| messages_received := 0; commands_processed := 0;
              user_messages := ∅;
              monthly_stats := {[ month := zero_bucket ]} |};
  random := g;
  io := []
|}.

(** ** [check_month_change] and [get_monthly_stats] *)

Definition check_month_change (now : string) (b : Bot) : Bot :=
  if negb (String.eqb now (current_month b)) then
    let b1 := set_current_month now b in
    match monthly_stats (stats b1) !! now with
    | None => set_stats (set_monthly (insert now zero_bucket)) b1
    | Some _ => b1
    end
  else b.

(** [get_monthly_stats] returns the bucket stored under the current month,
    or a fresh one that is stored nowhere. *)
Definition get_monthly_stats (b : Bot) : Bucket :=
  default zero_bucket (monthly_stats (stats b) !! current_month b).

(** An update made through the dictionary [get_monthly_stats] returned: it
    reaches [stats] when the bucket is the stored one and is lost with the
    fresh one. *)
Definition update_monthly (f : Bucket -> Bucket) (b : Bot) : Bot :=
  set_stats (set_monthly (alter f (current_month b))) b.

(** [d[sender] = 0] when absent, then [d[sender] += 1]. *)
Definition tally (sender : string) (d : gmap string Z) : gmap string Z :=
  <[ sender := default 0 (d !! sender) + 1 ]> d.

(** ** [send_raw], [send_message], [join_channel] *)

(** [send_raw] catches its own errors, so it always returns. *)
Definition send_raw (message : string) (b : Bot) : Bot :=
  emit (Send (message +:+ Py.CRLF)) b.

Definition send_message (target message : string) (b : Bot) : Bot :=
  send_raw ("PRIVMSG " +:+ target +:+ " :" +:+ message) b.

Definition join_channel (chan : string) (b : Bot) : Bot :=
  send_raw ("JOIN " +:+ chan) b.

(** ** [handle_message] and the two dispatch loops *)

Section Session.

(** [self.commands]: the registry, in insertion order. *)
Variable commands : list (string * Handler).

Definition incr_commands_processed (b : Bot) : Bot :=
  set_stats (fun s =>
    {| messages_received := messages_received s;
       commands_processed := commands_processed s + 1;
       user_messages := user_messages s;
       monthly_stats := monthly_stats s |}) b.

Definition incr_month_commands_processed (b : Bot) : Bot :=
  update_monthly (fun k =>
    {| month_messages_received := month_messages_received k;
       month_commands_processed := month_commands_processed k + 1;
       month_user_messages := month_user_messages k |}) b.

Definition incr_messages_received (b : Bot) : Bot :=
  set_stats (fun s =>
    {| messages_received := messages_received s + 1;
       commands_processed := commands_processed s;
       user_messages := user_messages s;
       monthly_stats := monthly_stats s |}) b.

Definition incr_month_messages_received (b : Bot) : Bot :=
  update_monthly (fun k =>
    {| month_messages_received := month_messages_received k + 1;
       month_commands_processed := month_commands_processed k;
       month_user_messages := month_user_messages k |}) b.

Definition tally_user (sender : string) (b : Bot) : Bot :=
  set_stats (fun s =>
    {| messages_received := messages_received s;
       commands_processed := commands_processed s;
       user_messages := tally sender (user_messages s);
       monthly_stats := monthly_stats s |}) b.

Definition tally_month_user (sender : string) (b : Bot) : Bot :=
  update_monthly (fun k =>
    {| month_messages_received := month_messages_received k;
       month_commands_processed := month_commands_processed k;
       month_user_messages := tally sender (month_user_messages k) |}) b.

(** [if response:] *)
Definition response_text (response : option string) : option string :=
  match response with
  | Some r => if Py.truthy r then Some r else None
  | None => None
  end.

(** The body of the dispatch loops for the command that matched: the
    command is counted for all time and for the current month, the handler
    is called, and a response that is not empty is sent to [reply_to].  A
    handler that raises is not caught here. *)
Definition call_handler (func : Handler) (reply_to sender message : string)
    (w : World) (b : Bot) : Outcome * Bot :=
  let b1 := incr_month_commands_processed (incr_commands_processed b) in
  match func sender message b1 w with
  | (Raise e, g) => (Raised e, set_random g b1)
  | (Return response, g) =>
      let b2 := set_random g b1 in
      match response_text response with
      | Some r => (Normal, send_message reply_to r b2)
      | None => (Normal, b2)
      end
  end.

(** The loop [for cmd, func in self.commands.items()] of
    [handle_channel_message] (replies go to the channel) and of
    [handle_private_message] (replies go to the sender): the first command
    the message starts with is handled, and [break] leaves the loop. *)
Fixpoint command_loop (cmds : list (string * Handler))
    (reply_to sender message : string) (w : World) (b : Bot) : Outcome * Bot :=
  match cmds with
  | [] => (Normal, b)
  | (cmd, func) :: rest =>
      if Py.startswith cmd message then
        call_handler func reply_to sender message w b
      else command_loop rest reply_to sender message w b
  end.

Definition handle_channel_message (sender message : string) (w : World) (b : Bot)
  : Outcome * Bot :=
  let b1 := tally_user sender b in
  let b2 := tally_month_user sender b1 in
  command_loop commands (channel b2) sender message w b2.

Definition handle_private_message (sender message : string) (w : World) (b : Bot)
  : Outcome * Bot :=
  command_loop commands sender sender message w b.

Definition handle_message (w : World) (line : string) (b : Bot) : Outcome * Bot :=
  let b := check_month_change (now_month w) b in
  if Py.startswith ":" line then
    match Py.splitn " " 2 line with
    | p0 :: p1 :: p2 :: _ =>
        let sender := hd "" (Py.split "!" (Py.drop 1 p0)) in
        let command := p1 in
        let message := if Py.startswith ":" p2 then Py.drop 1 p2 else p2 in
        let b := incr_month_messages_received (incr_messages_received b) in
        if String.eqb command "PING" then
          (Normal, send_raw ("PONG :" +:+ message) b)
        else if String.eqb command "PRIVMSG" then
          let target :=
            if Py.contains " :" p2 then hd "" (Py.split " :" p2) else p2 in
          let actual_message :=
            if Py.contains " :" p2 then nth 1 (Py.splitn " :" 1 p2) "" else "" in
          if String.eqb target (channel b) then
            handle_channel_message sender actual_message w b
          else
            handle_private_message sender actual_message w b
        else (Normal, b)
    | _ => (Normal, b)
    end
  else if Py.startswith "PING" line then
    (Normal, send_raw (Py.replace "PING" "PONG" line) b)
  else (Normal, b).

(** ** [connect], [cleanup] and [run] *)

(** What the network does during one run: whether the connection can be
    opened, what each [recv] gives, and the world found at each line. *)
Inductive Recv :=
| Data (text : string)      (* decoded text; [""] when the peer has closed *)
| RecvError (error : string) (* [recv] or [decode] raises *)
| Interrupt.                (* [KeyboardInterrupt] *)

Record Script := {
  connect_ok : bool;
  recvs : list Recv;
  world_at : nat -> World
}.

Definition connect (ok : bool) (b : Bot) : bool * Bot :=
  let b1 := emit (Connect ok) (set_has_socket true b) in
  if ok then
    let b2 := send_raw ("NICK " +:+ nickname b1) b1 in
    let b3 := send_raw ("USER " +:+ username b2 +:+ " 0 * :" +:+ realname b2) b2 in
    (true, b3)
  else (false, b1).

Definition cleanup (b : Bot) : Bot :=
  let b1 := set_running false b in
  if has_socket b1 then emit Close (send_raw "QUIT :PyIRCBot signing off!" b1)
  else b1.

(** The framing step of the receive loop: [buffer += data], the split at
    the line terminator, and [buffer = lines.pop()]. *)
Definition feed (buffer data : string) : list string * string :=
  let lines := Py.split Py.CRLF (buffer +:+ data) in
  (removelast lines, List.last lines "").

(** The [if]/[elif] chain behind [handle_message] in the receive loop. *)
Definition server_reply (line : string) (b : Bot) : Outcome * Bot :=
  if Py.contains "001" line then (Normal, join_channel (channel b) b)
  else if Py.contains "433" line then
    match randint 1 999 (random b) with
    | (Some n, g) =>
        let b1 := set_nickname (nickname b +:+ Py.str n) (set_random g b) in
        (Normal, send_raw ("NICK " +:+ nickname b1) b1)
    | (None, g) => (Raised "ValueError", set_random g b)
    end
  else if Py.contains "PING" line then
    (Normal, send_raw (Py.replace "PING" "PONG" line) b)
  else (Normal, b).

(** The body of [for line in lines]. *)
Definition process_line (w : World) (line : string) (b : Bot) : Outcome * Bot :=
  if Py.truthy (Py.strip line) then
    match handle_message w line b with
    | (Normal, b1) => server_reply line b1
    | (Raised e, b1) => (Raised e, b1)
    end
  else (Normal, b).

(** [for line in lines]; [n] counts the lines of the session so far and
    selects the world each one is handled in. *)
Fixpoint process_lines (ws : nat -> World) (n : nat) (lines : list string) (b : Bot)
  : Outcome * nat * Bot :=
  match lines with
  | [] => (Normal, n, b)
  | line :: rest =>
      match process_line (ws n) line b with
      | (Normal, b1) => process_lines ws (S n) rest b1
      | (Raised e, b1) => (Raised e, S n, b1)
      end
  end.

(** [while self.running]: the loop ends when [recv] returns no data, when
    anything raises (the [except] clauses log and fall through), and here
    also when the script is over. *)
Fixpoint recv_loop (ws : nat -> World) (rs : list Recv) (n : nat)
    (buffer : string) (b : Bot) : Bot :=
  match rs with
  | [] => b
  | Data "" :: _ => b
  | Data data :: rest =>
      let '(lines, buffer') := feed buffer data in
      match process_lines ws n lines b with
      | (Normal, n', b1) => recv_loop ws rest n' buffer' b1
      | (Raised _, _, b1) => b1
      end
  | RecvError _ :: _ => b
  | Interrupt :: _ => b
  end.

Definition run (s : Script) (b : Bot) : Bot :=
  match connect (connect_ok s) b with
  | (false, b1) => b1
  | (true, b1) =>
      cleanup (recv_loop (world_at s) (recvs s) 0 "" (set_running true b1))
  end.

(** [main]: [bot = PyIRCBot()], [bot.run()], and the process ends. *)
Definition main (cfg : Config) (month : string) (g : Rng) (s : Script) : Bot :=
  run s (PyIRCBot_init cfg month g).

End Session.

(** The sender, the target and the text [handle_message] reads from a
    line it takes for a [PRIVMSG]. *)
Definition privmsg_of (line : string) : option (string * string * string) :=
  if Py.startswith ":" line then
    match Py.splitn " " 2 line with
    | p0 :: p1 :: p2 :: _ =>
        if String.eqb p1 "PING" then None
        else if String.eqb p1 "PRIVMSG" then
          Some (hd "" (Py.split "!" (Py.drop 1 p0)),
                if Py.contains " :" p2 then hd "" (Py.split " :" p2) else p2,
                if Py.contains " :" p2 then nth 1 (Py.splitn " :" 1 p2) "" else "")
        else None
    | _ => None
    end
  else None.

(** The first registered command the message starts with. *)
Definition first_match (cmds : list (string * Handler)) (message : string)
  : option (string * Handler) :=
  List.find (fun e => Py.startswith e.1 message) cmds.

(** The message does not start with the command of the entry. *)
Definition misses (message : string) (e : string * Handler) : Prop :=
  Py.startswith e.1 message = false.

(** No handler of the registry raises. *)
Definition no_raise (cmds : list (string * Handler)) : Prop :=
  Forall (fun e => forall sender message b w, exists r g,
                     e.2 sender message b w = (Return r, g)) cmds.

(** The bucket of the current month is stored in the statistics. *)
Definition month_ok (b : Bot) : Prop :=
  is_Some (monthly_stats (stats b) !! current_month b).

(** The counters of a statistics state: commands never outnumber
    messages, for all time and in every monthly bucket; [slack] is the lead
    the message counters have for all time and in the bucket of [month]. *)
Definition counters_ok (slack : Z) (month : string) (s : Stats) : Prop :=
  commands_processed s + slack <= messages_received s
  /\ forall m k, monthly_stats s !! m = Some k ->
       month_commands_processed k + (if decide (m = month) then slack else 0)
       <= month_messages_received k.

(** The states a bot goes through: the one [__init__] builds, and the ones
    the body of the receive loop produces from lines, whatever the lines
    and the world they arrive in. *)
Inductive reachable (cmds : list (string * Handler)) : Bot -> Prop :=
| reachable_init cfg month g :
    reachable cmds (PyIRCBot_init cfg month g)
| reachable_line b w line :
    reachable cmds b -> reachable cmds (process_line cmds w line b).2.

(** ** The command handlers *)

Definition reply (text : string) (b : Bot) : HResult * Rng :=
  (Return (Some text), random b).

Definition cmd_help (sender message : string) (b : Bot) (w : World) : HResult * Rng :=
  reply "Available commands: .help, .time, .ping, .dice, .8ball, .weather, .joke, .stats, .google" b.

Definition cmd_time (sender message : string) (b : Bot) (w : World) : HResult * Rng :=
  reply ("Current time: " +:+ now_text w) b.

Definition cmd_ping (sender message : string) (b : Bot) (w : World) : HResult * Rng :=
  reply ("Pong! Hello " +:+ sender +:+ "!") b.

(** The longest prefix of digits, and what follows it. *)
Fixpoint span_digits (s : string) : string * string :=
  match s with
  | EmptyString => (EmptyString, EmptyString)
  | String c s' =>
      if Py.isdigit c then
        let '(d, r) := span_digits s' in (String c d, r)
      else (EmptyString, s)
  end.

(** [\.dice (\d+)d(\d+)] matched at the start of [s]: a group of digits is
    as long as it can be, since the character behind it is not a digit. *)
Definition match_dice (s : string) : option (string * string) :=
  match Py.strip_prefix ".dice " s with
  | Some r =>
      match span_digits r with
      | (EmptyString, _) => None
      | (g1, String c r1) =>
          if Ascii.eqb c "d"%char then
            match span_digits r1 with
            | (EmptyString, _) => None
            | (g2, _) => Some (g1, g2)
            end
          else None
      | (_, EmptyString) => None
      end
  | None => None
  end.

(** [re.search(r'\.dice (\d+)d(\d+)', message)]: the leftmost match. *)
Fixpoint search_dice (s : string) : option (string * string) :=
  match match_dice s with
  | Some m => Some m
  | None =>
      match s with
      | EmptyString => None
      | String _ s' => search_dice s'
      end
  end.

(** [[random.randint(1, sides) for _ in range(num_dice)]]; [None] when a
    draw raises. *)
Fixpoint roll (num_dice : nat) (sides : Z) (g : Rng) : option (list Z) * Rng :=
  match num_dice with
  | O => (Some [], g)
  | S k =>
      match randint 1 sides g with
      | (Some v, g1) =>
          match roll k sides g1 with
          | (Some vs, g2) => (Some (v :: vs), g2)
          | (None, g2) => (None, g2)
          end
      | (None, g1) => (None, g1)
      end
  end.

Definition sum (l : list Z) : Z := foldr Z.add 0 l.

Definition dice_too_large : string := "Dice too large! Max 10 dice, 100 sides.".
Definition dice_usage : string := "Usage: .dice or .dice XdY (e.g., .dice 2d20)".
Definition dice_invalid : string := "Invalid dice format! Use .dice or .dice XdY".

(** The body of the [try] of [cmd_dice]: the text it returns, or the error
    it raises.  [int] raises on a group of more than [Py.max_str_digits]
    digits, [random.randint] on a die without sides. *)
Definition cmd_dice_try (sender message : string) (g : Rng) : HResult * Rng :=
  if String.eqb message ".dice" then
    match randint 1 6 g with
    | (Some v, g1) => (Return (Some (sender +:+ " rolled: " +:+ Py.str v)), g1)
    | (None, g1) => (Raise "ValueError", g1)
    end
  else
    match search_dice message with
    | Some (g1, g2) =>
        match Py.int g1 with
        | None => (Raise "ValueError", g)
        | Some num_dice =>
            match Py.int g2 with
            | None => (Raise "ValueError", g)
            | Some sides =>
                if (num_dice >? 10) || (sides >? 100) then
                  (Return (Some dice_too_large), g)
                else
                  match roll (Z.to_nat num_dice) sides g with
                  | (Some rolls, g') =>
                      (Return (Some (sender +:+ " rolled " +:+ Py.str num_dice +:+ "d"
                                     +:+ Py.str sides +:+ ": " +:+ Py.str_list rolls
                                     +:+ " (Total: " +:+ Py.str (sum rolls) +:+ ")")),
                       g')
                  | (None, g') => (Raise "ValueError", g')
                  end
            end
        end
    | None => (Return (Some dice_usage), g)
    end.

(** [cmd_dice]: the bare [except] turns whatever the body raises into the
    last reply. *)
Definition cmd_dice (sender message : string) (b : Bot) (w : World) : HResult * Rng :=
  match cmd_dice_try sender message (random b) with
  | (Raise _, g) => (Return (Some dice_invalid), g)
  | (Return response, g) => (Return response, g)
  end.

Definition eightball_responses : list string :=
  [ "It is certain."; "It is decidedly so."; "Without a doubt.";
    "Yes, definitely."; "You may rely on it."; "As I see it, yes.";
    "Most likely."; "Outlook good."; "Yes."; "Signs point to yes.";
    "Reply hazy, try again."; "Ask again later."; "Better not tell you now.";
    "Cannot predict now."; "Concentrate and ask again.";
    "Don't count on it."; "My reply is no."; "My sources say no.";
    "Outlook not so good."; "Very doubtful." ].

Definition cmd_8ball (sender message : string) (b : Bot) (w : World) : HResult * Rng :=
  let '(r, g) := choice eightball_responses (random b) in
  (Return (Some ("Magic 8-Ball says: " +:+ r)), g).

Definition jokes : list string :=
  [ "Why don't scientists trust atoms? Because they make up everything!";
    "Why did the scarecrow win an award? He was outstanding in his field!";
    "What do you call a fake noodle? An impasta!";
    "Why did the math book look so sad? Because it had too many problems!";
    "What do you call a bear with no teeth? A gummy bear!";
    "Why don't eggs tell jokes? They'd crack each other up!";
    "What do you call a dinosaur that crashes his car? Tyrannosaurus wrecks!";
    "Why did the cookie go to the doctor? Because it was feeling crumbly!" ].

Definition cmd_joke (sender message : string) (b : Bot) (w : World) : HResult * Rng :=
  let '(r, g) := choice jokes (random b) in (Return (Some r), g).

(** The handlers for [.weather], [.stats], [.google] and [.topusers] format
    reports from the network and from the statistics; their bodies are
    outside the session engine.  Each returns a string and lets no exception
    out: the first and the third end in [except Exception], the other two
    only read dictionary entries that exist.  Their reply is read from the
    world. *)
Definition external (name : string) (sender message : string) (b : Bot) (w : World)
  : HResult * Rng :=
  reply (external_reply w name sender message) b.

(** [self.commands] as [__init__] fills it. *)
Definition commands : list (string * Handler) :=
  [ (".help", cmd_help);
    (".time", cmd_time);
    (".ping", cmd_ping);
    (".dice", cmd_dice);
    (".8ball", cmd_8ball);
    (".weather", external ".weather");
    (".joke", cmd_joke);
    (".stats", external ".stats");
    (".google", external ".google");
    (".topusers", external ".topusers") ].

(** The framing steps of a run of the receive loop on the chunks [recv]
    returns one after the other: the lines handed to [for line in lines],
    in order, and the buffer left at the end. *)
Fixpoint feed_all (buffer : string) (chunks : list string) : list string * string :=
  match chunks with
  | [] => ([], buffer)
  | data :: rest =>
      let '(lines, buffer1) := feed buffer data in
      let '(lines', buffer2) := feed_all buffer1 rest in
      ((lines ++ lines')%list, buffer2)
  end.

(** The text of a sequence of chunks. *)
Definition whole (chunks : list string) : string := foldr String.append "" chunks.

(** A [recv] that fails: the peer has closed, or the call raises. *)
Definition transport_failure (r : Recv) : bool :=
  match r with
  | Data EmptyString => true
  | RecvError _ => true
  | _ => false
  end.

(** The configuration with other auto-reconnect settings. *)
Definition set_reconnect (enabled : bool) (delay : Z) (cfg : Config) : Config := {|
  IRC_SERVER := IRC_SERVER cfg;
  IRC_PORT := IRC_PORT cfg;
  IRC_CHANNEL := IRC_CHANNEL cfg;
  BOT_NICKNAME := BOT_NICKNAME cfg;
  BOT_USERNAME := BOT_USERNAME cfg;
  BOT_REALNAME := BOT_REALNAME cfg;
  LOG_LEVEL := LOG_LEVEL cfg;
  LOG_FILE := LOG_FILE cfg;
  COMMAND_PREFIX := COMMAND_PREFIX cfg;
  MAX_DICE_COUNT := MAX_DICE_COUNT cfg;
  MAX_DICE_SIDES := MAX_DICE_SIDES cfg;
  AUTO_RECONNECT := enabled;
  RECONNECT_DELAY := delay;
  RATE_LIMIT_ENABLED := RATE_LIMIT_ENABLED cfg;
  RATE_LIMIT_SECONDS := RATE_LIMIT_SECONDS cfg
|}.

(** Between two states the connection was neither opened nor closed and
    the loop flag was not touched. *)
Definition same_connection (b b' : Bot) : Prop :=
  connects b' = connects b
  /\ running b' = running b
  /\ has_socket b' = has_socket b.

(** ** Keepalive lines *)

(** The token [handle_message] reads from a line with a prefix and the
    command [PING]. *)
Definition ping_of (line : string) : option string :=
  if Py.startswith ":" line then
    match Py.splitn " " 2 line with
    | p0 :: p1 :: p2 :: _ =>
        if String.eqb p1 "PING" then
          Some (if Py.startswith ":" p2 then Py.drop 1 p2 else p2)
        else None
    | _ => None
    end
  else None.

(** ** Handlers that work on the message alone *)


(** ** The months of the clock *)

(** The place in time of a month key [MM-YYYY], as [strftime('%m-%Y')]
    writes it: the number of months since year 0. *)
Definition month_number (key : string) : Z :=
  12 * Py.int_go 0 (Py.drop 3 key) + Py.int_go 0 (String.substring 0 2 key).

(** The month [m'] is the month [m] or a later one. *)
Definition month_le (m m' : string) : Prop :=
  m = m' \/ month_number m < month_number m'.

(** The states a bot goes through when the clock does not go back: every
    line is handled in the month of the line before it or in a later one. *)
Inductive reachable_forward (cmds : list (string * Handler)) : Bot -> Prop :=
| forward_init cfg month g :
    reachable_forward cmds (PyIRCBot_init cfg month g)
| forward_line b w line :
    reachable_forward cmds b ->
    month_le (current_month b) (now_month w) ->
    reachable_forward cmds (process_line cmds w line b).2.

(** Every stored bucket is the one of the current month or of an earlier
    month. *)
Definition keys_old (b : Bot) : Prop :=
  forall m k, monthly_stats (stats b) !! m = Some k -> month_le m (current_month b).

(** ** The bytes of the connection *)

(** A continuation byte of UTF-8, [10xxxxxx]. *)
Definition continuation (x : N) : bool := ((128 <=? x) && (x <=? 191))%N.

(** [data.decode('utf-8')], strict: the code points of the text, or [None]
    for the [UnicodeDecodeError] raised on a byte that starts no character, on
    a sequence that is cut short, on an overlong form, on a surrogate and on a
    code point above [10FFFF]. *)
Fixpoint utf8_decode (data : list Byte.byte) : option (list N) :=
  match data with
  | [] => Some []
  | b0 :: r0 =>
      let x0 := Byte.to_N b0 in
      if (x0 <? 128)%N then cons x0 <$> utf8_decode r0
      else if ((194 <=? x0) && (x0 <=? 223))%N then
        match r0 with
        | b1 :: r1 =>
            let x1 := Byte.to_N b1 in
            if continuation x1 then
              cons ((x0 - 192) * 64 + (x1 - 128))%N <$> utf8_decode r1
            else None
        | _ => None
        end
      else if ((224 <=? x0) && (x0 <=? 239))%N then
        match r0 with
        | b1 :: b2 :: r2 =>
            let x1 := Byte.to_N b1 in
            let x2 := Byte.to_N b2 in
            if continuation x1 && continuation x2
               && (negb (x0 =? 224)%N || (160 <=? x1)%N)
               && (negb (x0 =? 237)%N || (x1 <=? 159)%N)
            then cons ((x0 - 224) * 4096 + (x1 - 128) * 64 + (x2 - 128))%N
                   <$> utf8_decode r2
            else None
        | _ => None
        end
      else if ((240 <=? x0) && (x0 <=? 244))%N then
        match r0 with
        | b1 :: b2 :: b3 :: r3 =>
            let x1 := Byte.to_N b1 in
            let x2 := Byte.to_N b2 in
            let x3 := Byte.to_N b3 in
            if continuation x1 && continuation x2 && continuation x3
               && (negb (x0 =? 240)%N || (144 <=? x1)%N)
               && (negb (x0 =? 244)%N || (x1 <=? 143)%N)
            then cons ((x0 - 240) * 262144 + (x1 - 128) * 4096
                       + (x2 - 128) * 64 + (x3 - 128))%N
                   <$> utf8_decode r3
            else None
        | _ => None
        end
      else None
  end.

(** The text of the model with the given code points: there is one when
    every code point is below 256. *)
Fixpoint text_of (points : list N) : option string :=
  match points with
  | [] => Some EmptyString
  | p :: rest =>
      if (p <? 256)%N then String (Ascii.ascii_of_N p) <$> text_of rest else None
  end.

(** [text.encode('utf-8')] for a text of the model: one byte for a code
    point below 128, two for the others. *)
Fixpoint utf8_encode (text : string) : list Byte.byte :=
  match text with
  | EmptyString => []
  | String c rest =>
      let p := Ascii.N_of_ascii c in
      if (p <? 128)%N then Ascii.byte_of_ascii c :: utf8_encode rest
      else
        default Byte.x00 (Byte.of_N (192 + p / 64))
        :: default Byte.x00 (Byte.of_N (128 + p mod 64))
        :: utf8_encode rest
  end.

(** [self.socket.recv(1024).decode('utf-8')] for the bytes [recv] returns:
    each chunk is decoded on its own.  There is no result in the model for a
    text with a code point above 255. *)
Definition recv_decode (data : list Byte.byte) : option Recv :=
  match utf8_decode data with
  | Some points => Data <$> text_of points
  | None => Some (RecvError "UnicodeDecodeError")
  end.

(** What the calls of [recv] give for the chunks of bytes that arrive. *)
Definition received (chunks : list (list Byte.byte)) : option (list Recv) :=
  mapM recv_decode chunks.

(** The code points of a text of the model. *)
Definition points_of (text : string) : list N :=
  Ascii.N_of_ascii <$> String.list_ascii_of_string text.

(** The run of the bot on the chunks of bytes that arrive, one chunk for
    each call of [recv]. *)
Definition run_on_bytes (cmds : list (string * Handler)) (ok : bool)
    (ws : nat -> World) (chunks : list (list Byte.byte)) (b : Bot) : option Bot :=
  (fun rs => run cmds {| connect_ok := ok; recvs := rs; world_at := ws |} b)
  <$> received chunks.

(** ** Sample inputs *)

Module Sample.

Definition cfg : Config := {|
  IRC_SERVER := "irc.example.org";
  IRC_PORT := 6667;
  IRC_CHANNEL := "#chan";
  BOT_NICKNAME := "bot";
  BOT_USERNAME := "bot";
  BOT_REALNAME := "PyIRCBot";
  LOG_LEVEL := "INFO";
  LOG_FILE := "pyircbot.log";
  COMMAND_PREFIX := "!";
  MAX_DICE_COUNT := 10;
  MAX_DICE_SIDES := 100;
  AUTO_RECONNECT := true;
  RECONNECT_DELAY := 30;
  RATE_LIMIT_ENABLED := false;
  RATE_LIMIT_SECONDS := 2
|}.

Definition rng : Rng := {| raw := fun i => Z.of_nat i + 2; used := 0 |}.

Definition world (month : string) : World :=
  {| now_month := month; now_text := "2025-01-15 12:00:00";
     external_reply := fun _ _ _ => "n/a" |}.

Definition january : World := world "01-2025".
Definition february : World := world "02-2025".

Definition bot : Bot := PyIRCBot_init cfg "01-2025" rng.

(** A configuration that lowers the limits of the dice command. *)
Definition strict_cfg : Config := {|
  IRC_SERVER := "irc.example.org";
  IRC_PORT := 6667;
  IRC_CHANNEL := "#chan";
  BOT_NICKNAME := "bot";
  BOT_USERNAME := "bot";
  BOT_REALNAME := "PyIRCBot";
  LOG_LEVEL := "INFO";
  LOG_FILE := "pyircbot.log";
  COMMAND_PREFIX := "!";
  MAX_DICE_COUNT := 5;
  MAX_DICE_SIDES := 20;
  AUTO_RECONNECT := true;
  RECONNECT_DELAY := 30;
  RATE_LIMIT_ENABLED := false;
  RATE_LIMIT_SECONDS := 2
|}.

Definition script (ok : bool) (rs : list Recv) : Script :=
  {| connect_ok := ok; recvs := rs; world_at := fun _ => january |}.

(** A channel message with a character of two bytes, [e] with an acute
    accent, followed by a keepalive line, as the bytes the server sends. *)
Definition e_acute : Ascii.ascii := Ascii.ascii_of_nat 233.

Definition accent_line : string :=
  ":nick!u@h PRIVMSG #chan :caf" +:+ String e_acute "".

Definition accent_text : string :=
  accent_line +:+ Py.CRLF +:+ "PING :x" +:+ Py.CRLF.

Definition accent_bytes : list Byte.byte := utf8_encode accent_text.

(** A group of 4301 digits. *)
Definition long_digits : string :=
  Nat.iter 4300 (String "0"%char) "3".

End Sample.

(** ** Orders on the statistics *)

(** The tally of a user in a dictionary of tallies, 0 for a user it does not
    have. *)
Definition tally_of (d : gmap string Z) (user : string) : Z := default 0 (d !! user).

(** No counter and no tally of the bucket [k] is above the one of [k']. *)
Definition bucket_le (k k' : Bucket) : Prop :=
  month_messages_received k <= month_messages_received k'
  /\ month_commands_processed k <= month_commands_processed k'
  /\ forall user, tally_of (month_user_messages k) user
                  <= tally_of (month_user_messages k') user.

(** The statistics [s'] continue [s]: no counter and no tally has gone down,
    and every bucket of [s] is still there, under its key. *)
Definition stats_le (s s' : Stats) : Prop :=
  messages_received s <= messages_received s'
  /\ commands_processed s <= commands_processed s'
  /\ (forall user, tally_of (user_messages s) user <= tally_of (user_messages s') user)
  /\ forall m k, monthly_stats s !! m = Some k ->
       exists k', monthly_stats s' !! m = Some k' /\ bucket_le k k'.

(** Between two states the bot has only written to the socket. *)
Definition only_sends (b b' : Bot) : Prop :=
  exists lines, io b' = (io b ++ (Send <$> lines))%list.

(** Every character of the text is a digit. *)
Fixpoint all_digits (s : string) : bool :=
  match s with
  | EmptyString => true
  | String c s' => Py.isdigit c && all_digits s'
  end.

(** The random state after [n] more draws. *)
Definition drawn (n : nat) (g : Rng) : Rng := {| raw := raw g; used := (used g + n)%nat |}.

(** The text is one to three digits. *)
Definition short_number (s : string) : bool :=
  all_digits s && (1 <=? String.length s)%nat && (String.length s <=? 3)%nat.

(** ** Totals over the monthly buckets *)

(** The sum of a measure over all monthly buckets. *)
Definition sum_buckets (f : Bucket -> Z) (m : gmap string Bucket) : Z :=
  map_fold (fun _ k acc => f k + acc) 0 m.

(** The all-time figures are the sums of the monthly ones: for the messages,
    for the commands, and for the tally of every user. *)
Definition totals_ok (s : Stats) : Prop :=
  messages_received s = sum_buckets month_messages_received (monthly_stats s)
  /\ commands_processed s = sum_buckets month_commands_processed (monthly_stats s)
  /\ forall user,
       tally_of (user_messages s) user
       = sum_buckets (fun k => tally_of (month_user_messages k) user) (monthly_stats s).

(** ** The reports on users: [cmd_topusers] and the loudmouth of [cmd_stats]

    Both read the dictionary of tallies through its items, in the order of
    the dictionary (the order in which the users were first seen), which the
    reports keep among users with equal tallies.  They are modelled as
    functions of that sequence of items. *)

(** [sorted(items, key=lambda x: x[1], reverse=True)]: the sort is stable,
    also in reverse, so an item is put in front of the first one whose tally
    is not above its own. *)
Fixpoint insert_desc (x : string * Z) (l : list (string * Z)) : list (string * Z) :=
  match l with
  | [] => [x]
  | y :: l' => if x.2 <? y.2 then y :: insert_desc x l' else x :: y :: l'
  end.

Definition sorted_desc (items : list (string * Z)) : list (string * Z) :=
  foldr insert_desc [] items.

(** The tally of [x] is at least the one of [y]. *)
Definition tally_ge (x y : string * Z) : Prop := y.2 <= x.2.

(** [sorted(...)[:3]] *)
Definition top_users (items : list (string * Z)) : list (string * Z) :=
  take 3 (sorted_desc items).

(** [s.lstrip(chars)] and [s.rstrip(chars)] *)
Fixpoint lstrip_chars (chars s : string) : string :=
  match s with
  | EmptyString => EmptyString
  | String c s' =>
      if Py.contains (String c EmptyString) chars then lstrip_chars chars s' else s
  end.

Definition rstrip_chars (chars s : string) : string :=
  String.rev (lstrip_chars chars (String.rev s)).

(** The body of [cmd_topusers], for the current month and the items of its
    dictionary of tallies. *)
Definition topusers_reply (month : string) (items : list (string * Z)) : string :=
  match items with
  | [] => "No user data available for " +:+ month +:+ "."
  | _ =>
      rstrip_chars ", "
        (foldl (fun response e =>
                  response +:+ (e.1 +:+ " (" +:+ Py.str e.2 +:+ " messages), "))
               ("Top 3 users for " +:+ month +:+ ": ") (top_users items))
  end.

(** [max(d, key=d.get)] over the items: the first one with the highest tally. *)
Fixpoint max_by_tally (best : string * Z) (l : list (string * Z)) : string * Z :=
  match l with
  | [] => best
  | x :: l' => max_by_tally (if best.2 <? x.2 then x else best) l'
  end.

(** The loudmouth [cmd_stats] reports with its number of messages:
    ["None"] with 0 when the dictionary is empty. *)
Definition loudmouth (items : list (string * Z)) : string * Z :=
  match items with
  | [] => ("None", 0)
  | x :: l => max_by_tally x l
  end.

(** One user of the report of [cmd_topusers], without the separator. *)
Definition topusers_entry (e : string * Z) : string :=
  e.1 +:+ " (" +:+ Py.str e.2 +:+ " messages)".

(** ** The results of [cmd_google]

    What [cmd_google] reads from the answer of the search service: the
    abstract and its address, when the answer has them, and the related
    topics, each with its text when it is a dictionary that has one. *)
Record SearchData := {
  AbstractText : option string;
  AbstractURL : option string;
  RelatedTopics : list (option string)
}.

(** [s[:n] + "..." if len(s) > n else s] *)
Definition truncate (n : nat) (s : string) : string :=
  if (n <? String.length s)%nat then String.substring 0 n s +:+ "..." else s.

(** [f"{len(results)+1}. "], the number in front of the next result. *)
Definition result_number (results : list string) : string :=
  Py.str (Z.of_nat (length results) + 1) +:+ ". ".

(** The body of the loop over the related topics. *)
Definition add_topic (results : list string) (topic : option string) : list string :=
  match topic with
  | Some text =>
      if Py.truthy text then (results ++ [result_number results +:+ truncate 80 text])%list
      else results
  | None => results
  end.

(** [while len(results) < 3]: [n] is the number of results still missing. *)
Fixpoint pad_results (query : string) (n : nat) (results : list string) : list string :=
  match n with
  | O => results
  | S k =>
      pad_results query k
        (results ++ [result_number results +:+ "Search for '" +:+ query +:+ "' on Google"])%list
  end.

(** The list [results] that [cmd_google] builds from the answer. *)
Definition google_results (query : string) (data : SearchData) : list string :=
  let results :=
    match AbstractText data with
    | Some text =>
        if Py.truthy text then
          ["1. " +:+ truncate 100 text +:+ " - " +:+ default "No URL" (AbstractURL data)]
        else []
    | None => []
    end in
  let results :=
    foldl add_topic results (take (3 - length results) (RelatedTopics data)) in
  pad_results query (3 - length results) results.

(** Each result starts with its number in the list, from 1. *)
Definition numbered (results : list string) : Prop :=
  forall i s, results !! i = Some s ->
    Py.startswith (Py.str (Z.of_nat i + 1) +:+ ". ") s = true.

(** ** [_shorten_country_name] *)

Definition country_mapping : list (string * string) :=
  [ ("United States of America", "USA"); ("United Kingdom", "UK");
    ("United States", "USA"); ("Great Britain", "UK"); ("England", "UK");
    ("Scotland", "UK"); ("Wales", "UK"); ("Northern Ireland", "UK");
    ("Canada", "CA"); ("Australia", "AU"); ("Germany", "DE"); ("France", "FR");
    ("Italy", "IT"); ("Spain", "ES"); ("Japan", "JP"); ("China", "CN");
    ("India", "IN"); ("Brazil", "BR"); ("Mexico", "MX"); ("Russia", "RU");
    ("South Korea", "KR"); ("Netherlands", "NL"); ("Sweden", "SE");
    ("Norway", "NO"); ("Denmark", "DK"); ("Finland", "FI");
    ("Switzerland", "CH"); ("Austria", "AT"); ("Belgium", "BE");
    ("Ireland", "IE"); ("New Zealand", "NZ"); ("South Africa", "ZA");
    ("Singapore", "SG"); ("Malaysia", "MY"); ("Thailand", "TH");
    ("Vietnam", "VN") ].

(** [d.get(key, default)] on a dictionary written out as its items. *)
Fixpoint dict_get (d : list (string * string)) (key default : string) : string :=
  match d with
  | [] => default
  | (k, v) :: d' => if String.eqb k key then v else dict_get d' key default
  end.

Definition shorten_country_name (country_name : string) : string :=
  dict_get country_mapping country_name country_name.

(** ** The model on sample inputs *)

Example split_spaces :
  Py.splitn " " 2 ":nick!u@h PRIVMSG #chan :hello big world"
  = [":nick!u@h"; "PRIVMSG"; "#chan :hello big world"].
Proof. reflexivity. Qed.

Example split_keeps_empty_pieces : Py.split " " "a  b " = ["a"; ""; "b"; ""].
Proof. reflexivity. Qed.

Example split_is_leftmost : Py.split "aa" "aaa" = [""; "a"].
Proof. reflexivity. Qed.

Example split_crlf_after_cr :
  Py.split Py.CRLF (String Py.CR (Py.CRLF +:+ "b")) = [String Py.CR ""; "b"].
Proof. reflexivity. Qed.

Example replace_all : Py.replace "PING" "PONG" "PING :PING x" = "PONG :PONG x".
Proof. reflexivity. Qed.

Example str_examples : Py.str 0 = "0" /\ Py.str 42 = "42" /\ Py.str_list [3; 5] = "[3, 5]"
                       /\ Py.str_list [] = "[]" /\ Py.int "007" = Some 7.
Proof. repeat split; reflexivity. Qed.

Example strip_examples : Py.strip "  a b  " = "a b" /\ Py.strip "   " = "".
Proof. split; reflexivity. Qed.

Example end_to_end_ping :
  sent (snd (process_line commands Sample.january ":nick!u@h PRIVMSG #chan :.ping" Sample.bot))
  = ["PRIVMSG #chan :Pong! Hello nick!" +:+ Py.CRLF].
Proof. vm_compute. reflexivity. Qed.

(** ** Facts about the text primitives *)

Module PyFacts.
Import Py.

Lemma sapp_cons (c : ascii) (s t : string) : String c s +:+ t = String c (s +:+ t).
Proof. reflexivity. Qed.

Lemma sapp_nil_l (s : string) : "" +:+ s = s.
Proof. reflexivity. Qed.

Lemma sapp_nil_r (s : string) : s +:+ "" = s.
Proof. induction s as [|c s IH]; [done | by rewrite sapp_cons, IH]. Qed.

Lemma sapp_assoc (s t u : string) : (s +:+ t) +:+ u = s +:+ (t +:+ u).
Proof. induction s as [|c s IH]; [done | by rewrite !sapp_cons, IH]. Qed.

Lemma strlen_app (s t : string) :
  String.length (s +:+ t) = (String.length s + String.length t)%nat.
Proof. induction s as [|c s IH]; [done | rewrite sapp_cons; simpl; by rewrite IH]. Qed.

Lemma sapp_snoc (s : string) (c : ascii) (t : string) :
  (s +:+ String c "") +:+ t = s +:+ String c t.
Proof. by rewrite sapp_assoc. Qed.

Lemma strip_suffix_Some (p s x : string) :
  strip_suffix p s = Some x -> s = x +:+ p.
Proof.
  revert x. induction s as [|c s IH]; intros x; cbn [strip_suffix].
  - destruct (String.eqb_spec "" p) as [<-|_]; [|done]. by intros [= <-].
  - destruct (String.eqb_spec (String c s) p) as [<-|_].
    + by intros [= <-].
    + destruct (strip_suffix p s) as [y|] eqn:E; [|done].
      intros [= <-]. rewrite sapp_cons. f_equal. by apply IH.
Qed.

Lemma strip_suffix_app (p x : string) : strip_suffix p (x +:+ p) = Some x.
Proof.
  induction x as [|c x IH].
  - rewrite sapp_nil_l. destruct p; cbn [strip_suffix]; by rewrite String.eqb_refl.
  - rewrite sapp_cons. cbn [strip_suffix].
    destruct (String.eqb_spec (String c (x +:+ p)) p) as [E|_].
    + exfalso. apply (f_equal String.length) in E. simpl in E.
      rewrite strlen_app in E. lia.
    + by rewrite IH.
Qed.

Section Split.
Variable sep : string.

Lemma split_go_nonempty m cur s : split_go sep m cur s <> [].
Proof.
  revert m cur. induction s as [|c s IH]; intros m cur; simpl; [done|].
  destruct m as [[|k]|]; [done| |];
    destruct (strip_suffix sep _); [done | apply IH | done | apply IH].
Qed.

(** Reading [s] and then [t] is reading [s +:+ t]: the pieces completed
    within [s] come first, and the scan of [t] starts from the piece that
    was open at the end of [s]. *)
Lemma split_go_app cur s t :
  split_go sep None cur (s +:+ t)
  = (removelast (split_go sep None cur s)
     ++ split_go sep None (List.last (split_go sep None cur s) "") t)%list.
Proof.
  revert cur. induction s as [|c s IH]; intros cur; [done|].
  rewrite sapp_cons. cbn [split_go].
  destruct (strip_suffix sep (cur +:+ String c "")) as [piece|].
  - cbn [fmap option_fmap option_map]. rewrite IH.
    pose proof (split_go_nonempty None "" s) as Hne.
    destruct (split_go sep None "" s) as [|x l]; [done|]. done.
  - apply IH.
Qed.

Lemma join_cons x l : l <> [] -> join sep (x :: l) = x +:+ sep +:+ join sep l.
Proof. by destruct l. Qed.

(** The pieces joined by the separator are the text that was read. *)
Lemma join_split_go cur s :
  join sep (split_go sep None cur s) = cur +:+ s.
Proof.
  revert cur. induction s as [|c s IH]; intros cur; cbn [split_go].
  - by rewrite sapp_nil_r.
  - destruct (strip_suffix sep (cur +:+ String c "")) as [piece|] eqn:E.
    + cbn [fmap option_fmap option_map].
      rewrite join_cons by apply split_go_nonempty.
      rewrite IH, sapp_nil_l. apply strip_suffix_Some in E.
      by rewrite <- sapp_assoc, <- E, sapp_snoc.
    + rewrite IH. apply sapp_snoc.
Qed.

Lemma uncut_empty : uncut sep "".
Proof. done. Qed.

Lemma split_go_uncut cur s :
  uncut sep cur -> split_go sep None "" (cur +:+ s) = split_go sep None cur s.
Proof. intros H. rewrite split_go_app, H. done. Qed.

Lemma last_split_go_uncut cur s :
  uncut sep cur -> uncut sep (List.last (split_go sep None cur s) "").
Proof.
  revert cur. induction s as [|c s IH]; intros cur Hcur; [done|].
  cbn [split_go].
  destruct (strip_suffix sep (cur +:+ String c "")) as [piece|] eqn:E.
  - cbn [fmap option_fmap option_map].
    pose proof (split_go_nonempty None "" s) as Hne.
    pose proof (IH "" uncut_empty) as IH0.
    destruct (split_go sep None "" s) as [|x l]; [done|]. done.
  - apply IH. unfold uncut. rewrite split_go_uncut by done.
    cbn [split_go]. by rewrite E.
Qed.

Lemma startswith_app p s : startswith p s = true -> exists v, s = p +:+ v.
Proof.
  revert s. induction p as [|a p IH]; intros s; [by exists s|].
  destruct s as [|b s]; [done|]. cbn [startswith].
  destruct (Ascii.eqb_spec a b) as [<-|_]; [|done].
  intros [v ->]%IH. by exists v.
Qed.

Lemma contains_app s : contains sep s = true -> exists u v, s = u +:+ sep +:+ v.
Proof.
  induction s as [|c s IH]; cbn [contains]; intros [H|H]%orb_true_iff.
  - apply startswith_app in H as [v ->]. by exists "", v.
  - done.
  - apply startswith_app in H as [v ->]. by exists "", v.
  - destruct (IH H) as (u & v & ->). by exists (String c u), v.
Qed.

Lemma snoc_exists (s : string) : s <> "" -> exists q c, s = q +:+ String c "".
Proof.
  induction s as [|a s IH]; [done|]. intros _. destruct s as [|b s].
  - by exists "", a.
  - destruct IH as (q & c & E); [done|]. exists (String a q), c.
    by rewrite sapp_cons, <- E.
Qed.

(** A prefix of an uncut text is uncut. *)
Lemma uncut_app_l s t : uncut sep (s +:+ t) -> uncut sep s.
Proof.
  unfold uncut. rewrite split_go_app. intros H.
  pose proof (join_split_go "" s) as J.
  pose proof (split_go_nonempty None "" s) as Hs.
  pose proof (split_go_nonempty None (List.last (split_go sep None "" s) "") t) as Ht.
  destruct (split_go sep None "" s) as [|x [|y l]].
  - done.
  - rewrite sapp_nil_l in J. cbn [join] in J. by subst.
  - destruct (split_go sep None (List.last (x :: y :: l) "") t); [done|].
    exfalso. apply (f_equal length) in H. rewrite length_app in H.
    simpl in H. lia.
Qed.

(** An uncut text does not contain the separator. *)
Lemma uncut_contains s : sep <> "" -> uncut sep s -> contains sep s = false.
Proof.
  intros Hsep Hs. destruct (contains sep s) eqn:E; [|done]. exfalso.
  apply contains_app in E as (u & v & ->).
  rewrite <- sapp_assoc in Hs. apply uncut_app_l in Hs.
  destruct (snoc_exists sep Hsep) as (q & c & Eq).
  assert (Hs' : uncut sep ((u +:+ q) +:+ String c "")).
  { rewrite sapp_assoc, <- Eq. exact Hs. }
  pose proof (uncut_app_l _ _ Hs') as Hq.
  unfold uncut in Hs'. rewrite split_go_uncut in Hs' by done.
  cbn [split_go] in Hs'.
  rewrite sapp_assoc, <- Eq, strip_suffix_app in Hs'. done.
Qed.
End Split.
End PyFacts.

(** ** The framing of lines *)

Module Framing.
Import Py PyFacts.

Lemma feed_split_go buffer data :
  uncut CRLF buffer ->
  feed buffer data
  = (removelast (split_go CRLF None buffer data),
     List.last (split_go CRLF None buffer data) "").
Proof. intros H. unfold feed, split. by rewrite split_go_uncut. Qed.

Lemma feed_buffer_uncut buffer data :
  uncut CRLF buffer -> uncut CRLF (feed buffer data).2.
Proof.
  intros H. rewrite feed_split_go by done. by apply last_split_go_uncut.
Qed.

Lemma removelast_app_removelast (x y : list string) :
  y <> [] -> removelast (removelast x ++ y) = (removelast x ++ removelast y)%list.
Proof. intros H. by apply removelast_app. Qed.

Lemma last_app_nonempty (x y : list string) d :
  y <> [] -> List.last (x ++ y) d = List.last y d.
Proof.
  intros H. induction x as [|a x IH]; [done|].
  change ((a :: x) ++ y)%list with (a :: (x ++ y))%list.
  cbn [List.last]. destruct (x ++ y)%list eqn:E; [|done].
  by apply app_eq_nil in E as [_ ->].
Qed.

(** Feeding chunk after chunk is one scan of the text of all chunks. *)
Lemma feed_all_split_go buffer chunks :
  uncut CRLF buffer ->
  feed_all buffer chunks
  = (removelast (split_go CRLF None buffer (whole chunks)),
     List.last (split_go CRLF None buffer (whole chunks)) "").
Proof.
  revert buffer. induction chunks as [|data rest IH]; intros buffer H; [done|].
  cbn [feed_all whole foldr]. fold (whole rest).
  rewrite (feed_split_go buffer data H).
  rewrite IH by by apply last_split_go_uncut.
  rewrite (split_go_app CRLF buffer data (whole rest)).
  pose proof (split_go_nonempty CRLF None
                (List.last (split_go CRLF None buffer data) "") (whole rest)) as Hne.
  by rewrite removelast_app_removelast, last_app_nonempty.
Qed.

Lemma feed_all_app buffer chunks1 chunks2 :
  feed_all buffer (chunks1 ++ chunks2)
  = let '(lines1, buffer1) := feed_all buffer chunks1 in
    let '(lines2, buffer2) := feed_all buffer1 chunks2 in
    ((lines1 ++ lines2)%list, buffer2).
Proof.
  revert buffer. induction chunks1 as [|d rest IH]; intros buffer.
  - cbn [feed_all app]. by destruct (feed_all buffer chunks2).
  - change ((d :: rest) ++ chunks2)%list with (d :: (rest ++ chunks2))%list.
    cbn [feed_all]. destruct (feed buffer d) as [l b1]. rewrite IH.
    destruct (feed_all b1 rest) as [l1 b2].
    destruct (feed_all b2 chunks2) as [l2 b3]. by rewrite List.app_assoc.
Qed.

End Framing.

(** Framing of decoded text does not depend on where the text is cut into
    chunks: the lines the framer emits while it is fed the chunks one at a
    time, and the buffer it is left with, are the lines and the buffer of a
    single feed of the whole text.  After any number of feeds the buffer contains no line
    terminator, so it holds at most one incomplete line, and nothing is
    dropped: the emitted lines and the buffer, joined by the terminator, are
    the text that was fed. *)
Lemma framing_of_text_boundary_independent (chunks : list string) :
  feed_all "" chunks = feed "" (whole chunks)
  /\ Py.contains Py.CRLF (feed_all "" chunks).2 = false
  /\ Py.join Py.CRLF ((feed_all "" chunks).1 ++ [(feed_all "" chunks).2])
     = whole chunks.
Proof.
  pose proof (PyFacts.uncut_empty Py.CRLF) as H0.
  rewrite (Framing.feed_all_split_go "" chunks H0).
  rewrite (Framing.feed_split_go "" (whole chunks) H0).
  cbn [fst snd]. split; [done|]. split.
  - apply PyFacts.uncut_contains; [done|]. by apply PyFacts.last_split_go_uncut.
  - rewrite <- app_removelast_last by apply PyFacts.split_go_nonempty.
    apply PyFacts.join_split_go.
Qed.

Example framing_terminator_across_chunks :
  feed_all "" ["PING :a" +:+ String Py.CR ""; String Py.LF "" +:+ "PI"; "NG :b" +:+ Py.CRLF]
  = (["PING :a"; "PING :b"], "").
Proof. reflexivity. Qed.

(** ** Framing of the bytes that arrive *)

Section Bytes.

Lemma utf8_encode_cons (c : ascii) (s : string) :
  utf8_encode (String c s) = (utf8_encode (String c "") ++ utf8_encode s)%list.
Proof. cbn [utf8_encode]. by destruct (Ascii.N_of_ascii c <? 128)%N. Qed.

Lemma utf8_decode_char (c : ascii) (rest : list Byte.byte) :
  utf8_decode (utf8_encode (String c "") ++ rest)
  = cons (Ascii.N_of_ascii c) <$> utf8_decode rest.
Proof. by destruct c as [[] [] [] [] [] [] [] []]. Qed.

(** Decoding undoes encoding, character by character. *)
Lemma utf8_decode_encode (s : string) (rest : list Byte.byte) :
  utf8_decode (utf8_encode s ++ rest) = app (points_of s) <$> utf8_decode rest.
Proof.
  induction s as [|c s IH].
  - cbn. by destruct (utf8_decode rest).
  - rewrite utf8_encode_cons, <- List.app_assoc, utf8_decode_char, IH.
    by destruct (utf8_decode rest).
Qed.

Lemma text_of_points (s : string) : text_of (points_of s) = Some s.
Proof.
  induction s as [|c s IH]; [done|].
  change (points_of (String c s)) with (Ascii.N_of_ascii c :: points_of s).
  cbn [text_of]. pose proof (Ascii.N_ascii_bounded c) as Hc.
  apply N.ltb_lt in Hc. rewrite Hc, IH. cbn.
  by rewrite Ascii.ascii_N_embedding.
Qed.

(** A chunk that holds whole characters is decoded to its text. *)
Lemma recv_decode_encode (s : string) : recv_decode (utf8_encode s) = Some (Data s).
Proof.
  unfold recv_decode.
  rewrite <- (List.app_nil_r (utf8_encode s)), utf8_decode_encode. cbn.
  by rewrite List.app_nil_r, text_of_points.
Qed.

Lemma utf8_decode_lead (c : ascii) :
  (128 <= Ascii.N_of_ascii c)%N ->
  utf8_decode (take 1 (utf8_encode (String c ""))) = None.
Proof.
  destruct c as [[] [] [] [] [] [] [] []]; intros H; try reflexivity;
    exfalso; vm_compute in H; by apply H.
Qed.

(** A chunk that ends within a character of two bytes is not decoded:
    [decode] raises, whatever text comes before the character. *)
Lemma recv_decode_cut (s : string) (c : ascii) :
  (128 <= Ascii.N_of_ascii c)%N ->
  recv_decode (utf8_encode s ++ take 1 (utf8_encode (String c "")))
  = Some (RecvError "UnicodeDecodeError").
Proof.
  intros H. unfold recv_decode. by rewrite utf8_decode_encode, utf8_decode_lead.
Qed.
End Bytes.

(** C7.  Framing depends on where the bytes are cut into chunks, because each
    chunk is decoded on its own before it reaches the buffer.  The bytes of a
    channel message with an accented letter and of a keepalive line behind
    it, received in one chunk, give both lines, and the keepalive line is
    answered.  The same bytes cut between the two bytes of the letter give no
    line at all: decoding the first chunk raises, the receive loop is left,
    the bot signs off, and the keepalive line is dropped. *)
Theorem framing_breaks_within_a_character :
  let data := Sample.accent_bytes in
  let chunk1 := take 29 data in
  let chunk2 := drop 29 data in
  let ws := fun _ : nat => Sample.january in
  (chunk1 ++ chunk2)%list = data
  /\ received [data] = Some [Data Sample.accent_text]
  /\ feed "" Sample.accent_text = ([Sample.accent_line; "PING :x"], "")
  /\ sent <$> run_on_bytes commands true ws [data] Sample.bot
     = Some [ "NICK bot" +:+ Py.CRLF; "USER bot 0 * :PyIRCBot" +:+ Py.CRLF;
              "PONG :x" +:+ Py.CRLF; "PONG :x" +:+ Py.CRLF;
              "QUIT :PyIRCBot signing off!" +:+ Py.CRLF ]
  /\ recv_decode chunk1 = Some (RecvError "UnicodeDecodeError")
  /\ sent <$> run_on_bytes commands true ws [chunk1; chunk2] Sample.bot
     = Some [ "NICK bot" +:+ Py.CRLF; "USER bot 0 * :PyIRCBot" +:+ Py.CRLF;
              "QUIT :PyIRCBot signing off!" +:+ Py.CRLF ].
Proof. repeat split; vm_compute; reflexivity. Qed.

(** ** The dispatch loops *)

Section DispatchFacts.
Variable cmds : list (string * Handler).

Lemma command_loop_miss skipped rest reply_to sender message w b :
  Forall (misses message) skipped ->
  command_loop (skipped ++ rest) reply_to sender message w b
  = command_loop rest reply_to sender message w b.
Proof.
  induction 1 as [|[cmd func] skipped Hmiss _ IH]; [done|].
  unfold misses in Hmiss. cbn in Hmiss |- *. by rewrite Hmiss.
Qed.

Lemma command_loop_hit skipped cmd func later reply_to sender message w b :
  Forall (misses message) skipped ->
  Py.startswith cmd message = true ->
  command_loop (skipped ++ (cmd, func) :: later) reply_to sender message w b
  = call_handler func reply_to sender message w b.
Proof.
  intros Hskip Hhit. rewrite command_loop_miss by done.
  cbn [command_loop]. by rewrite Hhit.
Qed.

Lemma command_loop_none reply_to sender message w b :
  Forall (misses message) cmds ->
  command_loop cmds reply_to sender message w b = (Normal, b).
Proof.
  intros H. rewrite <- (app_nil_r cmds). by rewrite command_loop_miss.
Qed.

(** The loop in terms of the first match. *)
Lemma command_loop_first_match reply_to sender message w b :
  command_loop cmds reply_to sender message w b
  = match first_match cmds message with
    | Some (_, func) => call_handler func reply_to sender message w b
    | None => (Normal, b)
    end.
Proof.
  unfold first_match. induction cmds as [|[cmd func] rest IH]; [done|].
  cbn [command_loop List.find fst]. by destruct (Py.startswith cmd message).
Qed.
End DispatchFacts.

(** C4.  The dispatch loops scan the registry in registration order and the
    first entry whose command is a prefix of the text is the one handled,
    whatever entries follow it, even ones that match as well; when no entry
    matches, a private message changes nothing at all, and a channel
    message sends nothing and leaves the command counters as they were. *)
Theorem dispatch_first_match_wins
    (skipped : list (string * Handler)) (sender message : string)
    (w : World) (b : Bot) :
  Forall (misses message) skipped ->
  (forall cmd func later,
      Py.startswith cmd message = true ->
      handle_private_message (skipped ++ (cmd, func) :: later) sender message w b
      = call_handler func sender sender message w b
      /\ handle_channel_message (skipped ++ (cmd, func) :: later) sender message w b
         = call_handler func (channel b) sender message w
             (tally_month_user sender (tally_user sender b)))
  /\ handle_private_message skipped sender message w b = (Normal, b)
  /\ (let r := handle_channel_message skipped sender message w b in
      r.1 = Normal
      /\ sent r.2 = sent b
      /\ commands_processed (stats r.2) = commands_processed (stats b)
      /\ month_commands_processed (get_monthly_stats r.2)
         = month_commands_processed (get_monthly_stats b)).
Proof.
  intros Hskip. split; [|split].
  - intros cmd func later Hhit. unfold handle_private_message, handle_channel_message.
    by rewrite !command_loop_hit.
  - unfold handle_private_message. by apply command_loop_none.
  - unfold handle_channel_message. rewrite command_loop_none by done.
    cbn [fst snd]. repeat split; try done.
    unfold get_monthly_stats, tally_month_user, tally_user, update_monthly.
    cbn. rewrite lookup_alter. case_decide; [|congruence].
    by destruct (monthly_stats (stats b) !! current_month b).
Qed.

Lemma dispatch_first_match_wins_witness :
  handle_private_message
    ([(".help", cmd_help)] ++ (".dice", cmd_dice) :: [(".dice2", cmd_ping)])
    "nick" ".dice2 roll" Sample.january Sample.bot
  = call_handler cmd_dice "nick" "nick" ".dice2 roll" Sample.january Sample.bot.
Proof.
  refine (proj1 (proj1 (dispatch_first_match_wins [(".help", cmd_help)]
                          "nick" ".dice2 roll" Sample.january Sample.bot _)
                   ".dice" cmd_dice [(".dice2", cmd_ping)] _)).
  - repeat constructor.
  - reflexivity.
Defined.

(** ** What each step does to the statistics and to the socket *)

Section SessionFacts.
Variable cmds : list (string * Handler).

Lemma sent_emit e b :
  sent (emit e b) = (sent b ++ match e with Send d => [d] | _ => [] end)%list.
Proof.
  unfold sent, emit. cbn [io]. rewrite omap_app. by destruct e.
Qed.

Lemma sent_send_raw m b : sent (send_raw m b) = (sent b ++ [m +:+ Py.CRLF])%list.
Proof. apply sent_emit. Qed.

Lemma counters_ok_weaken m m' s : counters_ok 1 m s -> counters_ok 0 m' s.
Proof.
  intros [H1 H2]. split; [lia|]. intros j k Hk. specialize (H2 j k Hk).
  repeat case_decide; lia.
Qed.

Lemma counters_ok_month m m' s : counters_ok 0 m s -> counters_ok 0 m' s.
Proof.
  intros [H1 H2]. split; [lia|]. intros j k Hk. specialize (H2 j k Hk).
  repeat case_decide; lia.
Qed.

Lemma check_month_change_counters now m b :
  counters_ok 0 m (stats b) -> counters_ok 0 m (stats (check_month_change now b)).
Proof.
  intros [H1 H2]. unfold check_month_change.
  destruct (negb (now =? current_month b)%string); [|done].
  cbn. destruct (monthly_stats (stats b) !! now) eqn:E; [done|].
  split; [done|]. cbn. intros j k.
  rewrite lookup_insert. case_decide.
  - intros [= <-]. cbn. case_decide; lia.
  - apply H2.
Qed.

Lemma incr_messages_counters m b :
  counters_ok 0 m (stats b) ->
  counters_ok 1 (current_month b)
    (stats (incr_month_messages_received (incr_messages_received b))).
Proof.
  intros [H1 H2]. split; cbn; [lia|]. intros j k.
  rewrite lookup_alter. case_decide as Hj.
  - destruct (monthly_stats (stats b) !! current_month b) as [k0|] eqn:E; [|done].
    intros [= <-]. cbn. specialize (H2 _ _ E).
    rewrite decide_True by done. case_decide; lia.
  - intros Hk. specialize (H2 _ _ Hk). rewrite decide_False by done.
    case_decide; lia.
Qed.

Lemma tally_counters d m sender b :
  counters_ok d m (stats b) ->
  counters_ok d m (stats (tally_month_user sender (tally_user sender b))).
Proof.
  intros [H1 H2]. split; cbn; [done|]. intros j k.
  rewrite lookup_alter. case_decide as Hj; [|apply H2].
  destruct (monthly_stats (stats b) !! current_month b) as [k0|] eqn:E; [|done].
  intros [= <-]. cbn. subst j. by apply H2.
Qed.

Lemma incr_commands_counters b :
  counters_ok 1 (current_month b) (stats b) ->
  counters_ok 0 (current_month b)
    (stats (incr_month_commands_processed (incr_commands_processed b))).
Proof.
  intros [H1 H2]. split; cbn; [lia|]. intros j k.
  rewrite lookup_alter. case_decide as Hj.
  - destruct (monthly_stats (stats b) !! current_month b) as [k0|] eqn:E; [|done].
    intros [= <-]. cbn. specialize (H2 _ _ E).
    rewrite decide_True in H2 by done. case_decide; lia.
  - intros Hk. specialize (H2 _ _ Hk). rewrite decide_False in H2 by done.
    case_decide; lia.
Qed.

(** A handler is called on the counted state and can only move the random
    state; what follows the call only writes to the socket. *)
Lemma call_handler_stats func reply_to sender message w b :
  stats (call_handler func reply_to sender message w b).2
  = stats (incr_month_commands_processed (incr_commands_processed b)).
Proof.
  unfold call_handler.
  destruct (func _ _ _ _) as [[response|e] g]; [|done].
  by destruct (response_text response).
Qed.

Lemma call_handler_current_month func reply_to sender message w b :
  current_month (call_handler func reply_to sender message w b).2 = current_month b.
Proof.
  unfold call_handler.
  destruct (func _ _ _ _) as [[response|e] g]; [|done].
  by destruct (response_text response).
Qed.

Lemma command_loop_counters reply_to sender message w b :
  counters_ok 1 (current_month b) (stats b) ->
  counters_ok 0 (current_month b)
    (stats (command_loop cmds reply_to sender message w b).2).
Proof.
  intros H. rewrite command_loop_first_match.
  destruct (first_match cmds message) as [[cmd func]|].
  - rewrite call_handler_stats. by apply incr_commands_counters.
  - by apply counters_ok_weaken with (current_month b).
Qed.

Lemma handle_message_counters w line b :
  counters_ok 0 (current_month b) (stats b) ->
  counters_ok 0 (current_month b) (stats (handle_message cmds w line b).2).
Proof.
  intros H. apply (check_month_change_counters (now_month w)) in H.
  unfold handle_message. set (b0 := check_month_change (now_month w) b) in *.
  destruct (Py.startswith ":" line).
  - destruct (Py.splitn " " 2 line) as [|p0 [|p1 [|p2 tl]]]; try done.
    pose proof (incr_messages_counters _ _ H) as H1.
    set (b1 := incr_month_messages_received (incr_messages_received b0)) in *.
    destruct (p1 =? "PING")%string.
    { cbn [snd]. by apply counters_ok_weaken with (current_month b0). }
    destruct (p1 =? "PRIVMSG")%string.
    2:{ by apply counters_ok_weaken with (current_month b0). }
    destruct (String.eqb _ (channel b1)).
    + unfold handle_channel_message.
      eapply counters_ok_month, command_loop_counters.
      by apply (tally_counters 1 (current_month b0)).
    + unfold handle_private_message.
      eapply counters_ok_month. by apply command_loop_counters.
  - by destruct (Py.startswith "PING" line).
Qed.

Lemma server_reply_stats line b : stats (server_reply line b).2 = stats b.
Proof.
  unfold server_reply.
  destruct (Py.contains "001" line); [done|].
  destruct (Py.contains "433" line).
  - unfold randint. by destruct (999 <? 1).
  - by destruct (Py.contains "PING" line).
Qed.

Lemma process_line_counters w line b :
  counters_ok 0 "" (stats b) ->
  counters_ok 0 "" (stats (process_line cmds w line b).2).
Proof.
  intros H. unfold process_line. destruct (Py.truthy (Py.strip line)); [|done].
  apply (counters_ok_month _ (current_month b)) in H.
  apply (handle_message_counters w line) in H.
  apply (counters_ok_month _ "") in H.
  destruct (handle_message cmds w line b) as [[|e] b1]; [|done].
  by rewrite server_reply_stats.
Qed.
End SessionFacts.

(** C6.  In every state a bot reaches by processing lines, whatever the
    lines, the month they arrive in and the handlers registered, the
    commands processed do not outnumber the messages received, for the
    all-time totals and in every monthly bucket. *)
Theorem messages_bound_commands (cmds : list (string * Handler)) (b : Bot) :
  reachable cmds b ->
  commands_processed (stats b) <= messages_received (stats b)
  /\ forall month k, monthly_stats (stats b) !! month = Some k ->
       month_commands_processed k <= month_messages_received k.
Proof.
  intros Hreach.
  assert (counters_ok 0 "" (stats b)) as [H1 H2].
  { induction Hreach as [cfg month g|b w line _ IH].
    - split; cbn; [lia|]. intros m k.
      rewrite lookup_singleton. case_decide; [|done].
      intros [= <-]. cbn. case_decide; lia.
    - by apply process_line_counters. }
  split; [lia|]. intros month k Hk. specialize (H2 _ _ Hk).
  case_decide; lia.
Qed.

Lemma messages_bound_commands_witness :
  let b := (process_line commands Sample.february
              ":nick!u@h PRIVMSG #chan :.dice 2d6" Sample.bot).2 in
  commands_processed (stats b) <= messages_received (stats b)
  /\ forall month k, monthly_stats (stats b) !! month = Some k ->
       month_commands_processed k <= month_messages_received k.
Proof.
  apply (messages_bound_commands commands).
  apply reachable_line.
  exact (reachable_init commands Sample.cfg "01-2025" Sample.rng).
Defined.

(** ** Channel messages, direct messages and the month *)

Section Accounting.
Variable cmds : list (string * Handler).

(** What [handle_message] does with a line it takes for a [PRIVMSG]. *)
Lemma handle_message_privmsg w line sender target text b :
  privmsg_of line = Some (sender, target, text) ->
  handle_message cmds w line b
  = let b1 := incr_month_messages_received
                (incr_messages_received (check_month_change (now_month w) b)) in
    if String.eqb target (channel b1) then handle_channel_message cmds sender text w b1
    else handle_private_message cmds sender text w b1.
Proof.
  unfold privmsg_of, handle_message.
  destruct (Py.startswith ":" line); [|done].
  destruct (Py.splitn " " 2 line) as [|p0 [|p1 [|p2 tl]]]; try done.
  destruct (p1 =? "PING")%string; [done|].
  destruct (p1 =? "PRIVMSG")%string; [|done].
  by intros [= <- <- <-].
Qed.

Lemma check_month_change_current now b :
  current_month (check_month_change now b) = now.
Proof.
  unfold check_month_change.
  destruct (String.eqb_spec now (current_month b)) as [->|_]; [done|].
  cbn. by destruct (monthly_stats (stats b) !! now).
Qed.

Lemma check_month_change_month_ok now b :
  month_ok b -> month_ok (check_month_change now b).
Proof.
  unfold month_ok, check_month_change. intros H.
  destruct (String.eqb_spec now (current_month b)) as [->|_]; [done|].
  cbn. destruct (monthly_stats (stats b) !! now) eqn:E; cbn.
  - by rewrite E.
  - by rewrite lookup_insert_eq.
Qed.

Lemma check_month_change_keeps now b m k :
  monthly_stats (stats b) !! m = Some k ->
  monthly_stats (stats (check_month_change now b)) !! m = Some k.
Proof.
  unfold check_month_change. intros H.
  destruct (negb (now =? current_month b)%string); [|done].
  cbn. destruct (monthly_stats (stats b) !! now) eqn:E; [done|].
  cbn. rewrite lookup_insert_ne; [done|]. congruence.
Qed.

Lemma check_month_change_all_time now b :
  messages_received (stats (check_month_change now b)) = messages_received (stats b)
  /\ commands_processed (stats (check_month_change now b)) = commands_processed (stats b)
  /\ user_messages (stats (check_month_change now b)) = user_messages (stats b)
  /\ channel (check_month_change now b) = channel b.
Proof.
  unfold check_month_change.
  destruct (negb (now =? current_month b)%string); [|done].
  cbn. by destruct (monthly_stats (stats b) !! now).
Qed.

(** An update through the current bucket is an update of that bucket. *)
Lemma get_monthly_update f b :
  month_ok b -> get_monthly_stats (update_monthly f b) = f (get_monthly_stats b).
Proof.
  unfold month_ok, get_monthly_stats, update_monthly. intros [k Hk].
  cbn. rewrite lookup_alter, decide_True by done. by rewrite Hk.
Qed.

Lemma update_monthly_month_ok f b : month_ok b -> month_ok (update_monthly f b).
Proof.
  unfold month_ok, update_monthly. intros [k Hk].
  cbn. rewrite lookup_alter, decide_True by done. by rewrite Hk.
Qed.

Lemma update_monthly_keeps_others f b m :
  m <> current_month b ->
  monthly_stats (stats (update_monthly f b)) !! m = monthly_stats (stats b) !! m.
Proof.
  intros H. unfold update_monthly. cbn. rewrite lookup_alter.
  by rewrite decide_False.
Qed.

(** The statistics the dispatch loop leaves: the command counters go up by
    one when a command matches, and nothing else moves. *)
Lemma command_loop_stats reply_to sender message w b :
  stats (command_loop cmds reply_to sender message w b).2
  = match first_match cmds message with
    | Some _ => stats (incr_month_commands_processed (incr_commands_processed b))
    | None => stats b
    end
  /\ current_month (command_loop cmds reply_to sender message w b).2 = current_month b.
Proof.
  rewrite command_loop_first_match.
  destruct (first_match cmds message) as [[cmd func]|]; [|done].
  by rewrite call_handler_stats, call_handler_current_month.
Qed.
End Accounting.

(** C5.  The accounting of a [PRIVMSG] line.  The all-time and the
    current-month [messages_received] go up by one for a channel message
    and for a direct message alike, before dispatch and whether or not a
    command matches; the per-sender tallies go up by one for a channel
    message only, and a direct message leaves them as they are; the command
    counters go up by one exactly when a command matches. *)
Theorem message_accounting (cmds : list (string * Handler)) (w : World)
    (line sender target text : string) (b : Bot) :
  month_ok b ->
  privmsg_of line = Some (sender, target, text) ->
  let b0 := check_month_change (now_month w) b in
  let b' := (handle_message cmds w line b).2 in
  let hit := match first_match cmds text with Some _ => 1 | None => 0 end in
  messages_received (stats b') = messages_received (stats b) + 1
  /\ month_messages_received (get_monthly_stats b')
     = month_messages_received (get_monthly_stats b0) + 1
  /\ commands_processed (stats b') = commands_processed (stats b) + hit
  /\ month_commands_processed (get_monthly_stats b')
     = month_commands_processed (get_monthly_stats b0) + hit
  /\ (target = channel b ->
      user_messages (stats b') = tally sender (user_messages (stats b))
      /\ month_user_messages (get_monthly_stats b')
         = tally sender (month_user_messages (get_monthly_stats b0)))
  /\ (target <> channel b ->
      user_messages (stats b') = user_messages (stats b)
      /\ month_user_messages (get_monthly_stats b')
         = month_user_messages (get_monthly_stats b0)).
Proof.
  intros Hok Hline b0 b' hit. subst b'.
  rewrite (handle_message_privmsg cmds w line sender target text b Hline).
  fold b0. cbv zeta.
  pose proof (check_month_change_all_time (now_month w) b) as (Em & Ec & Eu & Ech).
  fold b0 in Em, Ec, Eu, Ech.
  apply (check_month_change_month_ok (now_month w)) in Hok. fold b0 in Hok.
  destruct Hok as [k0 Hk0].
  set (b1 := incr_month_messages_received (incr_messages_received b0)).
  assert (channel b1 = channel b) as -> by (rewrite <- Ech; done).
  unfold handle_channel_message, handle_private_message.
  destruct (String.eqb_spec target (channel b)) as [Ht|Ht].
  - destruct (command_loop_stats cmds (channel (tally_month_user sender (tally_user sender b1)))
                sender text (w) (tally_month_user sender (tally_user sender b1))) as [Es Ecur].
    unfold get_monthly_stats. rewrite Es, Ecur. subst hit.
    destruct (first_match cmds text); cbn; rewrite ?lookup_alter, ?decide_True by done;
      rewrite Hk0; cbn; rewrite Em, Ec, Eu;
      repeat split; intros; first [done | lia | congruence].
  - destruct (command_loop_stats cmds sender sender text w b1) as [Es Ecur].
    unfold get_monthly_stats. rewrite Es, Ecur. subst hit.
    destruct (first_match cmds text); cbn; rewrite ?lookup_alter, ?decide_True by done;
      rewrite Hk0; cbn; rewrite Em, Ec, Eu;
      repeat split; intros; first [done | lia | congruence].
Qed.

Lemma message_accounting_witness :
  month_ok Sample.bot
  /\ privmsg_of ":nick!u@h PRIVMSG bot :.ping" = Some ("nick", "bot", ".ping")
  /\ messages_received
       (stats (handle_message commands Sample.january
                 ":nick!u@h PRIVMSG bot :.ping" Sample.bot).2)
     = messages_received (stats Sample.bot) + 1.
Proof.
  assert (H1 : month_ok Sample.bot) by (eexists; reflexivity).
  assert (H2 : privmsg_of ":nick!u@h PRIVMSG bot :.ping" = Some ("nick", "bot", ".ping"))
    by reflexivity.
  split; [exact H1|]. split; [exact H2|].
  exact (proj1 (message_accounting commands Sample.january _ _ _ _ Sample.bot H1 H2)).
Defined.

(** C5, as stated, fails: a direct message (its target is not the channel)
    raises [messages_received], for all time and for the current month. *)
Lemma direct_message_is_counted :
  let line := ":nick!u@h PRIVMSG bot :hello" in
  let b' := (handle_message commands Sample.january line Sample.bot).2 in
  privmsg_of line = Some ("nick", "bot", "hello")
  /\ "bot" <> channel Sample.bot
  /\ messages_received (stats Sample.bot) = 0
  /\ messages_received (stats b') = 1
  /\ month_messages_received (get_monthly_stats Sample.bot) = 0
  /\ month_messages_received (get_monthly_stats b') = 1.
Proof. repeat split; try reflexivity. discriminate. Qed.

(** ** Blank lines *)

Section Blank.
Import Py PyFacts.

Lemma rev_app_app (s acc : string) :
  String.rev_app s acc = String.rev_app s "" +:+ acc.
Proof.
  revert acc. induction s as [|c s IH]; intros acc; [done|].
  cbn [String.rev_app]. rewrite (IH (String c acc)), (IH (String c "")).
  by rewrite sapp_assoc.
Qed.

Lemma rev_cons (c : ascii) (s : string) :
  String.rev (String c s) = String.rev s +:+ String c "".
Proof. unfold String.rev. cbn [String.rev_app]. apply rev_app_app. Qed.

Lemma rev_app (s t : string) :
  String.rev (s +:+ t) = String.rev t +:+ String.rev s.
Proof.
  induction s as [|c s IH].
  - by rewrite sapp_nil_l, sapp_nil_r.
  - by rewrite sapp_cons, !rev_cons, IH, sapp_assoc.
Qed.

Lemma rev_involutive (s : string) : String.rev (String.rev s) = s.
Proof.
  induction s as [|c s IH]; [done|].
  by rewrite rev_cons, rev_app, IH.
Qed.

Lemma has_nonspace_lstrip s : has_nonspace s -> has_nonspace (lstrip s).
Proof.
  intros (u & c & v & -> & Hc). induction u as [|a u IH].
  - rewrite sapp_nil_l. cbn [lstrip]. rewrite Hc. by exists "", c, v.
  - rewrite sapp_cons. cbn [lstrip]. destruct (isspace a) eqn:Ha; [done|].
    by exists "", a, (u +:+ String c v).
Qed.

Lemma has_nonspace_rev s : has_nonspace s -> has_nonspace (String.rev s).
Proof.
  intros (u & c & v & -> & Hc). rewrite rev_app, rev_cons, sapp_assoc.
  by exists (String.rev v), c, (String.rev u).
Qed.

Lemma has_nonspace_truthy s : has_nonspace s -> truthy s = true.
Proof. intros (u & c & v & -> & _). by destruct u. Qed.

(** A line that contains a text starting with a character that is not
    white space is not blank. *)
Lemma contains_not_blank (c : ascii) (sub line : string) :
  isspace c = false ->
  contains (String c sub) line = true ->
  truthy (strip line) = true.
Proof.
  intros Hc (u & v & ->)%contains_app.
  apply has_nonspace_truthy. unfold strip.
  apply has_nonspace_rev, has_nonspace_lstrip, has_nonspace_rev, has_nonspace_lstrip.
  exists u, c, (sub +:+ v). by rewrite sapp_cons.
Qed.
End Blank.

(** ** Handlers that raise and handlers that do not *)

Section Raising.
Variable cmds : list (string * Handler).

Lemma first_match_In message cmd func :
  first_match cmds message = Some (cmd, func) -> In (cmd, func) cmds.
Proof. intros H. by apply find_some in H as [H _]. Qed.

Lemma call_handler_normal func reply_to sender message w b :
  (forall b1, exists r g, func sender message b1 w = (Return r, g)) ->
  (call_handler func reply_to sender message w b).1 = Normal.
Proof.
  intros H. unfold call_handler.
  destruct (H (incr_month_commands_processed (incr_commands_processed b)))
    as (r & g & ->).
  by destruct (response_text r).
Qed.

Lemma command_loop_normal reply_to sender message w b :
  no_raise cmds -> (command_loop cmds reply_to sender message w b).1 = Normal.
Proof.
  intros H. rewrite command_loop_first_match.
  destruct (first_match cmds message) as [[cmd func]|] eqn:E; [|done].
  apply first_match_In in E. unfold no_raise in H.
  rewrite List.Forall_forall in H. specialize (H _ E).
  apply call_handler_normal. intros b1. apply H.
Qed.

(** With handlers that do not raise, [handle_message] returns. *)
Lemma handle_message_normal w line b :
  no_raise cmds -> (handle_message cmds w line b).1 = Normal.
Proof.
  intros H. unfold handle_message.
  destruct (Py.startswith ":" line).
  - destruct (Py.splitn " " 2 line) as [|p0 [|p1 [|p2 tl]]]; try done.
    destruct (p1 =? "PING")%string; [done|].
    destruct (p1 =? "PRIVMSG")%string; [|done].
    destruct (String.eqb _ _);
      unfold handle_channel_message, handle_private_message;
      by apply command_loop_normal.
  - by destruct (Py.startswith "PING" line).
Qed.

Lemma call_handler_frame func reply_to sender message w b :
  channel (call_handler func reply_to sender message w b).2 = channel b
  /\ nickname (call_handler func reply_to sender message w b).2 = nickname b.
Proof.
  unfold call_handler.
  destruct (func _ _ _ _) as [[response|e] g]; [|done].
  by destruct (response_text response).
Qed.

Lemma command_loop_frame reply_to sender message w b :
  channel (command_loop cmds reply_to sender message w b).2 = channel b
  /\ nickname (command_loop cmds reply_to sender message w b).2 = nickname b.
Proof.
  rewrite command_loop_first_match.
  destruct (first_match cmds message) as [[cmd func]|]; [|done].
  apply call_handler_frame.
Qed.

Lemma check_month_change_frame now b :
  channel (check_month_change now b) = channel b
  /\ nickname (check_month_change now b) = nickname b
  /\ io (check_month_change now b) = io b
  /\ random (check_month_change now b) = random b.
Proof.
  unfold check_month_change.
  destruct (negb (now =? current_month b)%string); [|done].
  cbn. by destruct (monthly_stats (stats b) !! now).
Qed.

(** [handle_message] leaves the channel and the nickname alone. *)
Lemma handle_message_frame w line b :
  channel (handle_message cmds w line b).2 = channel b
  /\ nickname (handle_message cmds w line b).2 = nickname b.
Proof.
  destruct (check_month_change_frame (now_month w) b) as (Ec & En & _).
  unfold handle_message. set (b0 := check_month_change (now_month w) b) in *.
  destruct (Py.startswith ":" line).
  - destruct (Py.splitn " " 2 line) as [|p0 [|p1 [|p2 tl]]]; try done.
    destruct (p1 =? "PING")%string; [done|].
    destruct (p1 =? "PRIVMSG")%string; [|done].
    destruct (String.eqb _ _);
      unfold handle_channel_message, handle_private_message;
      match goal with
      | |- context [command_loop cmds ?r ?s ?m ?w ?x] =>
          destruct (command_loop_frame r s m w x) as [-> ->]
      end; done.
  - by destruct (Py.startswith "PING" line).
Qed.
End Raising.

(** None of the handlers [__init__] registers raises. *)
Lemma commands_no_raise : no_raise commands.
Proof.
  unfold no_raise, commands.
  repeat match goal with
         | |- Forall _ (_ :: _) => constructor
         | |- Forall _ [] => constructor
         end;
    intros sender message b w; cbn [snd].
  - by eexists _, _.
  - by eexists _, _.
  - by eexists _, _.
  - unfold cmd_dice.
    destruct (cmd_dice_try sender message (random b)) as [[r|e] g]; by eexists _, _.
  - unfold cmd_8ball. destruct (choice _ _). by eexists _, _.
  - by eexists _, _.
  - unfold cmd_joke. destruct (choice _ _). by eexists _, _.
  - by eexists _, _.
  - by eexists _, _.
  - by eexists _, _.
Qed.

(** ** The reply chain of the receive loop *)

(** With handlers that do not raise, the body of the receive loop is
    [handle_message] followed by the reply chain. *)
Lemma process_line_chain (cmds : list (string * Handler)) w line b :
  no_raise cmds ->
  Py.truthy (Py.strip line) = true ->
  process_line cmds w line b = server_reply line (handle_message cmds w line b).2.
Proof.
  intros Hcmds Hline. unfold process_line. rewrite Hline.
  pose proof (handle_message_normal cmds w line b Hcmds) as Hn.
  destruct (handle_message cmds w line b) as [o b1]. cbn [fst snd] in *. by subst o.
Qed.

(** C10.  For a line that is not blank, the receive loop tests the whole
    line for substrings, in an [if]/[elif] chain, after [handle_message] has
    returned: a line with ["001"] anywhere in it makes the bot send [JOIN]
    for the configured channel; a line with ["433"] and no ["001"] appends a
    number between 1 and 999 to the nickname and sends [NICK] with the new
    nickname; a line with ["PING"] and neither of the two gets one more
    reply, the line with [PING] replaced by [PONG], behind whatever
    [handle_message] sent; any other line gets nothing from the chain. *)
Theorem server_reply_detection (w : World) (line : string) (b : Bot) :
  Py.truthy (Py.strip line) = true ->
  let b1 := (handle_message commands w line b).2 in
  let r := process_line commands w line b in
  r.1 = Normal
  /\ (Py.contains "001" line = true ->
      sent r.2 = (sent b1 ++ [("JOIN " +:+ channel b) +:+ Py.CRLF])%list
      /\ nickname r.2 = nickname b)
  /\ (Py.contains "001" line = false -> Py.contains "433" line = true ->
      exists n, 1 <= n <= 999
        /\ nickname r.2 = nickname b +:+ Py.str n
        /\ sent r.2
           = (sent b1 ++ [("NICK " +:+ (nickname b +:+ Py.str n)) +:+ Py.CRLF])%list)
  /\ (Py.contains "001" line = false -> Py.contains "433" line = false ->
      Py.contains "PING" line = true ->
      sent r.2 = (sent b1 ++ [Py.replace "PING" "PONG" line +:+ Py.CRLF])%list
      /\ nickname r.2 = nickname b)
  /\ (Py.contains "001" line = false -> Py.contains "433" line = false ->
      Py.contains "PING" line = false -> r.2 = b1).
Proof.
  intros Hline b1 r. subst r b1. unfold process_line. rewrite Hline.
  pose proof (handle_message_normal commands w line b commands_no_raise) as Hn.
  destruct (handle_message_frame commands w line b) as [Ec En].
  destruct (handle_message commands w line b) as [o b1].
  cbn [fst snd] in *. subst o. unfold server_reply.
  destruct (Py.contains "001" line).
  { cbn [fst snd]. unfold join_channel. rewrite sent_send_raw, Ec.
    repeat split; try done. }
  destruct (Py.contains "433" line).
  { unfold randint. replace (999 <? 1) with false by reflexivity.
    cbn [fst snd]. repeat split; try done. intros _ _.
    exists (1 + raw (random b1) (used (random b1)) mod (999 - 1 + 1)).
    rewrite sent_send_raw. cbn [nickname set_nickname set_random]. rewrite En.
    repeat split; try done;
      pose proof (Z.mod_pos_bound (raw (random b1) (used (random b1))) (999 - 1 + 1));
      lia. }
  destruct (Py.contains "PING" line).
  { cbn [fst snd]. rewrite sent_send_raw. repeat split; try done. }
  cbn [fst snd]. repeat split; done.
Qed.

Lemma server_reply_detection_witness :
  Py.truthy (Py.strip ":nick!u@h PRIVMSG #chan :room 001 is free") = true
  /\ sent (process_line commands Sample.january
             ":nick!u@h PRIVMSG #chan :room 001 is free" Sample.bot).2
     = ["JOIN #chan" +:+ Py.CRLF].
Proof.
  assert (H : Py.truthy (Py.strip ":nick!u@h PRIVMSG #chan :room 001 is free") = true)
    by reflexivity.
  split; [exact H|].
  exact (proj1 (proj1 (proj2 (server_reply_detection Sample.january _ Sample.bot H))
                  eq_refl)).
Defined.

(** ** The receive loop *)

Section Loop.
Variable cmds : list (string * Handler).

Lemma process_lines_app ws n lines1 lines2 b :
  process_lines cmds ws n (lines1 ++ lines2) b
  = match process_lines cmds ws n lines1 b with
    | (Normal, n1, b1) => process_lines cmds ws n1 lines2 b1
    | raised => raised
    end.
Proof.
  revert n b. induction lines1 as [|line rest IH]; intros n b; [done|].
  change ((line :: rest) ++ lines2)%list with (line :: (rest ++ lines2))%list.
  cbn [process_lines]. destruct (process_line cmds (ws n) line b) as [[|e] b1]; [|done].
  apply IH.
Qed.

(** The receive loop hands to [for line in lines] the lines the framer
    emits, chunk after chunk, and stops at the first one that raises. *)
Lemma recv_loop_feed_all ws chunks n buffer b :
  Forall (fun d => d <> "") chunks ->
  recv_loop cmds ws (Data <$> chunks) n buffer b
  = (process_lines cmds ws n (feed_all buffer chunks).1 b).2.
Proof.
  intros H. revert n buffer b.
  induction H as [|d rest Hd _ IH]; intros n buffer b; [done|].
  cbn [fmap list_fmap recv_loop feed_all]. destruct d as [|c d]; [done|].
  destruct (feed buffer (String c d)) as [lines buffer1].
  destruct (feed_all buffer1 rest) as [lines' buffer2] eqn:E.
  cbn [fst]. rewrite process_lines_app.
  destruct (process_lines cmds ws n lines b) as [[[|e] n1] b1]; [|done].
  rewrite IH. by rewrite E.
Qed.

(** What follows a failing [recv] is never read. *)
Lemma recv_loop_failure ws before failure after n buffer b :
  transport_failure failure = true ->
  recv_loop cmds ws (before ++ failure :: after) n buffer b
  = recv_loop cmds ws (before ++ [failure]) n buffer b.
Proof.
  intros Hf. revert n buffer b.
  induction before as [|r before IH]; intros n buffer b.
  - cbn [app]. by destruct failure as [[|c d]|e|].
  - change ((r :: before) ++ failure :: after)%list
      with (r :: (before ++ failure :: after))%list.
    change ((r :: before) ++ [failure])%list with (r :: (before ++ [failure]))%list.
    destruct r as [[|c d]|e|]; try done.
    cbn [recv_loop]. destruct (feed buffer (String c d)) as [lines buffer1].
    destruct (process_lines cmds ws n lines b) as [[[|e] n1] b1]; [|done].
    apply IH.
Qed.

Lemma same_connection_refl b : same_connection b b.
Proof. done. Qed.

Lemma same_connection_trans b1 b2 b3 :
  same_connection b1 b2 -> same_connection b2 b3 -> same_connection b1 b3.
Proof. intros (?&?&?) (?&?&?). repeat split; congruence. Qed.

Lemma same_connection_send m b : same_connection b (send_raw m b).
Proof.
  unfold same_connection, send_raw, connects, emit. cbn.
  rewrite List.filter_app, length_app. cbn. split; [lia|done].
Qed.

Lemma same_connection_check_month now b :
  same_connection b (check_month_change now b).
Proof.
  unfold check_month_change.
  destruct (negb (now =? current_month b)%string); [|done].
  cbn. by destruct (monthly_stats (stats b) !! now).
Qed.

Lemma same_connection_call_handler func reply_to sender message w b :
  same_connection b (call_handler func reply_to sender message w b).2.
Proof.
  unfold call_handler.
  destruct (func _ _ _ _) as [[response|e] g]; [|done].
  destruct (response_text response); [|done].
  cbn [snd]. eapply same_connection_trans; [|apply same_connection_send]. done.
Qed.

Lemma same_connection_command_loop reply_to sender message w b :
  same_connection b (command_loop cmds reply_to sender message w b).2.
Proof.
  rewrite command_loop_first_match.
  destruct (first_match cmds message) as [[cmd func]|]; [|done].
  apply same_connection_call_handler.
Qed.

Lemma same_connection_handle_message w line b :
  same_connection b (handle_message cmds w line b).2.
Proof.
  eapply same_connection_trans; [apply (same_connection_check_month (now_month w))|].
  unfold handle_message. set (b0 := check_month_change (now_month w) b).
  destruct (Py.startswith ":" line).
  - destruct (Py.splitn " " 2 line) as [|p0 [|p1 [|p2 tl]]]; try done.
    destruct (p1 =? "PING")%string.
    { eapply same_connection_trans; [|apply same_connection_send]. done. }
    destruct (p1 =? "PRIVMSG")%string; [|done].
    destruct (String.eqb _ _);
      unfold handle_channel_message, handle_private_message;
      (eapply same_connection_trans; [|apply same_connection_command_loop]); done.
  - destruct (Py.startswith "PING" line); [|done].
    apply same_connection_send.
Qed.

Lemma same_connection_server_reply line b :
  same_connection b (server_reply line b).2.
Proof.
  unfold server_reply. destruct (Py.contains "001" line).
  { apply same_connection_send. }
  destruct (Py.contains "433" line).
  { unfold randint. destruct (999 <? 1); [done|].
    eapply same_connection_trans; [|apply same_connection_send]. done. }
  destruct (Py.contains "PING" line); [|done]. apply same_connection_send.
Qed.

Lemma same_connection_process_line w line b :
  same_connection b (process_line cmds w line b).2.
Proof.
  unfold process_line. destruct (Py.truthy (Py.strip line)); [|done].
  pose proof (same_connection_handle_message w line b) as H.
  destruct (handle_message cmds w line b) as [[|e] b1]; [|done].
  eapply same_connection_trans; [exact H|apply same_connection_server_reply].
Qed.

Lemma same_connection_process_lines ws n lines b :
  same_connection b (process_lines cmds ws n lines b).2.
Proof.
  revert n b. induction lines as [|line rest IH]; intros n b; [done|].
  cbn [process_lines].
  pose proof (same_connection_process_line (ws n) line b) as H.
  destruct (process_line cmds (ws n) line b) as [[|e] b1]; [|done].
  eapply same_connection_trans; [exact H|apply IH].
Qed.

Lemma same_connection_recv_loop ws rs n buffer b :
  same_connection b (recv_loop cmds ws rs n buffer b).
Proof.
  revert n buffer b. induction rs as [|r rs IH]; intros n buffer b; [done|].
  destruct r as [[|c d]|e|]; try done.
  cbn [recv_loop]. destruct (feed buffer (String c d)) as [lines buffer1].
  pose proof (same_connection_process_lines ws n lines b) as H.
  destruct (process_lines cmds ws n lines b) as [[[|e] n1] b1]; [|done].
  eapply same_connection_trans; [exact H|apply IH].
Qed.
End Loop.

(** ** Transport failures *)

(** C1, as stated, fails: with auto-reconnect enabled in the configuration,
    the peer closing the connection ends the run after one connection
    attempt; the bot signs off and closes the socket, and what the network
    would deliver afterwards is never read. *)
Lemma no_reconnect_after_close :
  let final :=
    main commands Sample.cfg "01-2025" Sample.rng
      (Sample.script true
         [Data (":irc.example.org 001 bot :Welcome" +:+ Py.CRLF); Data "";
          Data ("PING :x" +:+ Py.CRLF)]) in
  AUTO_RECONNECT Sample.cfg = true
  /\ connects final = 1%nat
  /\ running final = false
  /\ io final
     = [ Connect true; Send ("NICK bot" +:+ Py.CRLF);
         Send ("USER bot 0 * :PyIRCBot" +:+ Py.CRLF);
         Send ("JOIN #chan" +:+ Py.CRLF);
         Send ("QUIT :PyIRCBot signing off!" +:+ Py.CRLF); Close ].
Proof. repeat split; reflexivity. Qed.

Lemma cleanup_connected b :
  has_socket b = true ->
  connects (cleanup b) = connects b
  /\ running (cleanup b) = false
  /\ List.last (io (cleanup b)) (Connect false) = Close.
Proof.
  intros H. unfold cleanup. cbn [has_socket set_running]. rewrite H.
  repeat split.
  - unfold connects, emit. cbn [io send_raw emit set_running].
    rewrite !List.filter_app, !length_app. cbn. lia.
  - cbn [io emit]. by rewrite last_last.
Qed.

(** C1, amended.  A transport failure does not raise out of [run], and it
    ends the run: a refused connection makes [run] return at once, a failing
    [recv] (an error, or the peer closing) leaves the receive loop, the bot
    signs off and closes the socket, and nothing the network delivers later
    is read.  There is one connection attempt per run and none after the
    failure, whatever the auto-reconnect settings, which take no part in the
    run. *)
Theorem transport_failure_ends_run (cmds : list (string * Handler)) (cfg : Config)
    (month : string) (g : Rng) (ws : nat -> World)
    (ok : bool) (before after : list Recv) (failure : Recv) :
  transport_failure failure = true ->
  let script rs := {| connect_ok := ok; recvs := rs; world_at := ws |} in
  let final := main cmds cfg month g (script (before ++ failure :: after)%list) in
  connects final = 1%nat
  /\ running final = false
  /\ final = main cmds cfg month g (script (before ++ [failure])%list)
  /\ (ok = false -> io final = [Connect false])
  /\ (ok = true -> List.last (io final) (Connect false) = Close)
  /\ (forall enabled delay,
        main cmds (set_reconnect enabled delay cfg) month g
          (script (before ++ failure :: after)%list) = final).
Proof.
  intros Hf script final. subst final. unfold main, run. cbn [connect_ok recvs world_at script].
  unfold connect. destruct ok.
  - set (b1 := set_running true _).
    assert (Hs1 : has_socket b1 = true) by reflexivity.
    assert (Hc1 : connects b1 = 1%nat) by reflexivity.
    pose proof (same_connection_recv_loop cmds ws (before ++ failure :: after) 0 "" b1)
      as (Hc & Hr & Hs).
    rewrite <- (recv_loop_failure cmds ws before failure after) by done.
    set (b2 := recv_loop cmds ws (before ++ failure :: after) 0 "" b1) in *.
    destruct (cleanup_connected b2) as (Hc2 & Hr2 & Hl2); [congruence|].
    repeat split; try done. congruence.
  - repeat split; try done.
Qed.

Lemma transport_failure_ends_run_witness :
  transport_failure (RecvError "ConnectionResetError") = true
  /\ connects
       (main commands Sample.cfg "01-2025" Sample.rng
          {| connect_ok := true;
             recvs := ([Data ("PING :x" +:+ Py.CRLF)]
                       ++ RecvError "ConnectionResetError"
                          :: [Data ("PING :y" +:+ Py.CRLF)])%list;
             world_at := fun _ => Sample.january |}) = 1%nat.
Proof.
  split; [reflexivity|].
  exact (proj1 (transport_failure_ends_run commands Sample.cfg "01-2025" Sample.rng
                  (fun _ => Sample.january) true
                  [Data ("PING :x" +:+ Py.CRLF)] [Data ("PING :y" +:+ Py.CRLF)]
                  (RecvError "ConnectionResetError") eq_refl)).
Defined.

(** ** Handler errors *)

Lemma startswith_contains p s : Py.startswith p s = true -> Py.contains p s = true.
Proof. intros H. destruct s; cbn [Py.contains]; by rewrite H. Qed.

Lemma privmsg_not_blank line m :
  privmsg_of line = Some m -> Py.truthy (Py.strip line) = true.
Proof.
  unfold privmsg_of. destruct (Py.startswith ":" line) eqn:E; [|done]. intros _.
  apply (contains_not_blank ":" ""); [done|]. by apply startswith_contains.
Qed.

(** The dispatch loops have no [try] of their own: if the handler of the
    command a message starts with raised, [handle_message] would raise, no
    reply would be sent, and the loop over the lines of the chunk and the
    receive loop would be left at that line. *)
Lemma raising_handler_leaves_loop (cmds : list (string * Handler))
    (ws : nat -> World) (n : nat) (line : string) (rest : list string)
    (sender target text cmd : string) (func : Handler) (e : string) (b : Bot) :
  privmsg_of line = Some (sender, target, text) ->
  first_match cmds text = Some (cmd, func) ->
  (forall b1, (func sender text b1 (ws n)).1 = Raise e) ->
  let r := handle_message cmds (ws n) line b in
  r.1 = Raised e
  /\ sent r.2 = sent b
  /\ process_lines cmds ws n (line :: rest) b = (Raised e, S n, r.2)
  /\ (forall buffer data rs,
        data <> "" -> (feed buffer data).1 = line :: rest ->
        recv_loop cmds ws (Data data :: rs) n buffer b = r.2).
Proof.
  intros Hline Hfirst Hraise r.
  assert (Hr : r.1 = Raised e /\ sent r.2 = sent b).
  { subst r. rewrite (handle_message_privmsg cmds (ws n) line sender target text b Hline).
    cbv zeta. unfold handle_channel_message, handle_private_message.
    destruct (check_month_change_frame (now_month (ws n)) b) as (_ & _ & Eio & _).
    destruct (String.eqb _ _); rewrite command_loop_first_match, Hfirst;
      unfold call_handler;
      match goal with
      | |- context [func sender text ?x (ws n)] =>
          pose proof (Hraise x) as Hx; destruct (func sender text x (ws n)) as [o g]
      end; cbn [fst] in Hx; subst o; (split; [done|]);
      unfold sent; cbn; by rewrite Eio. }
  destruct Hr as [Hr1 Hr2].
  assert (Hp : process_lines cmds ws n (line :: rest) b = (Raised e, S n, r.2)).
  { cbn [process_lines]. unfold process_line.
    rewrite (privmsg_not_blank line _ Hline). fold r.
    destruct r as [o b1]. cbn [fst snd] in *. by subst o. }
  repeat split; try done.
  intros buffer data rs Hdata Hfeed. destruct data as [|c d]; [done|].
  cbn [recv_loop]. destruct (feed buffer (String c d)) as [lines buffer1].
  cbn [fst] in Hfeed. subst lines. by rewrite Hp.
Qed.

(** The chain behind [handle_message] does not raise: the range of the
    nickname suffix is not empty. *)
Lemma server_reply_normal line b : (server_reply line b).1 = Normal.
Proof.
  unfold server_reply.
  destruct (Py.contains "001" line); [done|].
  destruct (Py.contains "433" line); [done|].
  by destruct (Py.contains "PING" line).
Qed.






(** ** The dice handler *)

(** The limits [cmd_dice] enforces are the literals 10 and 100: a roll the
    pattern finds with more dice or more sides is refused, and nothing is
    drawn. *)
Lemma cmd_dice_too_large sender message g1 g2 num_dice sides b w :
  message <> ".dice" ->
  search_dice message = Some (g1, g2) ->
  Py.int g1 = Some num_dice -> Py.int g2 = Some sides ->
  10 < num_dice \/ 100 < sides ->
  cmd_dice sender message b w = (Return (Some dice_too_large), random b).
Proof.
  intros Hm Hs H1 H2 Hlarge. unfold cmd_dice, cmd_dice_try.
  destruct (String.eqb_spec message ".dice"); [done|]. rewrite Hs, H1, H2.
  assert ((num_dice >? 10) || (sides >? 100) = true) as ->; [|done].
  apply orb_true_iff. rewrite !Z.gtb_lt. lia.
Qed.

(** The bare form draws once and reports one value between 1 and 6. *)
Lemma cmd_dice_default sender b w :
  exists v, 1 <= v <= 6
    /\ cmd_dice sender ".dice" b w
       = (Return (Some (sender +:+ " rolled: " +:+ Py.str v)),
          {| raw := raw (random b); used := S (used (random b)) |}).
Proof.
  exists (1 + raw (random b) (used (random b)) mod (6 - 1 + 1)). split.
  - pose proof (Z.mod_pos_bound (raw (random b) (used (random b))) (6 - 1 + 1)). lia.
  - reflexivity.
Qed.

(** C8.  The limits of the dice command are not the configured ones: with
    [MAX_DICE_COUNT] set to 5, the command [.dice 7d6], which exceeds it, is
    not refused; seven values are drawn and reported. *)
Theorem dice_ignores_configured_limits :
  let b := PyIRCBot_init Sample.strict_cfg "01-2025" Sample.rng in
  let r := cmd_dice "nick" ".dice 7d6" b Sample.january in
  search_dice ".dice 7d6" = Some ("7", "6")
  /\ Py.int "7" = Some 7
  /\ MAX_DICE_COUNT Sample.strict_cfg < 7
  /\ r.1 = Return (Some "nick rolled 7d6: [3, 4, 5, 6, 1, 2, 3] (Total: 24)")
  /\ r.1 <> Return (Some dice_too_large)
  /\ used r.2 = (used (random b) + 7)%nat.
Proof. repeat split; try reflexivity. discriminate. Qed.

(** ** More on the statistics *)

Section MonthBucket.
Variable cmds : list (string * Handler).

Lemma month_ok_same b b' :
  stats b' = stats b -> current_month b' = current_month b -> month_ok b -> month_ok b'.
Proof. unfold month_ok. by intros -> ->. Qed.

Lemma month_ok_command_loop reply_to sender message w b :
  month_ok b -> month_ok (command_loop cmds reply_to sender message w b).2.
Proof.
  intros H. destruct (command_loop_stats cmds reply_to sender message w b) as [Es Ec].
  unfold month_ok. rewrite Es, Ec.
  destruct (first_match cmds message); [|done].
  change (month_ok (incr_month_commands_processed (incr_commands_processed b))).
  apply (update_monthly_month_ok _ (incr_commands_processed b)). exact H.
Qed.

Lemma month_ok_handle_message w line b :
  month_ok b -> month_ok (handle_message cmds w line b).2.
Proof.
  intros H. apply (check_month_change_month_ok (now_month w)) in H.
  unfold handle_message. set (b0 := check_month_change (now_month w) b) in *.
  destruct (Py.startswith ":" line).
  - destruct (Py.splitn " " 2 line) as [|p0 [|p1 [|p2 tl]]]; try done.
    assert (H1 : month_ok (incr_month_messages_received (incr_messages_received b0))).
    { apply (update_monthly_month_ok _ (incr_messages_received b0)). exact H. }
    destruct (p1 =? "PING")%string; [done|].
    destruct (p1 =? "PRIVMSG")%string; [|done].
    destruct (String.eqb _ _);
      unfold handle_channel_message, handle_private_message;
      apply month_ok_command_loop; [|done].
    match goal with
    | |- month_ok (tally_month_user ?s (tally_user ?s ?x)) =>
        apply (update_monthly_month_ok _ (tally_user s x)); exact H1
    end.
  - by destruct (Py.startswith "PING" line).
Qed.

Lemma server_reply_current_month line b :
  current_month (server_reply line b).2 = current_month b.
Proof.
  unfold server_reply.
  destruct (Py.contains "001" line); [done|].
  destruct (Py.contains "433" line).
  - unfold randint. by destruct (999 <? 1).
  - by destruct (Py.contains "PING" line).
Qed.

Lemma month_ok_process_line w line b :
  month_ok b -> month_ok (process_line cmds w line b).2.
Proof.
  intros H. unfold process_line. destruct (Py.truthy (Py.strip line)); [|done].
  apply (month_ok_handle_message w line) in H.
  destruct (handle_message cmds w line b) as [[|e] b1]; [|done].
  eapply month_ok_same; [apply server_reply_stats|apply server_reply_current_month|done].
Qed.
End MonthBucket.

(** X1.  In every state a bot reaches, the current month has its bucket in
    the statistics, so [get_monthly_stats] returns the stored bucket and never
    the throw-away default: no update made through it is lost. *)
Theorem current_month_has_bucket (cmds : list (string * Handler)) (b : Bot) :
  reachable cmds b ->
  monthly_stats (stats b) !! current_month b = Some (get_monthly_stats b).
Proof.
  intros Hreach.
  assert (H : month_ok b).
  { induction Hreach as [cfg month g|b w line _ IH].
    - unfold month_ok. cbn. rewrite lookup_singleton_eq. by eexists.
    - by apply month_ok_process_line. }
  destruct H as [k Hk]. unfold get_monthly_stats. by rewrite Hk.
Qed.

Lemma current_month_has_bucket_witness :
  let b := (process_line commands Sample.february
              ":nick!u@h PRIVMSG #chan :hello" Sample.bot).2 in
  monthly_stats (stats b) !! current_month b = Some (get_monthly_stats b).
Proof.
  apply (current_month_has_bucket commands).
  apply reachable_line.
  exact (reachable_init commands Sample.cfg "01-2025" Sample.rng).
Defined.

(** ** The month check under a clock that does not go back *)

Section Forward.
Variable cmds : list (string * Handler).

Lemma month_le_trans m1 m2 m3 : month_le m1 m2 -> month_le m2 m3 -> month_le m1 m3.
Proof.
  unfold month_le. intros [->|H1] [->|H2]; [by left|by right|by right|right; lia].
Qed.

Lemma keys_old_same b b' :
  stats b' = stats b -> current_month b' = current_month b -> keys_old b -> keys_old b'.
Proof. unfold keys_old. by intros -> ->. Qed.

Lemma keys_old_update f b : keys_old b -> keys_old (update_monthly f b).
Proof.
  unfold keys_old, update_monthly. cbn. intros H m k.
  rewrite lookup_alter. destruct (decide (current_month b = m)) as [<-|_].
  - destruct (monthly_stats (stats b) !! current_month b) eqn:E; [|done].
    intros _. by left.
  - apply H.
Qed.

Lemma keys_old_check_month now b :
  keys_old b -> month_le (current_month b) now ->
  keys_old (check_month_change now b).
Proof.
  unfold keys_old, check_month_change. intros H Hnow.
  destruct (negb (now =? current_month b)%string); [|done].
  cbn. destruct (monthly_stats (stats b) !! now) eqn:E; cbn; intros m k.
  - intros Hm. eapply month_le_trans; [by eapply H|done].
  - destruct (decide (now = m)) as [<-|Hne].
    + intros _. by left.
    + rewrite lookup_insert_ne by done.
      intros Hm. eapply month_le_trans; [by eapply H|done].
Qed.

Lemma keys_old_command_loop reply_to sender message w b :
  keys_old b -> keys_old (command_loop cmds reply_to sender message w b).2.
Proof.
  intros H. destruct (command_loop_stats cmds reply_to sender message w b) as [Es Ec].
  unfold keys_old. rewrite Es, Ec.
  destruct (first_match cmds message); [|done].
  apply (keys_old_update _ (incr_commands_processed b)). exact H.
Qed.

Lemma keys_old_handle_message w line b :
  keys_old b -> month_le (current_month b) (now_month w) ->
  keys_old (handle_message cmds w line b).2.
Proof.
  intros H Hnow. apply (keys_old_check_month (now_month w)) in H; [|done].
  unfold handle_message. set (b0 := check_month_change (now_month w) b) in *.
  destruct (Py.startswith ":" line).
  - destruct (Py.splitn " " 2 line) as [|p0 [|p1 [|p2 tl]]]; try done.
    assert (H1 : keys_old (incr_month_messages_received (incr_messages_received b0))).
    { apply (keys_old_update _ (incr_messages_received b0)). exact H. }
    destruct (p1 =? "PING")%string; [done|].
    destruct (p1 =? "PRIVMSG")%string; [|done].
    destruct (String.eqb _ _);
      unfold handle_channel_message, handle_private_message;
      apply keys_old_command_loop; [|done].
    match goal with
    | |- keys_old (tally_month_user ?s (tally_user ?s ?x)) =>
        apply (keys_old_update _ (tally_user s x)); exact H1
    end.
  - by destruct (Py.startswith "PING" line).
Qed.

Lemma keys_old_process_line w line b :
  keys_old b -> month_le (current_month b) (now_month w) ->
  keys_old (process_line cmds w line b).2.
Proof.
  intros H Hnow. unfold process_line. destruct (Py.truthy (Py.strip line)); [|done].
  apply (keys_old_handle_message w line) in H; [|done].
  destruct (handle_message cmds w line b) as [[|e] b1]; [|done].
  eapply keys_old_same; [apply server_reply_stats|apply server_reply_current_month|done].
Qed.

(** Under a clock that does not go back the current month has its bucket,
    and no bucket is ahead of the current month. *)
Lemma forward_invariant b : reachable_forward cmds b -> month_ok b /\ keys_old b.
Proof.
  induction 1 as [cfg month g|b w line _ [IH1 IH2] Hnow].
  - split.
    + unfold month_ok. cbn. rewrite lookup_singleton_eq. by eexists.
    + intros m k. cbn. intros [-> _]%lookup_singleton_Some. by left.
  - split; [by apply month_ok_process_line|by apply keys_old_process_line].
Qed.

(** A month that has come after the current one has no bucket yet. *)
Lemma later_month_is_fresh b now :
  keys_old b -> month_le (current_month b) now -> now <> current_month b ->
  monthly_stats (stats b) !! now = None.
Proof.
  intros H [E|Hlt] Hne; [congruence|].
  destruct (monthly_stats (stats b) !! now) as [k|] eqn:E; [|done].
  destruct (H now k E) as [E'|Hgt]; [done|lia].
Qed.
End Forward.

(** C9, as stated, fails: a channel message that follows a month change does
    not start a fresh bucket with count 1 when another counted line was
    handled first in the new month.  Here a [NOTICE] opens February; the
    channel message behind it finds the bucket at 1 and takes it to 2. *)
Lemma notice_first_in_new_month :
  let notice := ":irc.example.org NOTICE bot :maintenance tonight" in
  let line := ":nick!u@h PRIVMSG #chan :hello" in
  let b1 := (handle_message commands Sample.february notice Sample.bot).2 in
  let b2 := (handle_message commands Sample.february line b1).2 in
  current_month Sample.bot = "01-2025"
  /\ month_number "01-2025" < month_number (now_month Sample.february)
  /\ current_month b1 = "02-2025"
  /\ month_messages_received (get_monthly_stats b1) = 1
  /\ privmsg_of line = Some ("nick", channel b1, "hello")
  /\ month_messages_received (get_monthly_stats b2) = 2
  /\ month_messages_received <$> monthly_stats (stats b2) !! "01-2025" = Some 0.
Proof. repeat split; reflexivity. Qed.

(** C9, amended.  The month check is idempotent: with the month already
    current it changes nothing, and a second call for the same month changes
    nothing more; it keeps every bucket under its key.  For a channel message
    handled under a clock that does not go back: the buckets of the other
    months stay under their keys, unchanged.  If the month has changed, there
    is no bucket for the new month yet, and the message starts it with a
    count of 1 and a tally of 1 for its sender.  If the month is the current
    one, the message starts nothing: it adds 1 to the count of the bucket
    that is there, and 1 to the tally of its sender. *)
Theorem month_rollover (cmds : list (string * Handler)) (w : World)
    (line sender text : string) (b : Bot) :
  reachable_forward cmds b ->
  month_le (current_month b) (now_month w) ->
  privmsg_of line = Some (sender, channel b, text) ->
  let b' := (handle_message cmds w line b).2 in
  check_month_change (current_month b) b = b
  /\ (forall now,
        check_month_change now (check_month_change now b) = check_month_change now b)
  /\ (forall now m k,
        monthly_stats (stats b) !! m = Some k ->
        monthly_stats (stats (check_month_change now b)) !! m = Some k)
  /\ current_month b' = now_month w
  /\ (forall m k,
        m <> now_month w ->
        monthly_stats (stats b) !! m = Some k ->
        monthly_stats (stats b') !! m = Some k)
  /\ (now_month w <> current_month b ->
      monthly_stats (stats b) !! now_month w = None
      /\ month_messages_received (get_monthly_stats b') = 1
      /\ month_user_messages (get_monthly_stats b') = {[ sender := 1 ]})
  /\ (now_month w = current_month b ->
      month_messages_received (get_monthly_stats b')
      = month_messages_received (get_monthly_stats b) + 1
      /\ month_user_messages (get_monthly_stats b')
         = tally sender (month_user_messages (get_monthly_stats b))).
Proof.
  intros Hreach Hclock Hline b'.
  destruct (forward_invariant cmds b Hreach) as [Hok Hkeys].
  split. { unfold check_month_change. by rewrite String.eqb_refl. }
  split. { intros now. unfold check_month_change at 1.
           by rewrite check_month_change_current, String.eqb_refl. }
  split. { intros now m k. apply check_month_change_keeps. }
  subst b'.
  rewrite (handle_message_privmsg cmds w line sender (channel b) text b Hline).
  cbv zeta.
  pose proof (check_month_change_all_time (now_month w) b) as (_ & _ & _ & Ech).
  pose proof (check_month_change_current (now_month w) b) as Ecur0.
  pose proof (check_month_change_keeps (now_month w) b) as Hkeep.
  set (b0 := check_month_change (now_month w) b) in *.
  set (b1 := incr_month_messages_received (incr_messages_received b0)).
  change (channel b1) with (channel b0). rewrite Ech, String.eqb_refl.
  unfold handle_channel_message.
  set (b2 := tally_month_user sender (tally_user sender b1)).
  destruct (command_loop_stats cmds (channel b2) sender text w b2) as [Es Ecur].
  assert (Ecur2 : current_month b2 = now_month w) by exact Ecur0.
  split. { by rewrite Ecur. }
  split.
  { intros m k Hm Hk. apply Hkeep in Hk. rewrite Es.
    destruct (first_match cmds text); cbn;
      rewrite ?lookup_alter, ?decide_False by (rewrite ?Ecur0; congruence); done. }
  split.
  - intros Hnew.
    pose proof (later_month_is_fresh b (now_month w) Hkeys Hclock Hnew) as Hfresh.
    split; [done|].
    assert (E0 : b0 = set_stats (set_monthly (insert (now_month w) zero_bucket))
                        (set_current_month (now_month w) b)).
    { subst b0. unfold check_month_change.
      destruct (String.eqb_spec (now_month w) (current_month b)); [done|].
      cbn. by rewrite Hfresh. }
    unfold get_monthly_stats. rewrite Es, Ecur. subst b2 b1. rewrite E0.
    destruct (first_match cmds text); cbn;
      rewrite ?lookup_alter, ?decide_True, ?lookup_insert_eq by done; cbn.
    all: split; [done|].
    all: unfold tally; by rewrite lookup_empty, insert_empty.
  - intros Hsame.
    assert (E0 : b0 = b).
    { subst b0. unfold check_month_change. by rewrite Hsame, String.eqb_refl. }
    destruct Hok as [k0 Hk0].
    unfold get_monthly_stats. rewrite Es, Ecur. subst b2 b1. rewrite E0.
    destruct (first_match cmds text); cbn;
      rewrite ?lookup_alter, ?decide_True by done; rewrite Hk0; cbn; done.
Qed.

Lemma month_rollover_witness :
  reachable_forward commands Sample.bot
  /\ month_le (current_month Sample.bot) (now_month Sample.february)
  /\ privmsg_of ":nick!u@h PRIVMSG #chan :hello"
     = Some ("nick", channel Sample.bot, "hello")
  /\ now_month Sample.february <> current_month Sample.bot
  /\ month_messages_received
       (get_monthly_stats
          (handle_message commands Sample.february
             ":nick!u@h PRIVMSG #chan :hello" Sample.bot).2) = 1.
Proof.
  assert (H1 : reachable_forward commands Sample.bot).
  { exact (forward_init commands Sample.cfg "01-2025" Sample.rng). }
  assert (H2 : month_le (current_month Sample.bot) (now_month Sample.february)).
  { right. vm_compute. reflexivity. }
  assert (H3 : privmsg_of ":nick!u@h PRIVMSG #chan :hello"
               = Some ("nick", channel Sample.bot, "hello")) by reflexivity.
  assert (H4 : now_month Sample.february <> current_month Sample.bot) by discriminate.
  split; [exact H1|]. split; [exact H2|]. split; [exact H3|]. split; [exact H4|].
  exact (proj1 (proj2 (proj1 (proj2 (proj2 (proj2 (proj2 (proj2
           (month_rollover commands Sample.february _ _ _ Sample.bot H1 H2 H3))))))
           H4))).
Defined.

Lemma stats_send_raw m b : stats (send_raw m b) = stats b.
Proof. reflexivity. Qed.

Lemma get_monthly_send_raw m b : get_monthly_stats (send_raw m b) = get_monthly_stats b.
Proof. reflexivity. Qed.

(** X2.  A call of [handle_message] counts the line at most once: the
    all-time [messages_received] goes up by one or stays, [commands_processed]
    goes up by at most as much, and the bucket of the month the line arrives
    in moves by the same amounts as the all-time totals.  A line without a
    prefix, such as the server's own [PING], is not counted at all. *)
Theorem handle_message_counts_once (cmds : list (string * Handler)) (w : World)
    (line : string) (b : Bot) :
  month_ok b ->
  let b0 := check_month_change (now_month w) b in
  let b' := (handle_message cmds w line b).2 in
  exists dm dc,
    0 <= dc <= dm /\ dm <= 1
    /\ messages_received (stats b') = messages_received (stats b) + dm
    /\ commands_processed (stats b') = commands_processed (stats b) + dc
    /\ month_messages_received (get_monthly_stats b')
       = month_messages_received (get_monthly_stats b0) + dm
    /\ month_commands_processed (get_monthly_stats b')
       = month_commands_processed (get_monthly_stats b0) + dc
    /\ (Py.startswith ":" line = false -> dm = 0).
Proof.
  intros Hok b0 b'. subst b'.
  pose proof (check_month_change_all_time (now_month w) b) as (Em & Ec & _ & _).
  fold b0 in Em, Ec.
  apply (check_month_change_month_ok (now_month w)) in Hok. fold b0 in Hok.
  destruct Hok as [k0 Hk0].
  unfold handle_message. fold b0.
  destruct (Py.startswith ":" line).
  - destruct (Py.splitn " " 2 line) as [|p0 [|p1 [|p2 tl]]];
      try (exists 0, 0; cbn [snd]; rewrite Em, Ec; repeat split; intros; lia).
    set (b1 := incr_month_messages_received (incr_messages_received b0)).
    assert (H1 : messages_received (stats b1) = messages_received (stats b) + 1
                 /\ commands_processed (stats b1) = commands_processed (stats b)
                 /\ month_messages_received (get_monthly_stats b1)
                    = month_messages_received (get_monthly_stats b0) + 1
                 /\ month_commands_processed (get_monthly_stats b1)
                    = month_commands_processed (get_monthly_stats b0)).
    { unfold get_monthly_stats. cbn. rewrite lookup_alter, decide_True by done.
      rewrite Hk0. cbn. rewrite Em, Ec. repeat split. }
    destruct H1 as (A1 & A2 & A3 & A4).
    destruct (p1 =? "PING")%string.
    { exists 1, 0. cbn [snd]. rewrite stats_send_raw, get_monthly_send_raw.
      repeat split; try done; lia. }
    destruct (p1 =? "PRIVMSG")%string.
    2:{ exists 1, 0. cbn [snd]. repeat split; try done; lia. }
    destruct (String.eqb _ _); unfold handle_channel_message, handle_private_message;
      match goal with
      | |- context [command_loop cmds ?r ?s ?m w ?x] =>
          destruct (command_loop_stats cmds r s m w x) as [Es Ecur]
      end;
      unfold get_monthly_stats in *; rewrite Es, Ecur;
      (destruct (first_match cmds _); [exists 1, 1|exists 1, 0]);
      cbn in *; rewrite ?lookup_alter, ?decide_True in * by done;
      rewrite Hk0 in *; cbn in *; repeat split; intros; try done; lia.
  - destruct (Py.startswith "PING" line);
      exists 0, 0; cbn [snd]; rewrite ?stats_send_raw, ?get_monthly_send_raw, ?Em, ?Ec;
      repeat split; intros; lia.
Qed.

Lemma handle_message_counts_once_witness :
  month_ok Sample.bot
  /\ exists dm dc,
       0 <= dc <= dm /\ dm <= 1
       /\ messages_received
            (stats (handle_message commands Sample.february
                      ":nick!u@h PRIVMSG #chan :.ping" Sample.bot).2)
          = messages_received (stats Sample.bot) + dm
       /\ commands_processed
            (stats (handle_message commands Sample.february
                      ":nick!u@h PRIVMSG #chan :.ping" Sample.bot).2)
          = commands_processed (stats Sample.bot) + dc.
Proof.
  assert (H : month_ok Sample.bot) by (eexists; reflexivity).
  split; [exact H|].
  destruct (handle_message_counts_once commands Sample.february
              ":nick!u@h PRIVMSG #chan :.ping" Sample.bot H)
    as (dm & dc & H1 & H2 & H3 & H4 & _).
  exists dm, dc. repeat split; tauto.
Defined.

(** ** Counters only grow *)

Section Monotone.
Variable cmds : list (string * Handler).

Lemma bucket_le_refl k : bucket_le k k.
Proof. repeat split; intros; lia. Qed.

Lemma bucket_le_trans k1 k2 k3 : bucket_le k1 k2 -> bucket_le k2 k3 -> bucket_le k1 k3.
Proof.
  intros (A1 & A2 & A3) (B1 & B2 & B3). repeat split; try lia.
  intros user. specialize (A3 user). specialize (B3 user). lia.
Qed.

Lemma stats_le_refl s : stats_le s s.
Proof.
  repeat split; intros; try lia. eexists. split; [done|apply bucket_le_refl].
Qed.

Lemma stats_le_trans s1 s2 s3 : stats_le s1 s2 -> stats_le s2 s3 -> stats_le s1 s3.
Proof.
  intros (A1 & A2 & A3 & A4) (B1 & B2 & B3 & B4). repeat split; try lia.
  - intros user. specialize (A3 user). specialize (B3 user). lia.
  - intros m k Hk. destruct (A4 m k Hk) as (k2 & Hk2 & L2).
    destruct (B4 m k2 Hk2) as (k3 & Hk3 & L3).
    exists k3. split; [done|]. by apply bucket_le_trans with k2.
Qed.

Lemma tally_of_tally sender d user :
  tally_of d user <= tally_of (tally sender d) user.
Proof.
  unfold tally_of, tally. rewrite lookup_insert. case_decide; [|lia].
  subst. cbn. lia.
Qed.

Lemma stats_le_check_month now b : stats_le (stats b) (stats (check_month_change now b)).
Proof.
  unfold check_month_change.
  destruct (negb (now =? current_month b)%string); [|apply stats_le_refl].
  cbn. destruct (monthly_stats (stats b) !! now) eqn:E; [apply stats_le_refl|].
  repeat split; cbn; intros; try lia.
  exists k. split; [|apply bucket_le_refl].
  rewrite lookup_insert_ne; [done|congruence].
Qed.

(** An update of the current bucket that lowers nothing in it. *)
Lemma stats_le_update_monthly f b :
  (forall k, bucket_le k (f k)) -> stats_le (stats b) (stats (update_monthly f b)).
Proof.
  intros Hf. repeat split; cbn; intros; try lia.
  rewrite lookup_alter. case_decide as Hm.
  - subst m. rewrite H. cbn. eexists. split; [done|apply Hf].
  - exists k. split; [done|apply bucket_le_refl].
Qed.

Lemma stats_le_incr_messages b :
  stats_le (stats b) (stats (incr_month_messages_received (incr_messages_received b))).
Proof.
  apply stats_le_trans with (stats (incr_messages_received b)).
  - repeat split; cbn; intros; try lia. exists k. split; [done|apply bucket_le_refl].
  - apply (stats_le_update_monthly _ (incr_messages_received b)).
    intros k. repeat split; cbn; intros; lia.
Qed.

Lemma stats_le_incr_commands b :
  stats_le (stats b) (stats (incr_month_commands_processed (incr_commands_processed b))).
Proof.
  apply stats_le_trans with (stats (incr_commands_processed b)).
  - repeat split; cbn; intros; try lia. exists k. split; [done|apply bucket_le_refl].
  - apply (stats_le_update_monthly _ (incr_commands_processed b)).
    intros k. repeat split; cbn; intros; lia.
Qed.

Lemma stats_le_tally sender b :
  stats_le (stats b) (stats (tally_month_user sender (tally_user sender b))).
Proof.
  apply stats_le_trans with (stats (tally_user sender b)).
  - repeat split; cbn; intros; try lia.
    + apply tally_of_tally.
    + exists k. split; [done|apply bucket_le_refl].
  - apply (stats_le_update_monthly _ (tally_user sender b)).
    intros k. repeat split; cbn; intros; try lia. apply tally_of_tally.
Qed.

Lemma stats_le_command_loop reply_to sender message w b :
  stats_le (stats b) (stats (command_loop cmds reply_to sender message w b).2).
Proof.
  destruct (command_loop_stats cmds reply_to sender message w b) as [-> _].
  destruct (first_match cmds message); [apply stats_le_incr_commands|apply stats_le_refl].
Qed.

Lemma stats_le_handle_message w line b :
  stats_le (stats b) (stats (handle_message cmds w line b).2).
Proof.
  eapply stats_le_trans; [apply (stats_le_check_month (now_month w))|].
  unfold handle_message. set (b0 := check_month_change (now_month w) b).
  destruct (Py.startswith ":" line).
  - destruct (Py.splitn " " 2 line) as [|p0 [|p1 [|p2 tl]]]; try apply stats_le_refl.
    eapply stats_le_trans; [apply stats_le_incr_messages|].
    destruct (p1 =? "PING")%string; [apply stats_le_refl|].
    destruct (p1 =? "PRIVMSG")%string; [|apply stats_le_refl].
    destruct (String.eqb _ _); unfold handle_channel_message, handle_private_message.
    + eapply stats_le_trans; [apply stats_le_tally|apply stats_le_command_loop].
    + apply stats_le_command_loop.
  - destruct (Py.startswith "PING" line); apply stats_le_refl.
Qed.
End Monotone.

(** X3.  Processing a line never lowers a statistic and never drops a
    bucket: the all-time counters, the all-time tally of every user, and the
    counters and tallies of every monthly bucket are at least what they were,
    and every bucket is still stored under its month key. *)
Theorem statistics_only_grow (cmds : list (string * Handler)) (w : World)
    (line : string) (b : Bot) :
  stats_le (stats b) (stats (process_line cmds w line b).2).
Proof.
  unfold process_line. destruct (Py.truthy (Py.strip line)); [|apply stats_le_refl].
  pose proof (stats_le_handle_message cmds w line b) as H.
  destruct (handle_message cmds w line b) as [[|e] b1]; [|done].
  by rewrite server_reply_stats.
Qed.

(** ** Replies *)

Section Replies.
Variable cmds : list (string * Handler).

Lemma sent_same_io b b' : io b' = io b -> sent b' = sent b.
Proof. unfold sent. by intros ->. Qed.

Lemma response_text_nonempty response r : response_text response = Some r -> r <> "".
Proof.
  unfold response_text. destruct response as [x|]; [|done].
  destruct x; cbn; [done|]. by intros [= <-].
Qed.

Lemma call_handler_sent func reply_to sender message w b :
  sent (call_handler func reply_to sender message w b).2 = sent b
  \/ exists r, r <> ""
       /\ sent (call_handler func reply_to sender message w b).2
          = (sent b ++ [("PRIVMSG " +:+ reply_to +:+ " :" +:+ r) +:+ Py.CRLF])%list.
Proof.
  unfold call_handler.
  destruct (func _ _ _ _) as [[response|e] g]; [|by left].
  destruct (response_text response) as [r|] eqn:E; [|by left].
  right. exists r. split; [by apply response_text_nonempty in E|].
  cbn [snd]. unfold send_message. by rewrite sent_send_raw.
Qed.

Lemma command_loop_sent reply_to sender message w b :
  sent (command_loop cmds reply_to sender message w b).2 = sent b
  \/ first_match cmds message <> None
     /\ exists r, r <> ""
          /\ sent (command_loop cmds reply_to sender message w b).2
             = (sent b ++ [("PRIVMSG " +:+ reply_to +:+ " :" +:+ r) +:+ Py.CRLF])%list.
Proof.
  rewrite command_loop_first_match.
  destruct (first_match cmds message) as [[cmd func]|]; [|by left].
  destruct (call_handler_sent func reply_to sender message w b) as [H|H]; [by left|].
  right. by split.
Qed.

(** What [handle_message] sends for a [PRIVMSG]: nothing, or one [PRIVMSG]
    with a text that is not empty, to the channel for a message to the
    channel and to the sender for a direct message. *)
Lemma privmsg_reply w line sender target text b :
  privmsg_of line = Some (sender, target, text) ->
  let b1 := (handle_message cmds w line b).2 in
  let dest := if String.eqb target (channel b) then channel b else sender in
  sent b1 = sent b
  \/ first_match cmds text <> None
     /\ exists r, r <> ""
          /\ sent b1
             = (sent b ++ [("PRIVMSG " +:+ dest +:+ " :" +:+ r) +:+ Py.CRLF])%list.
Proof.
  intros Hline b1 dest. subst b1 dest.
  rewrite (handle_message_privmsg cmds w line sender target text b Hline). cbv zeta.
  destruct (check_month_change_frame (now_month w) b) as (Ech & _ & Eio & _).
  set (b0 := check_month_change (now_month w) b) in *.
  change (channel (incr_month_messages_received (incr_messages_received b0)))
    with (channel b0).
  rewrite Ech. apply sent_same_io in Eio.
  destruct (String.eqb target (channel b));
    unfold handle_channel_message, handle_private_message;
    match goal with
    | |- context [command_loop cmds ?r ?s ?m w ?x] =>
        destruct (command_loop_sent r s m w x) as [H|(Hm & r' & Hr & H)];
        change (sent x) with (sent b0) in H; rewrite Eio in H
    end.
  - by left.
  - right. split; [done|]. exists r'. split; [done|].
    rewrite H. cbn [channel tally_month_user tally_user update_monthly set_stats].
    change (channel (incr_month_messages_received (incr_messages_received b0)))
      with (channel b0). by rewrite Ech.
  - by left.
  - right. split; [done|]. by exists r'.
Qed.
End Replies.

(** What the chain of the receive loop writes: at most one line, and none
    for a line without ["001"], ["433"] and [PING]. *)
Lemma server_reply_sent line b :
  exists extra,
    (length extra <= 1)%nat
    /\ sent (server_reply line b).2 = (sent b ++ extra)%list
    /\ (Py.contains "001" line = false -> Py.contains "433" line = false ->
        Py.contains "PING" line = false -> extra = []).
Proof.
  unfold server_reply.
  destruct (Py.contains "001" line).
  { eexists [_]. cbn [snd]. unfold join_channel. rewrite sent_send_raw.
    split; [cbn; lia|]. by split. }
  destruct (Py.contains "433" line).
  { unfold randint. replace (999 <? 1) with false by reflexivity.
    eexists [_]. cbn [snd]. rewrite sent_send_raw.
    split; [cbn; lia|]. by split. }
  destruct (Py.contains "PING" line).
  { eexists [_]. cbn [snd]. rewrite sent_send_raw.
    split; [cbn; lia|]. by split. }
  exists []. cbn [snd]. rewrite List.app_nil_r. split; [cbn; lia|]. by split.
Qed.

(** X4.  The reply to a [PRIVMSG] goes where the message came from: for a
    message to the channel [handle_message] sends at most one line, a
    [PRIVMSG] to the channel; for a direct message at most one line, a
    [PRIVMSG] to the sender.  The text of a reply is never empty, and when no
    command matches [handle_message] sends nothing.  In the same processing
    step the chain of the receive loop adds at most one line of its own, and
    none when the line has neither ["001"] nor ["433"] nor [PING] in it: for
    such a line the reply is all that is sent. *)
Theorem reply_goes_back (cmds : list (string * Handler)) (w : World)
    (line sender target text : string) (b : Bot) :
  privmsg_of line = Some (sender, target, text) ->
  let b1 := (handle_message cmds w line b).2 in
  let b' := (process_line cmds w line b).2 in
  let dest := if String.eqb target (channel b) then channel b else sender in
  (sent b1 = sent b
   \/ first_match cmds text <> None
      /\ exists r, r <> ""
           /\ sent b1
              = (sent b ++ [("PRIVMSG " +:+ dest +:+ " :" +:+ r) +:+ Py.CRLF])%list)
  /\ (exists extra, (length extra <= 1)%nat /\ sent b' = (sent b1 ++ extra)%list)
  /\ (Py.contains "001" line = false -> Py.contains "433" line = false ->
      Py.contains "PING" line = false -> sent b' = sent b1).
Proof.
  intros Hline b1 b' dest.
  assert (Hchain : exists extra,
             (length extra <= 1)%nat
             /\ sent b' = (sent b1 ++ extra)%list
             /\ (Py.contains "001" line = false -> Py.contains "433" line = false ->
                 Py.contains "PING" line = false -> extra = [])).
  { subst b' b1. unfold process_line. rewrite (privmsg_not_blank line _ Hline).
    destruct (handle_message cmds w line b) as [[|e] b2]; cbn [snd].
    - apply server_reply_sent.
    - exists []. rewrite List.app_nil_r. split; [cbn; lia|]. by split. }
  destruct Hchain as (extra & Hlen & Hsent & Hquiet).
  split; [|split].
  2:{ by exists extra. }
  2:{ intros H1 H2 H3. rewrite Hsent, (Hquiet H1 H2 H3). by rewrite List.app_nil_r. }
  by apply privmsg_reply.
Qed.

Lemma reply_goes_back_witness :
  privmsg_of ":nick!u@h PRIVMSG bot :.ping" = Some ("nick", "bot", ".ping")
  /\ Py.contains "001" ":nick!u@h PRIVMSG bot :.ping" = false
  /\ Py.contains "433" ":nick!u@h PRIVMSG bot :.ping" = false
  /\ Py.contains "PING" ":nick!u@h PRIVMSG bot :.ping" = false
  /\ sent (process_line commands Sample.january ":nick!u@h PRIVMSG bot :.ping"
             Sample.bot).2
     = sent (handle_message commands Sample.january ":nick!u@h PRIVMSG bot :.ping"
               Sample.bot).2.
Proof.
  split; [reflexivity|]. split; [reflexivity|]. split; [reflexivity|].
  split; [reflexivity|].
  exact (proj2 (proj2 (reply_goes_back commands Sample.january
                         ":nick!u@h PRIVMSG bot :.ping" "nick" "bot" ".ping"
                         Sample.bot eq_refl)) eq_refl eq_refl eq_refl).
Defined.

(** ** What a run does to the connection *)

Section RunTrace.
Variable cmds : list (string * Handler).

Lemma only_sends_refl b : only_sends b b.
Proof. exists []. by rewrite List.app_nil_r. Qed.

Lemma only_sends_trans b1 b2 b3 : only_sends b1 b2 -> only_sends b2 b3 -> only_sends b1 b3.
Proof.
  intros [l1 H1] [l2 H2]. exists (l1 ++ l2)%list.
  by rewrite H2, H1, fmap_app, List.app_assoc.
Qed.

Lemma only_sends_same_io b b' : io b' = io b -> only_sends b b'.
Proof. intros H. exists []. by rewrite H, List.app_nil_r. Qed.

Lemma only_sends_send m b : only_sends b (send_raw m b).
Proof. by exists [m +:+ Py.CRLF]. Qed.

Lemma only_sends_call_handler func reply_to sender message w b :
  only_sends b (call_handler func reply_to sender message w b).2.
Proof.
  unfold call_handler.
  destruct (func _ _ _ _) as [[response|e] g]; [|by apply only_sends_same_io].
  destruct (response_text response); [|by apply only_sends_same_io].
  eapply only_sends_trans; [|apply only_sends_send]. by apply only_sends_same_io.
Qed.

Lemma only_sends_command_loop reply_to sender message w b :
  only_sends b (command_loop cmds reply_to sender message w b).2.
Proof.
  rewrite command_loop_first_match.
  destruct (first_match cmds message) as [[cmd func]|]; [|apply only_sends_refl].
  apply only_sends_call_handler.
Qed.

Lemma only_sends_handle_message w line b :
  only_sends b (handle_message cmds w line b).2.
Proof.
  destruct (check_month_change_frame (now_month w) b) as (_ & _ & Eio & _).
  eapply only_sends_trans; [apply only_sends_same_io, Eio|].
  unfold handle_message. set (b0 := check_month_change (now_month w) b).
  destruct (Py.startswith ":" line).
  - destruct (Py.splitn " " 2 line) as [|p0 [|p1 [|p2 tl]]]; try apply only_sends_refl.
    destruct (p1 =? "PING")%string.
    { eapply only_sends_trans; [|apply only_sends_send]. by apply only_sends_same_io. }
    destruct (p1 =? "PRIVMSG")%string; [|by apply only_sends_same_io].
    destruct (String.eqb _ _); unfold handle_channel_message, handle_private_message;
      (eapply only_sends_trans; [|apply only_sends_command_loop]);
      by apply only_sends_same_io.
  - destruct (Py.startswith "PING" line); [apply only_sends_send|apply only_sends_refl].
Qed.

Lemma only_sends_server_reply line b : only_sends b (server_reply line b).2.
Proof.
  unfold server_reply. destruct (Py.contains "001" line); [apply only_sends_send|].
  destruct (Py.contains "433" line).
  { unfold randint. destruct (999 <? 1); [by apply only_sends_same_io|].
    eapply only_sends_trans; [|apply only_sends_send]. by apply only_sends_same_io. }
  destruct (Py.contains "PING" line); [apply only_sends_send|apply only_sends_refl].
Qed.

Lemma only_sends_process_line w line b : only_sends b (process_line cmds w line b).2.
Proof.
  unfold process_line. destruct (Py.truthy (Py.strip line)); [|apply only_sends_refl].
  pose proof (only_sends_handle_message w line b) as H.
  destruct (handle_message cmds w line b) as [[|e] b1]; [|done].
  eapply only_sends_trans; [exact H|apply only_sends_server_reply].
Qed.

Lemma only_sends_process_lines ws n lines b :
  only_sends b (process_lines cmds ws n lines b).2.
Proof.
  revert n b. induction lines as [|line rest IH]; intros n b; [apply only_sends_refl|].
  cbn [process_lines].
  pose proof (only_sends_process_line (ws n) line b) as H.
  destruct (process_line cmds (ws n) line b) as [[|e] b1]; [|done].
  eapply only_sends_trans; [exact H|apply IH].
Qed.

Lemma only_sends_recv_loop ws rs n buffer b :
  only_sends b (recv_loop cmds ws rs n buffer b).
Proof.
  revert n buffer b.
  induction rs as [|r rs IH]; intros n buffer b; [apply only_sends_refl|].
  destruct r as [[|c d]|e|]; try apply only_sends_refl.
  cbn [recv_loop]. destruct (feed buffer (String c d)) as [lines buffer1].
  pose proof (only_sends_process_lines ws n lines b) as H.
  destruct (process_lines cmds ws n lines b) as [[[|e] n1] b1]; [|done].
  eapply only_sends_trans; [exact H|apply IH].
Qed.
End RunTrace.

(** X5.  What a run does to the connection.  When the connection cannot be
    opened the one thing that happens is the failed attempt: nothing is sent
    and nothing is closed.  When it can, the run is the attempt, [NICK] with
    the nickname and [USER] with the user and real name, then only writes to
    the socket, and at the end, however the receive loop was left, [QUIT] and
    the closing of the socket: one connection, closed once, last. *)
Theorem run_opens_registers_and_signs_off (cmds : list (string * Handler))
    (s : Script) (b : Bot) :
  exists lines,
    io (run cmds s b)
    = (io b ++
       if connect_ok s then
         [ Connect true; Send (("NICK " +:+ nickname b) +:+ Py.CRLF);
           Send (("USER " +:+ username b +:+ " 0 * :" +:+ realname b) +:+ Py.CRLF) ]
         ++ (Send <$> lines)
         ++ [ Send ("QUIT :PyIRCBot signing off!" +:+ Py.CRLF); Close ]
       else [ Connect false ])%list.
Proof.
  unfold run, connect. destruct (connect_ok s).
  - set (b1 := set_running true _).
    destruct (only_sends_recv_loop cmds (world_at s) (recvs s) 0 "" b1) as [lines H].
    assert (Hs : has_socket (recv_loop cmds (world_at s) (recvs s) 0 "" b1) = true).
    { by destruct (same_connection_recv_loop cmds (world_at s) (recvs s) 0 "" b1)
        as (_ & _ & ->). }
    exists lines. unfold cleanup. cbn [has_socket set_running]. rewrite Hs.
    cbn [io emit send_raw set_running]. rewrite H. subst b1.
    cbn [io emit send_raw set_running set_has_socket nickname username realname].
    by rewrite <- !List.app_assoc.
  - by exists [].
Qed.

(** ** The receive loop and the framer *)

Section NoSeparator.
Import Py PyFacts.
Variable sep : string.

Lemma startswith_self_app (p v : string) : startswith p (p +:+ v) = true.
Proof.
  induction p as [|a p IH]; [done|]. rewrite sapp_cons. cbn [startswith].
  by rewrite Ascii.eqb_refl.
Qed.

Lemma contains_app_intro (u v : string) : contains sep (u +:+ sep +:+ v) = true.
Proof.
  induction u as [|a u IH].
  - rewrite sapp_nil_l. destruct (sep +:+ v) eqn:E; cbn [contains];
      rewrite <- E, startswith_self_app; done.
  - rewrite sapp_cons. cbn [contains]. rewrite IH. apply orb_true_r.
Qed.

(** A text without the separator is read through without a cut. *)
Lemma split_go_no_sep cur s :
  contains sep (cur +:+ s) = false -> split_go sep None cur s = [cur +:+ s].
Proof.
  revert cur. induction s as [|c s IH]; intros cur H.
  - by rewrite sapp_nil_r.
  - cbn [split_go]. rewrite <- sapp_snoc in H.
    destruct (strip_suffix sep (cur +:+ String c "")) as [piece|] eqn:E.
    + apply strip_suffix_Some in E. rewrite E, sapp_assoc in H.
      by rewrite contains_app_intro in H.
    + rewrite IH by done. by rewrite sapp_snoc.
Qed.
End NoSeparator.

(** X6.  The receive loop handles the lines of the text it receives, however
    the text arrives in chunks: the pieces of the whole text between line
    terminators, in order, each once, up to the first line that raises.  The
    text behind the last terminator is never handled; in particular a text
    without a terminator, however long, leaves the bot as it was. *)
Theorem receive_loop_handles_the_lines (cmds : list (string * Handler))
    (ws : nat -> World) (n : nat) (chunks : list string) (b : Bot) :
  Forall (fun data => data <> "") chunks ->
  recv_loop cmds ws (Data <$> chunks) n "" b
  = (process_lines cmds ws n (removelast (Py.split Py.CRLF (whole chunks))) b).2
  /\ (Py.contains Py.CRLF (whole chunks) = false ->
      recv_loop cmds ws (Data <$> chunks) n "" b = b).
Proof.
  intros H.
  assert (E : recv_loop cmds ws (Data <$> chunks) n "" b
              = (process_lines cmds ws n
                   (removelast (Py.split Py.CRLF (whole chunks))) b).2).
  { rewrite recv_loop_feed_all by done.
    by rewrite (Framing.feed_all_split_go "" chunks (PyFacts.uncut_empty Py.CRLF)). }
  split; [done|]. intros Hno. rewrite E. unfold Py.split.
  by rewrite split_go_no_sep.
Qed.

Lemma receive_loop_handles_the_lines_witness :
  Forall (fun data => data <> "") ["PING"; " :tok"]
  /\ recv_loop commands (fun _ => Sample.january) (Data <$> ["PING"; " :tok"]) 0 ""
       Sample.bot = Sample.bot.
Proof.
  assert (H : Forall (fun data => data <> "") ["PING"; " :tok"]).
  { repeat constructor; discriminate. }
  split; [exact H|].
  exact (proj2 (receive_loop_handles_the_lines commands (fun _ => Sample.january) 0
                  ["PING"; " :tok"] Sample.bot H) eq_refl).
Defined.

(** ** Parsing a [PRIVMSG] *)

Section FirstCut.
Import Py PyFacts.
Variable sep : string.

Lemma split_go_exhausted cur s : split_go sep (Some O) cur s = [cur +:+ s].
Proof. destruct s; [by rewrite sapp_nil_r|done]. Qed.

(** The first cut: when no piece ends within [s], and the separator ends
    with the character behind [s], the first piece is the text before the
    separator and the scan goes on behind it with one cut less to make. *)
Lemma split_go_first_cut (m : option nat) cur s c v u :
  m <> Some O ->
  split_go sep None cur s = [cur +:+ s] ->
  strip_suffix sep ((cur +:+ s) +:+ String c "") = Some u ->
  split_go sep m cur (s +:+ String c v) = u :: split_go sep (Nat.pred <$> m) "" v.
Proof.
  intros Hm. revert cur. induction s as [|a s IH]; intros cur Hs Hu.
  - rewrite sapp_nil_r in Hu. rewrite sapp_nil_l. cbn [split_go].
    destruct m as [[|k]|]; [done| |]; by rewrite Hu.
  - rewrite sapp_cons. cbn [split_go] in Hs |- *.
    destruct (strip_suffix sep (cur +:+ String a "")) as [piece|] eqn:E.
    + exfalso. cbn [fmap option_fmap option_map] in Hs.
      pose proof (split_go_nonempty sep None "" s) as Hne.
      destruct (split_go sep None "" s); [done|]. discriminate.
    + rewrite <- (sapp_snoc cur a s) in Hs, Hu.
      destruct m as [[|k]|]; [done| |]; by apply IH.
Qed.

Lemma split_go_head (m : option nat) q c t v :
  m <> Some O ->
  sep = q +:+ String c "" ->
  contains sep (t +:+ q) = false ->
  split_go sep m "" (t +:+ sep +:+ v) = t :: split_go sep (Nat.pred <$> m) "" v.
Proof.
  intros Hm Hsep Hno.
  assert (E : t +:+ sep +:+ v = (t +:+ q) +:+ String c v).
  { rewrite Hsep. by rewrite !sapp_assoc. }
  rewrite E. apply split_go_first_cut; [done| |].
  - apply split_go_no_sep. by rewrite sapp_nil_l.
  - rewrite sapp_nil_l, sapp_assoc, <- Hsep. apply strip_suffix_app.
Qed.
End FirstCut.

Section Privmsg.
Import Py PyFacts.

Lemma contains_space_app (x y : string) :
  contains " " (x +:+ y) = contains " " x || contains " " y.
Proof.
  induction x as [|a x IH].
  - rewrite sapp_nil_l. done.
  - rewrite sapp_cons. cbn [contains startswith]. rewrite IH.
    destruct (Ascii.eqb " " a); [done|].
    cbn [orb]. done.
Qed.

Lemma no_space_no_trailing_marker (t : string) :
  contains " " t = false -> contains " :" (t +:+ " ") = false.
Proof.
  induction t as [|a t IH]; [done|]. intros H.
  rewrite sapp_cons. cbn [contains startswith] in H |- *.
  destruct (Ascii.eqb_spec " " a) as [<-|Ha]; [done|].
  cbn [orb] in H |- *. by apply IH.
Qed.

Lemma no_crlf_snoc_cr (l : string) :
  contains CRLF l = false -> contains CRLF (l +:+ String CR "") = false.
Proof.
  induction l as [|a l IH]; [done|]. intros H.
  rewrite sapp_cons. cbn [contains] in H |- *.
  apply orb_false_iff in H as [H1 H2]. rewrite (IH H2), orb_false_r.
  unfold CRLF in *. cbn [startswith] in H1 |- *.
  destruct (Ascii.eqb CR a); [|done].
  destruct l as [|x l]; [done|]. rewrite sapp_cons. cbn [startswith] in H1 |- *.
  by destruct (Ascii.eqb LF x).
Qed.
End Privmsg.

(** X7.  A [PRIVMSG] goes round: the line [send_message] writes for a target
    and a text, as a server passes it on behind the origin of the sender, is
    framed as one line and read by [handle_message] as a message from that
    nickname, to that target, with that text, whatever the text contains.
    The nickname must be free of spaces and of [!], the rest of the origin
    and the target free of spaces, the line free of the terminator. *)
Theorem privmsg_round_trip (nick userhost target text : string) (b : Bot) :
  Py.contains " " nick = false ->
  Py.contains "!" nick = false ->
  Py.contains " " userhost = false ->
  Py.contains " " target = false ->
  let message := "PRIVMSG " +:+ target +:+ " :" +:+ text in
  let line := ":" +:+ nick +:+ "!" +:+ userhost +:+ " " +:+ message in
  sent (send_message target text b) = (sent b ++ [message +:+ Py.CRLF])%list
  /\ privmsg_of line = Some (nick, target, text)
  /\ (Py.contains Py.CRLF line = false -> feed "" (line +:+ Py.CRLF) = ([line], "")).
Proof.
  intros Hn1 Hn2 Hu Ht message line.
  split. { unfold send_message. by rewrite sent_send_raw. }
  set (p0 := ":" +:+ nick +:+ "!" +:+ userhost).
  set (p2 := target +:+ " :" +:+ text).
  assert (Eline : line = p0 +:+ " " +:+ "PRIVMSG" +:+ " " +:+ p2).
  { subst line message p0 p2. by rewrite !PyFacts.sapp_assoc. }
  assert (Hparts : Py.splitn " " 2 line = [p0; "PRIVMSG"; p2]).
  { unfold Py.splitn. rewrite Eline.
    rewrite (split_go_head " " (Some 2%nat) "" " "%char p0); [|done|done|].
    2:{ subst p0. rewrite PyFacts.sapp_nil_r, !contains_space_app, Hn1, Hu. done. }
    cbn [fmap option_fmap option_map Nat.pred].
    rewrite (split_go_head " " (Some 1%nat) "" " "%char "PRIVMSG"); [|done|done|done].
    cbn [fmap option_fmap option_map Nat.pred].
    by rewrite split_go_exhausted, PyFacts.sapp_nil_l. }
  split.
  - unfold privmsg_of. rewrite Hparts.
    assert (Py.startswith ":" line = true) as -> by done.
    cbn [String.eqb Ascii.eqb Bool.eqb].
    assert (Hp2 : Py.contains " :" p2 = true).
    { subst p2. apply (contains_app_intro " :" target text). }
    rewrite Hp2.
    assert (Hsender : Py.split "!" (Py.drop 1 p0) = nick :: Py.split "!" userhost).
    { subst p0. change (Py.drop 1 (":" +:+ nick +:+ "!" +:+ userhost))
        with (nick +:+ "!" +:+ userhost).
      unfold Py.split.
      rewrite (split_go_head "!" None "" "!"%char nick); [done|done|done|].
      by rewrite PyFacts.sapp_nil_r. }
    assert (Htarget : Py.split " :" p2 = target :: Py.split " :" text).
    { subst p2. unfold Py.split.
      rewrite (split_go_head " :" None " " ":"%char target); [done|done|done|].
      by apply no_space_no_trailing_marker. }
    assert (Htext : Py.splitn " :" 1 p2 = [target; text]).
    { subst p2. unfold Py.splitn.
      rewrite (split_go_head " :" (Some 1%nat) " " ":"%char target); [|done|done|].
      2:{ by apply no_space_no_trailing_marker. }
      cbn [fmap option_fmap option_map Nat.pred].
      by rewrite split_go_exhausted, PyFacts.sapp_nil_l. }
    by rewrite Hsender, Htarget, Htext.
  - intros Hno. unfold feed. rewrite PyFacts.sapp_nil_l. unfold Py.split.
    rewrite <- (PyFacts.sapp_nil_r (line +:+ Py.CRLF)), PyFacts.sapp_assoc.
    rewrite (split_go_head Py.CRLF None (String Py.CR "") Py.LF line "");
      [done|done|done|].
    by apply no_crlf_snoc_cr.
Qed.

Lemma privmsg_round_trip_witness :
  Py.contains " " "alice" = false
  /\ Py.contains "!" "alice" = false
  /\ Py.contains " " "a@example.org" = false
  /\ Py.contains " " "#chan" = false
  /\ privmsg_of (":" +:+ "alice" +:+ "!" +:+ "a@example.org" +:+ " "
                 +:+ "PRIVMSG " +:+ "#chan" +:+ " :" +:+ "see: http://x :)")
     = Some ("alice", "#chan", "see: http://x :)").
Proof.
  split; [reflexivity|]. split; [reflexivity|]. split; [reflexivity|].
  split; [reflexivity|].
  exact (proj1 (proj2 (privmsg_round_trip "alice" "a@example.org" "#chan"
                         "see: http://x :)" Sample.bot
                         eq_refl eq_refl eq_refl eq_refl))).
Defined.

(** ** Keepalive lines *)

Section Replace.
Import Py PyFacts.

(** [replace] leaves a text without [old] as it is. *)
Lemma replace_absent (old new s : string) :
  contains old s = false -> replace old new s = s.
Proof.
  intros H. unfold replace, split.
  rewrite split_go_no_sep by (by rewrite sapp_nil_l). by rewrite sapp_nil_l.
Qed.

(** [replace] at the leftmost [old]: the text before it is kept, [new] is
    put in its place, and the replacement goes on behind it. *)
Lemma replace_leftmost (q : string) (c : ascii) (new t v : string) :
  contains (q +:+ String c "") (t +:+ q) = false ->
  replace (q +:+ String c "") new (t +:+ (q +:+ String c "") +:+ v)
  = t +:+ new +:+ replace (q +:+ String c "") new v.
Proof.
  intros H. unfold replace, split.
  rewrite (split_go_head (q +:+ String c "") None q c t v) by done.
  cbn [fmap option_fmap option_map].
  apply join_cons, split_go_nonempty.
Qed.
End Replace.

(** C2, as stated, fails: the keepalive line [PING :abc] is answered twice in
    one processing step, once by [handle_message] and once more by the
    chain of the receive loop. *)
Lemma ping_is_answered_twice :
  Py.contains "PING" "PING :abc" = true
  /\ sent (process_line commands Sample.january "PING :abc" Sample.bot).2
     = ["PONG :abc" +:+ Py.CRLF; "PONG :abc" +:+ Py.CRLF].
Proof. split; reflexivity. Qed.

(** C2, amended.  What a line that contains [PING] gets, all of it within
    the processing step of the line, before the next line is read.

    From [handle_message]: a line that starts with [PING] gets the echo, the
    line with [PING] replaced by [PONG]; a line with a prefix and the command
    [PING] gets [PONG :] and its token; a line of neither form that is no
    [PRIVMSG] gets nothing.

    Then from the chain of the receive loop, one more line: [JOIN] for the
    channel when the line contains ["001"]; otherwise [NICK] with a longer
    nickname when it contains ["433"]; otherwise the echo.  So a keepalive
    line without ["001"] and ["433"] is answered twice.

    The echo replaces every [PING] of the line: the leftmost one, and then
    those in the text behind it.  A text without [PING] is left as it is, so
    the token comes back unchanged exactly when it has no [PING]. *)
Theorem keepalive_reply (w : World) (line : string) (b : Bot) :
  Py.contains "PING" line = true ->
  let b1 := (handle_message commands w line b).2 in
  let r := process_line commands w line b in
  let echo := Py.replace "PING" "PONG" line +:+ Py.CRLF in
  r.1 = Normal
  /\ (Py.startswith "PING" line = true -> sent b1 = (sent b ++ [echo])%list)
  /\ (forall token, ping_of line = Some token ->
        sent b1 = (sent b ++ [("PONG :" +:+ token) +:+ Py.CRLF])%list)
  /\ (Py.startswith "PING" line = false -> ping_of line = None ->
      privmsg_of line = None -> sent b1 = sent b)
  /\ (forall sender target text,
        privmsg_of line = Some (sender, target, text) ->
        sent b1 = sent b
        \/ exists reply,
             sent b1
             = (sent b ++ [("PRIVMSG "
                            +:+ (if String.eqb target (channel b) then channel b
                                 else sender)
                            +:+ " :" +:+ reply) +:+ Py.CRLF])%list)
  /\ (Py.contains "001" line = true ->
      sent r.2 = (sent b1 ++ [("JOIN " +:+ channel b) +:+ Py.CRLF])%list)
  /\ (Py.contains "001" line = false -> Py.contains "433" line = true ->
      exists n, 1 <= n <= 999
        /\ sent r.2
           = (sent b1 ++ [("NICK " +:+ (nickname b +:+ Py.str n)) +:+ Py.CRLF])%list)
  /\ (Py.contains "001" line = false -> Py.contains "433" line = false ->
      sent r.2 = (sent b1 ++ [echo])%list)
  /\ (forall t v, line = t +:+ "PING" +:+ v -> Py.contains "PING" (t +:+ "PIN") = false ->
        Py.replace "PING" "PONG" line = t +:+ "PONG" +:+ Py.replace "PING" "PONG" v)
  /\ (forall v, Py.contains "PING" v = false -> Py.replace "PING" "PONG" v = v).
Proof.
  intros Hping b1 r echo.
  assert (Hline : Py.truthy (Py.strip line) = true).
  { by apply (contains_not_blank "P" "ING"). }
  assert (Hr : r = server_reply line b1).
  { subst r b1. by rewrite process_line_chain by (done || apply commands_no_raise). }
  destruct (handle_message_frame commands w line b) as [Ec En]. fold b1 in Ec, En.
  destruct (check_month_change_frame (now_month w) b) as (_ & _ & Eio & _).
  assert (Es : sent (check_month_change (now_month w) b) = sent b).
  { unfold sent. by rewrite Eio. }
  split. { rewrite Hr. apply server_reply_normal. }
  split.
  { intros Hstart. subst b1. unfold handle_message.
    assert (Py.startswith ":" line = false) as ->.
    { destruct line as [|a l]; [done|]. cbn [Py.startswith] in Hstart |- *.
      destruct (Ascii.eqb_spec "P" a) as [<-|]; done. }
    rewrite Hstart. cbn [snd]. by rewrite sent_send_raw, Es. }
  split.
  { intros token. subst b1. unfold ping_of, handle_message.
    destruct (Py.startswith ":" line); [|done].
    destruct (Py.splitn " " 2 line) as [|p0 [|p1 [|p2 tl]]]; try done.
    destruct (p1 =? "PING")%string; [|done]. intros [= <-].
    cbn [snd]. rewrite sent_send_raw.
    change (sent (incr_month_messages_received
                    (incr_messages_received (check_month_change (now_month w) b))))
      with (sent (check_month_change (now_month w) b)).
    by rewrite Es. }
  split.
  { intros Hstart. subst b1. unfold ping_of, privmsg_of, handle_message.
    rewrite Hstart.
    destruct (Py.startswith ":" line); [|done].
    destruct (Py.splitn " " 2 line) as [|p0 [|p1 [|p2 tl]]]; try done.
    destruct (p1 =? "PING")%string; [done|].
    destruct (p1 =? "PRIVMSG")%string; [done|]. done. }
  split.
  { intros sender target text Hmsg.
    destruct (privmsg_reply commands w line sender target text b Hmsg)
      as [H|(_ & reply & _ & H)]; [by left|right; by exists reply]. }
  split.
  { intros H001. rewrite Hr. unfold server_reply. rewrite H001. cbn [snd].
    unfold join_channel. by rewrite sent_send_raw, Ec. }
  split.
  { intros H001 H433. rewrite Hr. unfold server_reply. rewrite H001, H433.
    unfold randint. replace (999 <? 1) with false by reflexivity. cbn [snd].
    exists (1 + raw (random b1) (used (random b1)) mod (999 - 1 + 1)).
    split.
    - pose proof (Z.mod_pos_bound (raw (random b1) (used (random b1))) (999 - 1 + 1)).
      lia.
    - rewrite sent_send_raw. cbn [nickname set_nickname set_random]. by rewrite En. }
  split.
  { intros H001 H433. rewrite Hr. unfold server_reply. rewrite H001, H433, Hping.
    cbn [snd]. by rewrite sent_send_raw. }
  split.
  { intros t v -> Hno. by apply (replace_leftmost "PIN" "G" "PONG" t v). }
  intros v. apply replace_absent.
Qed.

Lemma keepalive_reply_witness :
  Py.contains "PING" ":irc.example.org PING :xPINGy" = true
  /\ ping_of ":irc.example.org PING :xPINGy" = Some "xPINGy"
  /\ Py.contains "001" ":irc.example.org PING :xPINGy" = false
  /\ Py.contains "433" ":irc.example.org PING :xPINGy" = false
  /\ sent (handle_message commands Sample.january ":irc.example.org PING :xPINGy"
             Sample.bot).2
     = (sent Sample.bot ++ [("PONG :" +:+ "xPINGy") +:+ Py.CRLF])%list
  /\ sent (process_line commands Sample.january ":irc.example.org PING :xPINGy"
             Sample.bot).2
     = (sent (handle_message commands Sample.january ":irc.example.org PING :xPINGy"
                Sample.bot).2
        ++ [Py.replace "PING" "PONG" ":irc.example.org PING :xPINGy" +:+ Py.CRLF])%list
  /\ Py.replace "PING" "PONG" ":irc.example.org PING :xPINGy"
     = ":irc.example.org PONG :xPONGy".
Proof.
  pose proof (keepalive_reply Sample.january ":irc.example.org PING :xPINGy"
                Sample.bot eq_refl) as (_ & _ & Htoken & _ & _ & _ & _ & Hecho & _).
  split; [reflexivity|]. split; [reflexivity|]. split; [reflexivity|].
  split; [reflexivity|].
  split; [exact (Htoken "xPINGy" eq_refl)|].
  split; [exact (Hecho eq_refl eq_refl)|]. reflexivity.
Defined.

(** ** Rolling dice *)

Section Dice.
Import Py PyFacts.

Lemma strip_prefix_app (p s : string) : strip_prefix p (p +:+ s) = Some s.
Proof.
  induction p as [|a p IH]; [done|]. rewrite sapp_cons. cbn [strip_prefix].
  by rewrite Ascii.eqb_refl.
Qed.

Lemma span_digits_all (d : string) : all_digits d = true -> span_digits d = (d, "").
Proof.
  induction d as [|c d IH]; [done|]. cbn [all_digits span_digits].
  intros [Hc Hd]%andb_true_iff. by rewrite Hc, (IH Hd).
Qed.

Lemma span_digits_app (d : string) (c : ascii) (rest : string) :
  all_digits d = true -> isdigit c = false ->
  span_digits (d +:+ String c rest) = (d, String c rest).
Proof.
  intros Hd Hc. induction d as [|a d IH].
  - rewrite sapp_nil_l. cbn [span_digits]. by rewrite Hc.
  - rewrite sapp_cons. cbn [all_digits span_digits] in *.
    apply andb_true_iff in Hd as [Ha Hd]. by rewrite Ha, (IH Hd).
Qed.

(** The pattern finds a roll written out in digits. *)
Lemma search_dice_form (d1 d2 : string) :
  d1 <> "" -> d2 <> "" -> all_digits d1 = true -> all_digits d2 = true ->
  search_dice (".dice " +:+ d1 +:+ "d" +:+ d2) = Some (d1, d2).
Proof.
  intros N1 N2 H1 H2.
  assert (match_dice (".dice " +:+ d1 +:+ "d" +:+ d2) = Some (d1, d2)) as E.
  { unfold match_dice. rewrite strip_prefix_app.
    change ("d" +:+ d2) with (String "d" d2).
    rewrite span_digits_app by done.
    destruct d1 as [|a d1]; [done|]. cbn [Ascii.eqb Bool.eqb].
    rewrite span_digits_all by done. by destruct d2. }
  destruct (".dice " +:+ d1 +:+ "d" +:+ d2); cbn [search_dice]; by rewrite E.
Qed.

Lemma dice_form_not_bare (r : string) : ((".dice " +:+ r) =? ".dice")%string = false.
Proof. reflexivity. Qed.

Lemma roll_ok (n : nat) (sides : Z) (g : Rng) :
  1 <= sides ->
  exists rolls,
    roll n sides g = (Some rolls, drawn n g)
    /\ length rolls = n
    /\ Forall (fun v => 1 <= v <= sides) rolls.
Proof.
  intros Hs. revert g. induction n as [|n IH]; intros g.
  - exists []. unfold drawn. rewrite Nat.add_0_r. by destruct g.
  - cbn [roll]. unfold randint. destruct (Z.ltb_spec sides 1) as [|_]; [lia|].
    destruct (IH {| raw := raw g; used := S (used g) |}) as (vs & -> & Hl & Hf).
    eexists. split; [|split].
    + unfold drawn. cbn [raw used]. by rewrite Nat.add_succ_r.
    + cbn. by rewrite Hl.
    + constructor; [|done].
      pose proof (Z.mod_pos_bound (raw g (used g)) (sides - 1 + 1)). lia.
Qed.
End Dice.

(** The conversion of a group of digits: white space, signs and underscores
    play no part, and what is left of [int] is the limit on the number of
    digits. *)
Section IntOfDigits.
Import Py PyFacts.

Lemma isdigit_not_space (c : ascii) : isdigit c = true -> isspace c = false.
Proof. by destruct c as [[] [] [] [] [] [] [] []]. Qed.

Lemma isdigit_not_sign (c : ascii) :
  isdigit c = true -> Ascii.eqb c "+" = false /\ Ascii.eqb c "-" = false.
Proof. by destruct c as [[] [] [] [] [] [] [] []]. Qed.

Lemma all_digits_app (s t : string) :
  all_digits (s +:+ t) = all_digits s && all_digits t.
Proof.
  induction s as [|c s IH]; [by rewrite sapp_nil_l|].
  rewrite sapp_cons. cbn [all_digits]. by rewrite IH, andb_assoc.
Qed.

Lemma all_digits_rev (d : string) :
  all_digits d = true -> all_digits (String.rev d) = true.
Proof.
  induction d as [|c d IH]; [done|]. cbn [all_digits].
  intros [Hc Hd]%andb_true_iff.
  rewrite rev_cons, all_digits_app, (IH Hd). cbn [all_digits]. by rewrite Hc.
Qed.

Lemma lstrip_digits (d : string) : all_digits d = true -> lstrip d = d.
Proof.
  destruct d as [|c d]; [done|]. cbn [all_digits lstrip].
  intros [Hc _]%andb_true_iff. by rewrite (isdigit_not_space c Hc).
Qed.

Lemma strip_digits (d : string) : all_digits d = true -> strip d = d.
Proof.
  intros H. unfold strip. rewrite (lstrip_digits d H).
  rewrite (lstrip_digits _ (all_digits_rev d H)). apply rev_involutive.
Qed.

Lemma int_digits_digits (after_digit : bool) (d : string) :
  all_digits d = true -> d <> "" \/ after_digit = true ->
  int_digits after_digit d = Some d.
Proof.
  revert after_digit. induction d as [|c d IH]; intros after_digit Hd Hne.
  - destruct Hne as [Hne| ->]; done.
  - cbn [all_digits] in Hd. apply andb_true_iff in Hd as [Hc Hd].
    cbn [int_digits]. rewrite Hc, (IH true Hd); [done|by right].
Qed.

(** [int] on a group of digits: the number it denotes, unless the group has
    more than [max_str_digits] digits. *)
Lemma int_of_digits (d : string) :
  d <> "" -> all_digits d = true ->
  Py.int d = if (max_str_digits <? String.length d)%nat then None
             else Some (int_go 0 d).
Proof.
  intros Hne Hd. unfold Py.int. rewrite (strip_digits d Hd).
  destruct d as [|c d']; [done|].
  assert (Hc : isdigit c = true).
  { cbn [all_digits] in Hd. by apply andb_true_iff in Hd as [Hc _]. }
  destruct (isdigit_not_sign c Hc) as [-> ->].
  rewrite int_digits_digits; [|done|by left].
  destruct (max_str_digits <? String.length (String c d'))%nat; [done|].
  by rewrite Z.mul_1_l.
Qed.
End IntOfDigits.

(** X8.  A roll within the limits is what it says: for [.dice NdS] written
    in digits that [int] converts, with N at most 10 and S between 1 and 100,
    the handler draws exactly N times and reports N values, each between 1
    and S, and their sum as the total. *)
Theorem dice_roll_in_range (sender d1 d2 : string) (num_dice sides : Z)
    (b : Bot) (w : World) :
  d1 <> "" -> d2 <> "" -> all_digits d1 = true -> all_digits d2 = true ->
  Py.int d1 = Some num_dice -> Py.int d2 = Some sides ->
  num_dice <= 10 -> 1 <= sides <= 100 ->
  exists rolls,
    length rolls = Z.to_nat num_dice
    /\ Forall (fun v => 1 <= v <= sides) rolls
    /\ cmd_dice sender (".dice " +:+ d1 +:+ "d" +:+ d2) b w
       = (Return (Some (sender +:+ " rolled " +:+ Py.str num_dice +:+ "d"
                        +:+ Py.str sides +:+ ": " +:+ Py.str_list rolls
                        +:+ " (Total: " +:+ Py.str (sum rolls) +:+ ")")),
          drawn (Z.to_nat num_dice) (random b)).
Proof.
  intros N1 N2 H1 H2 E1 E2 Hn Hs.
  destruct (roll_ok (Z.to_nat num_dice) sides (random b)) as (rolls & Hr & Hl & Hf);
    [lia|].
  exists rolls. split; [done|]. split; [done|].
  unfold cmd_dice, cmd_dice_try.
  rewrite dice_form_not_bare, search_dice_form by done. rewrite E1, E2.
  assert ((num_dice >? 10) || (sides >? 100) = false) as ->.
  { apply orb_false_iff. rewrite !Z.gtb_ltb, !Z.ltb_ge. lia. }
  by rewrite Hr.
Qed.

Lemma dice_roll_in_range_witness :
  "3" <> "" /\ "20" <> "" /\ all_digits "3" = true /\ all_digits "20" = true
  /\ Py.int "3" = Some 3 /\ Py.int "20" = Some 20
  /\ 3 <= 10 /\ 1 <= 20 <= 100
  /\ exists rolls,
       length rolls = Z.to_nat 3
       /\ Forall (fun v => 1 <= v <= 20) rolls
       /\ (cmd_dice "nick" (".dice " +:+ "3" +:+ "d" +:+ "20") Sample.bot
             Sample.january).2
          = drawn (Z.to_nat 3) (random Sample.bot).
Proof.
  assert (A1 : "3" <> "") by discriminate.
  assert (A2 : "20" <> "") by discriminate.
  assert (A3 : Py.int "3" = Some 3) by reflexivity.
  assert (A4 : Py.int "20" = Some 20) by reflexivity.
  assert (A5 : 3 <= 10) by lia.
  assert (A6 : 1 <= 20 <= 100) by lia.
  split; [exact A1|]. split; [exact A2|]. split; [reflexivity|]. split; [reflexivity|].
  split; [exact A3|]. split; [exact A4|]. split; [exact A5|]. split; [exact A6|].
  destruct (dice_roll_in_range "nick" "3" "20" 3 20 Sample.bot Sample.january
              A1 A2 eq_refl eq_refl A3 A4 A5 A6) as (rolls & Hl & Hf & E).
  exists rolls. split; [exact Hl|]. split; [exact Hf|]. by rewrite E.
Defined.

(** X9.  The edges of [.dice NdS], written in digits; none of them draws a
    random number.  A group of more than 4300 digits: [int] raises and the
    bare [except] answers with the invalid-format text.  Groups that [int]
    converts, with more than 10 dice or more than 100 sides: the refusal
    text.  Within those limits, dice without sides: [random.randint] raises
    on the empty range and the bare [except] answers with the invalid-format
    text.  No dice at all: an empty roll with total 0. *)
Theorem dice_edges (sender d1 d2 : string) (b : Bot) (w : World) :
  d1 <> "" -> d2 <> "" -> all_digits d1 = true -> all_digits d2 = true ->
  let r := cmd_dice sender (".dice " +:+ d1 +:+ "d" +:+ d2) b w in
  ((Py.max_str_digits < String.length d1)%nat
   \/ (Py.max_str_digits < String.length d2)%nat ->
   r = (Return (Some dice_invalid), random b))
  /\ (forall num_dice sides,
        Py.int d1 = Some num_dice -> Py.int d2 = Some sides ->
        (10 < num_dice \/ 100 < sides ->
         r = (Return (Some dice_too_large), random b))
        /\ (1 <= num_dice <= 10 -> sides = 0 ->
            r = (Return (Some dice_invalid), random b))
        /\ (num_dice = 0 -> sides <= 100 ->
            r = (Return (Some (sender +:+ " rolled 0d" +:+ Py.str sides
                               +:+ ": [] (Total: 0)")), random b))).
Proof.
  intros N1 N2 H1 H2 r. subst r. unfold cmd_dice, cmd_dice_try.
  rewrite dice_form_not_bare, search_dice_form by done.
  split.
  - rewrite (int_of_digits d1), (int_of_digits d2) by done.
    intros [Hlong|Hlong].
    + apply Nat.ltb_lt in Hlong. by rewrite Hlong.
    + apply Nat.ltb_lt in Hlong. rewrite Hlong.
      by destruct (Py.max_str_digits <? String.length d1)%nat.
  - intros num_dice sides -> ->. split; [|split].
    + intros Hlarge.
      assert ((num_dice >? 10) || (sides >? 100) = true) as ->; [|done].
      apply orb_true_iff. rewrite !Z.gtb_lt. lia.
    + intros Hn ->.
      assert ((num_dice >? 10) || (0 >? 100) = false) as ->.
      { apply orb_false_iff. rewrite !Z.gtb_ltb, !Z.ltb_ge. lia. }
      destruct (Z.to_nat num_dice) eqn:E; [lia|]. done.
    + intros -> Hs.
      assert ((0 >? 10) || (sides >? 100) = false) as ->.
      { apply orb_false_iff. rewrite !Z.gtb_ltb, !Z.ltb_ge. lia. }
      cbn [Z.to_nat roll]. by destruct (random b).
Qed.

Lemma dice_edges_witness :
  Sample.long_digits <> "" /\ "6" <> ""
  /\ all_digits Sample.long_digits = true /\ all_digits "6" = true
  /\ (Py.max_str_digits < String.length Sample.long_digits)%nat
  /\ cmd_dice "nick" (".dice " +:+ Sample.long_digits +:+ "d" +:+ "6") Sample.bot
       Sample.january
     = (Return (Some dice_invalid), random Sample.bot).
Proof.
  assert (A1 : Sample.long_digits <> "") by (vm_compute; discriminate).
  assert (A2 : "6" <> "") by discriminate.
  assert (A3 : all_digits Sample.long_digits = true) by (vm_compute; reflexivity).
  assert (A4 : (Py.max_str_digits < String.length Sample.long_digits)%nat).
  { apply Nat.ltb_lt. vm_compute. reflexivity. }
  split; [exact A1|]. split; [exact A2|]. split; [exact A3|]. split; [reflexivity|].
  split; [exact A4|].
  exact (proj1 (dice_edges "nick" Sample.long_digits "6" Sample.bot Sample.january
                  A1 A2 A3 eq_refl) (or_introl A4)).
Defined.

(** ** A nickname in use *)

Lemma str_short_number (n : Z) : 1 <= n <= 999 -> short_number (Py.str n) = true.
Proof.
  intros Hn.
  assert (H : forallb (fun k => short_number (Py.str (Z.of_nat k))) (seq 1 999) = true)
    by (vm_compute; reflexivity).
  rewrite forallb_forall in H.
  rewrite <- (Z2Nat.id n) by lia. apply H, in_seq. lia.
Qed.

(** X10.  When the server reports the nickname in use (a line with ["433"]
    and no ["001"]), the bot keeps the rejected nickname and appends one to
    three digits, drawn with one random draw, so the new nickname is longer
    than, and different from, the rejected one; it is the one sent with
    [NICK], and a further collision appends to it again. *)
Theorem nickname_in_use_appends_digits (line : string) (b : Bot) :
  Py.contains "001" line = false ->
  Py.contains "433" line = true ->
  let b' := (server_reply line b).2 in
  exists suffix,
    nickname b' = nickname b +:+ suffix
    /\ short_number suffix = true
    /\ nickname b' <> nickname b
    /\ sent b' = (sent b ++ [("NICK " +:+ nickname b') +:+ Py.CRLF])%list
    /\ random b' = drawn 1 (random b).
Proof.
  intros H001 H433 b'. subst b'. unfold server_reply. rewrite H001, H433.
  unfold randint. replace (999 <? 1) with false by reflexivity. cbn [fst snd].
  set (n := 1 + raw (random b) (used (random b)) mod (999 - 1 + 1)).
  assert (Hn : 1 <= n <= 999).
  { subst n. pose proof (Z.mod_pos_bound (raw (random b) (used (random b))) (999 - 1 + 1)).
    lia. }
  pose proof (str_short_number n Hn) as Hshort.
  exists (Py.str n). rewrite sent_send_raw. cbn [nickname set_nickname set_random random].
  repeat split; try done.
  - intros E. apply (f_equal String.length) in E.
    cbn [nickname send_raw emit set_nickname] in E.
    rewrite PyFacts.strlen_app in E.
    unfold short_number in Hshort.
    apply andb_true_iff in Hshort as [[_ Hlen]%andb_true_iff _].
    apply Nat.leb_le in Hlen. lia.
  - unfold drawn. by rewrite Nat.add_1_r.
Qed.

Lemma nickname_in_use_appends_digits_witness :
  Py.contains "001" ":irc.example.org 433 * bot :Nickname is already in use" = false
  /\ Py.contains "433" ":irc.example.org 433 * bot :Nickname is already in use" = true
  /\ exists suffix,
       nickname (server_reply ":irc.example.org 433 * bot :Nickname is already in use"
                   Sample.bot).2 = nickname Sample.bot +:+ suffix
       /\ short_number suffix = true.
Proof.
  split; [reflexivity|]. split; [reflexivity|].
  destruct (nickname_in_use_appends_digits
              ":irc.example.org 433 * bot :Nickname is already in use" Sample.bot
              eq_refl eq_refl) as (suffix & H1 & H2 & _).
  exists suffix. split; [exact H1|exact H2].
Defined.

(** ** Picking an answer *)

Lemma choice_in (seq : list string) (g : Rng) :
  seq <> [] ->
  exists r, In r seq /\ choice seq g = (r, drawn 1 g).
Proof.
  intros Hne. unfold choice, drawn. eexists. split; [|by rewrite Nat.add_1_r].
  apply nth_In.
  assert (0 < Z.of_nat (length seq)) by (destruct seq; [done|cbn; lia]).
  pose proof (Z.mod_pos_bound (raw g (used g)) (Z.of_nat (length seq))). lia.
Qed.

(** X11.  The magic 8-ball and the joke command answer from their lists: the
    reply of [.8ball] is the fixed opening followed by one of the twenty
    listed responses, the reply of [.joke] is one of the eight listed jokes,
    whatever the sender and the message, and each uses one random draw. *)
Theorem answers_come_from_the_lists (sender message : string) (b : Bot) (w : World) :
  (exists r, In r eightball_responses
     /\ cmd_8ball sender message b w
        = (Return (Some ("Magic 8-Ball says: " +:+ r)), drawn 1 (random b)))
  /\ (exists r, In r jokes
        /\ cmd_joke sender message b w = (Return (Some r), drawn 1 (random b))).
Proof.
  split.
  - destruct (choice_in eightball_responses (random b)) as (r & Hin & E); [done|].
    exists r. split; [done|]. unfold cmd_8ball. by rewrite E.
  - destruct (choice_in jokes (random b)) as (r & Hin & E); [done|].
    exists r. split; [done|]. unfold cmd_joke. by rewrite E.
Qed.

(** ** All-time totals and monthly buckets *)

Section Totals.
Variable cmds : list (string * Handler).

Lemma sum_buckets_insert f m i k :
  m !! i = None -> sum_buckets f (<[i:=k]> m) = f k + sum_buckets f m.
Proof.
  intros H. unfold sum_buckets. rewrite map_fold_insert_L; [done| |done].
  intros. lia.
Qed.

Lemma sum_buckets_alter f g m i k :
  m !! i = Some k ->
  sum_buckets f (alter g i m) = sum_buckets f m - f k + f (g k).
Proof.
  intros H.
  assert (E1 : m = <[i:=k]> (delete i m)) by (by rewrite insert_delete_id).
  assert (E2 : alter g i m = <[i:=g k]> (delete i m)).
  { apply map_eq. intros j. rewrite lookup_alter, lookup_insert.
    case_decide; [subst; by rewrite H|]. by rewrite lookup_delete_ne. }
  rewrite E2. rewrite E1 at 2.
  rewrite !sum_buckets_insert by apply lookup_delete_eq. lia.
Qed.

Lemma sum_buckets_update f g b :
  month_ok b ->
  sum_buckets f (monthly_stats (stats (update_monthly g b)))
  = sum_buckets f (monthly_stats (stats b))
    - f (get_monthly_stats b) + f (g (get_monthly_stats b)).
Proof.
  intros [k Hk]. unfold get_monthly_stats. rewrite Hk. cbn.
  by apply sum_buckets_alter.
Qed.

Lemma tally_of_tally_eq sender d user :
  tally_of (tally sender d) user
  = tally_of d user + (if decide (sender = user) then 1 else 0).
Proof.
  unfold tally_of, tally. rewrite lookup_insert.
  case_decide; [subst; cbn; lia|lia].
Qed.

Lemma totals_ok_check_month now b :
  totals_ok (stats b) -> totals_ok (stats (check_month_change now b)).
Proof.
  intros (A1 & A2 & A3). unfold check_month_change.
  destruct (negb (now =? current_month b)%string); [|done].
  cbn. destruct (monthly_stats (stats b) !! now) eqn:E; [done|].
  repeat split; cbn; intros; rewrite sum_buckets_insert by done; cbn;
    rewrite ?A1, ?A2, ?A3; try lia.
  change (tally_of ∅ user) with 0. lia.
Qed.

Lemma totals_ok_incr_messages b :
  month_ok b -> totals_ok (stats b) ->
  totals_ok (stats (incr_month_messages_received (incr_messages_received b))).
Proof.
  intros Hok (A1 & A2 & A3).
  repeat split; intros;
    unfold incr_month_messages_received;
    rewrite (sum_buckets_update _ _ (incr_messages_received b)) by exact Hok;
    cbn; rewrite ?A1, ?A2, ?A3; lia.
Qed.

Lemma totals_ok_incr_commands b :
  month_ok b -> totals_ok (stats b) ->
  totals_ok (stats (incr_month_commands_processed (incr_commands_processed b))).
Proof.
  intros Hok (A1 & A2 & A3).
  repeat split; intros;
    unfold incr_month_commands_processed;
    rewrite (sum_buckets_update _ _ (incr_commands_processed b)) by exact Hok;
    cbn; rewrite ?A1, ?A2, ?A3; lia.
Qed.

Lemma totals_ok_tally sender b :
  month_ok b -> totals_ok (stats b) ->
  totals_ok (stats (tally_month_user sender (tally_user sender b))).
Proof.
  intros Hok (A1 & A2 & A3).
  repeat split; intros;
    unfold tally_month_user;
    rewrite (sum_buckets_update _ _ (tally_user sender b)) by exact Hok;
    cbn; rewrite ?tally_of_tally_eq, ?A1, ?A2, ?A3; lia.
Qed.

Lemma totals_ok_command_loop reply_to sender message w b :
  month_ok b -> totals_ok (stats b) ->
  totals_ok (stats (command_loop cmds reply_to sender message w b).2).
Proof.
  intros Hok H.
  destruct (command_loop_stats cmds reply_to sender message w b) as [-> _].
  destruct (first_match cmds message); [by apply totals_ok_incr_commands|done].
Qed.

Lemma totals_ok_handle_message w line b :
  month_ok b -> totals_ok (stats b) ->
  totals_ok (stats (handle_message cmds w line b).2).
Proof.
  intros Hok H.
  apply (check_month_change_month_ok (now_month w)) in Hok.
  apply (totals_ok_check_month (now_month w)) in H.
  unfold handle_message. set (b0 := check_month_change (now_month w) b) in *.
  destruct (Py.startswith ":" line).
  - destruct (Py.splitn " " 2 line) as [|p0 [|p1 [|p2 tl]]]; try done.
    pose proof (totals_ok_incr_messages b0 Hok H) as H1.
    assert (Hok1 : month_ok (incr_month_messages_received (incr_messages_received b0))).
    { apply (update_monthly_month_ok _ (incr_messages_received b0)). exact Hok. }
    destruct (p1 =? "PING")%string; [done|].
    destruct (p1 =? "PRIVMSG")%string; [|done].
    destruct (String.eqb _ _); unfold handle_channel_message, handle_private_message;
      apply totals_ok_command_loop; try done.
    + match goal with
      | |- month_ok (tally_month_user ?s (tally_user ?s ?x)) =>
          apply (update_monthly_month_ok _ (tally_user s x)); exact Hok1
      end.
    + by apply totals_ok_tally.
  - by destruct (Py.startswith "PING" line).
Qed.
End Totals.

(** X12.  In every state the bot reaches, the all-time figures are the sums
    of the monthly buckets: [messages_received] and [commands_processed] are
    the sums of the buckets' counters, and every user's all-time tally is the
    sum of that user's monthly tallies. *)
Theorem totals_are_sums_of_months (cmds : list (string * Handler)) (b : Bot) :
  reachable cmds b -> totals_ok (stats b).
Proof.
  intros Hreach.
  assert (H : month_ok b /\ totals_ok (stats b)); [|tauto].
  induction Hreach as [cfg month g|b w line _ [Hok IH]].
  - split; [unfold month_ok; cbn; rewrite lookup_singleton_eq; by eexists|].
    repeat split; cbn; intros; rewrite <- insert_empty;
      by rewrite sum_buckets_insert by apply lookup_empty.
  - split; [by apply month_ok_process_line|].
    unfold process_line. destruct (Py.truthy (Py.strip line)); [|done].
    pose proof (totals_ok_handle_message cmds w line b Hok IH) as H.
    destruct (handle_message cmds w line b) as [[|e] b1]; [|done].
    by rewrite server_reply_stats.
Qed.

Lemma totals_are_sums_of_months_witness :
  totals_ok
    (stats (process_line commands Sample.february
              ":nick!u@h PRIVMSG #chan :.ping" Sample.bot).2).
Proof.
  apply (totals_are_sums_of_months commands).
  apply reachable_line.
  exact (reachable_init commands Sample.cfg "01-2025" Sample.rng).
Defined.

(** ** The top users *)

Section TopUsers.
Implicit Types (x y : string * Z) (l items : list (string * Z)).

Lemma insert_desc_perm x l : Permutation (insert_desc x l) (x :: l).
Proof.
  induction l as [|y l IH]; [done|]. cbn [insert_desc].
  destruct (x.2 <? y.2); [|done]. rewrite IH. apply perm_swap.
Qed.

Lemma sorted_desc_perm items : Permutation (sorted_desc items) items.
Proof.
  induction items as [|x items IH]; [done|]. cbn [sorted_desc foldr].
  rewrite insert_desc_perm. by constructor.
Qed.

Lemma insert_desc_sorted x l :
  StronglySorted tally_ge l -> StronglySorted tally_ge (insert_desc x l).
Proof.
  induction 1 as [|y l Hs IH Hall]; [repeat constructor|].
  cbn [insert_desc]. destruct (Z.ltb_spec x.2 y.2) as [Hlt|Hge].
  - constructor; [done|]. rewrite insert_desc_perm. constructor; [|done].
    unfold tally_ge. lia.
  - constructor; [by constructor|]. constructor; [done|].
    eapply Forall_impl; [exact Hall|]. unfold tally_ge. intros z Hz. lia.
Qed.

Lemma sorted_desc_sorted items : StronglySorted tally_ge (sorted_desc items).
Proof.
  induction items as [|x items IH]; [constructor|]. by apply insert_desc_sorted.
Qed.

Lemma insert_desc_filter (c : Z) x l :
  filter (fun e => e.2 = c) (insert_desc x l) = filter (fun e => e.2 = c) (x :: l).
Proof.
  induction l as [|y l IH]; [done|]. cbn [insert_desc].
  destruct (Z.ltb_spec x.2 y.2) as [Hlt|Hge]; [|done].
  rewrite filter_cons, IH, !filter_cons.
  repeat case_decide; try done; lia.
Qed.

Lemma sorted_desc_filter (c : Z) items :
  filter (fun e => e.2 = c) (sorted_desc items) = filter (fun e => e.2 = c) items.
Proof.
  induction items as [|x items IH]; [done|]. cbn [sorted_desc foldr].
  rewrite insert_desc_filter, !filter_cons. fold (sorted_desc items). by rewrite IH.
Qed.
End TopUsers.

(** X13.  The top users are the top: [cmd_topusers] reports three items, or
    all of them when there are fewer, and together with the items it leaves
    out they are the items of the dictionary, each once, in descending order
    of tally, so that no item left out has a higher tally than a reported
    one; users with the same tally stay in the order of the dictionary. *)
Theorem top_users_are_the_top (items : list (string * Z)) :
  exists rest,
    Permutation (top_users items ++ rest)%list items
    /\ length (top_users items) = Nat.min 3 (length items)
    /\ StronglySorted tally_ge (top_users items ++ rest)%list
    /\ forall c, filter (fun e => e.2 = c) (top_users items ++ rest)%list
                 = filter (fun e => e.2 = c) items.
Proof.
  exists (drop 3 (sorted_desc items)). unfold top_users. rewrite take_drop.
  split; [apply sorted_desc_perm|]. split; [|split].
  - rewrite length_take. by rewrite (Permutation_length (sorted_desc_perm items)), Nat.min_comm.
  - apply sorted_desc_sorted.
  - intros c. apply sorted_desc_filter.
Qed.

Example top_two_of_two :
  top_users [("B", 1); ("A", 3)] = [("A", 3); ("B", 1)]
  /\ top_users [("A", 2); ("B", 5); ("C", 2); ("D", 2)] = [("B", 5); ("A", 2); ("C", 2)].
Proof. split; reflexivity. Qed.

Lemma head_insert_desc (x : string * Z) (l : list (string * Z)) :
  head (insert_desc x l)
  = match head l with
    | Some y => if x.2 <? y.2 then Some y else Some x
    | None => Some x
    end.
Proof. destruct l as [|y l]; [done|]. cbn [insert_desc head]. by destruct (x.2 <? y.2). Qed.

Lemma max_by_tally_head (best : string * Z) (l : list (string * Z)) :
  max_by_tally best l
  = match head (sorted_desc l) with
    | Some y => if best.2 <? y.2 then y else best
    | None => best
    end.
Proof.
  revert best. induction l as [|x l IH]; intros best; [done|].
  cbn [max_by_tally sorted_desc foldr]. fold (sorted_desc l).
  rewrite IH, head_insert_desc.
  destruct (head (sorted_desc l)) as [y|].
  - destruct (Z.ltb_spec best.2 x.2), (Z.ltb_spec x.2 y.2); cbn [snd];
      repeat match goal with
             | |- context [?a <? ?b] => destruct (Z.ltb_spec a b)
             end; try done; lia.
  - by destruct (best.2 <? x.2).
Qed.

(** X14.  The loudmouth of [.stats] is the first of the top users of
    [.topusers]: it is one of the items, no item has a higher tally, and among
    the users with the highest tally it is the one the dictionary has first. *)
Theorem loudmouth_is_the_first_top_user (items : list (string * Z)) :
  items <> [] ->
  head (top_users items) = Some (loudmouth items)
  /\ In (loudmouth items) items
  /\ Forall (fun e => e.2 <= (loudmouth items).2) items
  /\ head (filter (fun e => e.2 = (loudmouth items).2) items) = Some (loudmouth items).
Proof.
  intros Hne.
  assert (Hhead : head (sorted_desc items) = Some (loudmouth items)).
  { destruct items as [|x l]; [done|]. cbn [loudmouth sorted_desc foldr].
    fold (sorted_desc l). rewrite head_insert_desc, max_by_tally_head.
    by destruct (head (sorted_desc l)) as [y|]; [destruct (x.2 <? y.2)|]. }
  assert (Htop : head (top_users items) = Some (loudmouth items)).
  { unfold top_users. destruct (sorted_desc items); [done|]. by cbn in *. }
  split; [exact Htop|]. clear Htop.
  destruct (sorted_desc items) as [|m sorted] eqn:E; [done|].
  cbn [head] in Hhead. injection Hhead as <-.
  pose proof (sorted_desc_perm items) as Hperm. rewrite E in Hperm.
  pose proof (sorted_desc_sorted items) as Hsorted. rewrite E in Hsorted.
  apply StronglySorted_inv in Hsorted as [_ Hall].
  split; [|split].
  - apply list_elem_of_In. rewrite <- Hperm. by left.
  - rewrite <- Hperm. constructor; [lia|exact Hall].
  - rewrite <- (sorted_desc_filter m.2 items), E, filter_cons.
    by rewrite decide_True.
Qed.

Lemma loudmouth_is_the_first_top_user_witness :
  [("A", 2); ("B", 5); ("C", 5)] <> []
  /\ head (top_users [("A", 2); ("B", 5); ("C", 5)])
     = Some (loudmouth [("A", 2); ("B", 5); ("C", 5)]).
Proof.
  assert (H : [("A", 2); ("B", 5); ("C", 5)] <> []) by discriminate.
  split; [exact H|].
  exact (proj1 (loudmouth_is_the_first_top_user [("A", 2); ("B", 5); ("C", 5)] H)).
Defined.

(** ** The text of the top users *)

Section TopUsersText.
Import Py PyFacts.

(** Behind a closing parenthesis, [rstrip(', ')] takes exactly one
    separator away. *)
Lemma rstrip_separator (z : string) :
  rstrip_chars ", " ((z +:+ ")") +:+ ", ") = z +:+ ")".
Proof.
  unfold rstrip_chars. rewrite !rev_app.
  change (String.rev ", ") with " ,". change (String.rev ")") with ")".
  change (" ," +:+ ")" +:+ String.rev z) with (String " " (String "," (String ")" (String.rev z)))).
  cbn [lstrip_chars]. 
  change (Py.contains " " ", ") with true.
  change (Py.contains "," ", ") with true.
  change (Py.contains ")" ", ") with false. cbv iota.
  by rewrite rev_cons, rev_involutive.
Qed.

Lemma foldl_entries (acc : string) (l : list (string * Z)) :
  foldl (fun response e =>
           response +:+ (e.1 +:+ " (" +:+ Py.str e.2 +:+ " messages), ")) acc l
  = acc +:+ foldr (fun e s => (topusers_entry e +:+ ", ") +:+ s) "" l.
Proof.
  revert acc. induction l as [|e l IH]; intros acc; cbn [foldl foldr].
  - by rewrite sapp_nil_r.
  - rewrite IH. unfold topusers_entry. by rewrite !sapp_assoc.
Qed.

Lemma entries_join (l : list (string * Z)) :
  l <> [] ->
  foldr (fun e s => (topusers_entry e +:+ ", ") +:+ s) "" l
  = join ", " (topusers_entry <$> l) +:+ ", ".
Proof.
  induction l as [|e l IH]; [done|]. intros _. cbn [foldr fmap list_fmap].
  destruct l as [|e' l].
  - cbn [foldr fmap list_fmap join]. by rewrite sapp_nil_r.
  - rewrite IH by done.
    rewrite (join_cons ", " (topusers_entry e)) by done.
    by rewrite !sapp_assoc.
Qed.

Lemma join_entries_closed (l : list (string * Z)) :
  l <> [] -> exists z, join ", " (topusers_entry <$> l) = z +:+ ")".
Proof.
  induction l as [|e l IH]; [done|]. intros _. destruct l as [|e' l].
  - exists (e.1 +:+ " (" +:+ Py.str e.2 +:+ " messages").
    cbn [fmap list_fmap join]. unfold topusers_entry.
    rewrite !sapp_assoc. done.
  - destruct IH as [z Hz]; [done|].
    change (topusers_entry <$> e :: e' :: l)
      with (topusers_entry e :: (topusers_entry <$> e' :: l)).
    rewrite (join_cons ", " (topusers_entry e)) by done. rewrite Hz.
    exists (topusers_entry e +:+ ", " +:+ z). by rewrite !sapp_assoc.
Qed.

Lemma top_users_nonempty (items : list (string * Z)) : items <> [] -> top_users items <> [].
Proof.
  intros Hne E. apply (f_equal length) in E. unfold top_users in E.
  rewrite length_take, (Permutation_length (sorted_desc_perm items)) in E.
  destruct items; [done|]. cbn in E. lia.
Qed.
End TopUsersText.

(** X15.  The text of [.topusers]: with no tallies for the month the reply
    says so; otherwise it is the heading for the month followed by the top
    users, each with its number of messages, separated by a comma and a
    space, and the final [rstrip] removes exactly the separator behind the
    last one, whatever the names of the users. *)
Theorem topusers_reply_text (month : string) (items : list (string * Z)) :
  topusers_reply month [] = "No user data available for " +:+ month +:+ "."
  /\ (items <> [] ->
      topusers_reply month items
      = ("Top 3 users for " +:+ month +:+ ": ")
        +:+ Py.join ", " (topusers_entry <$> top_users items)).
Proof.
  split; [done|]. intros Hne.
  pose proof (top_users_nonempty items Hne) as Htop.
  unfold topusers_reply. destruct items as [|x l]; [done|].
  rewrite foldl_entries, entries_join by done.
  destruct (join_entries_closed _ Htop) as [z Hz]. rewrite Hz.
  set (h := "Top 3 users for " +:+ month +:+ ": ").
  replace (h +:+ (z +:+ ")") +:+ ", ") with (((h +:+ z) +:+ ")") +:+ ", ")
    by by rewrite !PyFacts.sapp_assoc.
  rewrite rstrip_separator. by rewrite PyFacts.sapp_assoc.
Qed.

Lemma topusers_reply_text_witness :
  [("A", 3); ("B", 1)] <> []
  /\ topusers_reply "01-2025" [("A", 3); ("B", 1)]
     = "Top 3 users for 01-2025: A (3 messages), B (1 messages)".
Proof.
  assert (H : [("A", 3); ("B", 1)] <> []) by discriminate.
  split; [exact H|].
  exact (proj2 (topusers_reply_text "01-2025" [("A", 3); ("B", 1)]) H).
Defined.

(** ** The results of a search *)

Section SearchResults.

Lemma numbered_nil : numbered [].
Proof. intros i s H. by rewrite lookup_nil in H. Qed.

Lemma numbered_snoc (results : list string) (text : string) :
  numbered results -> numbered (results ++ [result_number results +:+ text]).
Proof.
  intros H i s Hi. destruct (decide (i < length results)%nat) as [Hlt|Hge].
  - rewrite lookup_app_l in Hi by done. by apply H.
  - rewrite lookup_app_r in Hi by lia.
    destruct (i - length results)%nat as [|k] eqn:E; [|by destruct k].
    cbn in Hi. injection Hi as <-.
    assert (i = length results) as -> by lia.
    unfold result_number. apply startswith_self_app.
Qed.

Lemma add_topic_spec (results : list string) (topic : option string) :
  numbered results ->
  numbered (add_topic results topic)
  /\ (length results <= length (add_topic results topic) <= S (length results))%nat.
Proof.
  intros H. unfold add_topic. destruct topic as [text|]; [|split; [done|lia]].
  destruct (Py.truthy text); [|split; [done|lia]].
  split; [by apply numbered_snoc|]. rewrite length_app. cbn. lia.
Qed.

Lemma foldl_add_topic_spec (topics : list (option string)) (results : list string) :
  numbered results ->
  numbered (foldl add_topic results topics)
  /\ (length results <= length (foldl add_topic results topics)
      <= length results + length topics)%nat.
Proof.
  revert results. induction topics as [|t topics IH]; intros results H.
  - cbn. split; [done|lia].
  - cbn [foldl]. destruct (add_topic_spec results t H) as [H1 L1].
    destruct (IH _ H1) as [H2 L2]. split; [done|]. cbn [length]. lia.
Qed.

Lemma pad_results_spec (query : string) (n : nat) (results : list string) :
  numbered results ->
  numbered (pad_results query n results)
  /\ length (pad_results query n results) = (length results + n)%nat.
Proof.
  revert results. induction n as [|n IH]; intros results H; cbn [pad_results].
  - split; [done|lia].
  - destruct (IH _ (numbered_snoc results
                       ("Search for '" +:+ query +:+ "' on Google") H)) as [H1 L1].
    split; [done|]. rewrite L1, length_app. cbn. lia.
Qed.
End SearchResults.

(** X16.  [cmd_google] always has three results: whatever the answer of the
    search service holds (an abstract or none, any number of related topics,
    with or without text), the list it builds has exactly three entries,
    numbered 1, 2 and 3 in this order; missing ones are made up with the
    suggestion to search on Google.  So the list is never empty. *)
Theorem google_results_are_three (query : string) (data : SearchData) :
  length (google_results query data) = 3%nat
  /\ numbered (google_results query data).
Proof.
  unfold google_results.
  set (r1 := match AbstractText data with
             | Some text =>
                 if Py.truthy text then
                   ["1. " +:+ truncate 100 text +:+ " - "
                    +:+ default "No URL" (AbstractURL data)]
                 else []
             | None => []
             end).
  assert (H1 : numbered r1 /\ (length r1 <= 1)%nat).
  { subst r1.
    destruct (AbstractText data) as [text|]; [|split; [apply numbered_nil|cbn; lia]].
    destruct (Py.truthy text); [|split; [apply numbered_nil|cbn; lia]].
    split; [|cbn; lia]. intros i s Hi. destruct i as [|i]; [|by destruct i].
    cbn in Hi. by injection Hi as <-. }
  destruct H1 as [N1 L1].
  destruct (foldl_add_topic_spec (take (3 - length r1) (RelatedTopics data)) r1 N1)
    as [N2 L2].
  rewrite length_take in L2.
  set (r2 := foldl add_topic r1 (take (3 - length r1) (RelatedTopics data))) in *.
  destruct (pad_results_spec query (3 - length r2) r2 N2) as [N3 L3].
  split; [|done]. rewrite L3. lia.
Qed.

(** ** Country names *)

Lemma dict_get_cases (d : list (string * string)) (key default : string) :
  dict_get d key default = default \/ In (dict_get d key default) (snd <$> d).
Proof.
  induction d as [|[k v] d IH]; [by left|]. cbn [dict_get fmap list_fmap snd].
  destruct (String.eqb k key); [right; by left|].
  destruct IH as [IH|IH]; [by left|right; by right].
Qed.

(** X17.  Shortening a country name is stable: a name the table has is
    replaced by its code, any other name is returned as it is, and no code is
    itself a name of the table, so shortening twice gives what shortening
    once gives. *)
Theorem shorten_country_name_idempotent (country_name : string) :
  shorten_country_name (shorten_country_name country_name)
  = shorten_country_name country_name.
Proof.
  assert (Hcodes : Forall (fun code => shorten_country_name code = code)
                     (snd <$> country_mapping)).
  { repeat constructor. }
  unfold shorten_country_name at 2 3.
  destruct (dict_get_cases country_mapping country_name country_name) as [E|Hin].
  - rewrite E. exact E.
  - rewrite List.Forall_forall in Hcodes. by apply Hcodes.
Qed.
